(** * README generator: classification pipeline and version store

    A shallow embedding of the extension's core (language detector, project
    type classifier, badge synthesizer, offline fallback, template registry,
    generation orchestrator and version history store) together with the
    properties stated for it.

    Conventions.  JavaScript values keep their shape: strings are [string],
    counts are [nat], millisecond timestamps are [N], confidences are binary64
    [float]s, the manifest (typed [any] in the source) is a JSON value, object
    literals used as lookup tables are association lists read through
    [Js.get], which also sees the members every object literal inherits from
    [Object.prototype].  [Set]s are [gset]s.  Functions that can throw return
    a [Js.completion]. *)

From Stdlib Require Import Ascii String Floats.
From stdpp Require Import gmap strings pretty list sorting.

Set Warnings "-register-all,-inexact-float,-clear-no-such-hyp".
Local Open Scope string_scope.
Local Open Scope list_scope.
Local Open Scope nat_scope.
Local Open Scope stdpp_scope.

(* ================================================================== *)
(** * JavaScript primitives used by the sources *)
(* ================================================================== *)

Module Js.

(** Result of a call that may throw. *)
Inductive completion (A : Type) : Type :=
| Return (a : A)
| Throw (error : string).
Arguments Return {A} a.
Arguments Throw {A} error.

(** Property names that every object literal inherits from
    [Object.prototype]; reading one of them from a table yields a built-in
    function (or, for [__proto__], the prototype object), all truthy. *)
Definition Object_prototype_names : list string :=
  [ "constructor"; "__defineGetter__"; "__defineSetter__"; "hasOwnProperty";
    "__lookupGetter__"; "__lookupSetter__"; "isPrototypeOf";
    "propertyIsEnumerable"; "toString"; "valueOf"; "__proto__";
    "toLocaleString" ].

(** What [table[key]] evaluates to for an object literal [table]. *)
Inductive prop (A : Type) : Type :=
| Own (a : A)
| Inherited (name : string)
| Missing.
Arguments Own {A} a.
Arguments Inherited {A} name.
Arguments Missing {A}.

Fixpoint own {A : Type} (table : list (string * A)) (key : string) : option A :=
  match table with
  | [] => None
  | (k, v) :: rest => if String.eqb k key then Some v else own rest key
  end.

Definition get {A : Type} (table : list (string * A)) (key : string) : prop A :=
  match own table key with
  | Some v => Own v
  | None =>
      if existsb (String.eqb key) Object_prototype_names
      then Inherited key else Missing
  end.

(** The line feed, ["\n"]. *)
Definition LF : string := String "010"%char "".

(** The double quote. *)
Definition DQ : string := String (Ascii.ascii_of_nat 34) "".

(** [s.startsWith(p)] *)
Definition startsWith (s p : string) : bool := String.prefix p s.

(** [s.includes(sub)] *)
Fixpoint includes (s sub : string) : bool :=
  String.prefix sub s ||
  match s with
  | EmptyString => false
  | String _ rest => includes rest sub
  end.

(** [s.split(' ')[0]]: the text before the first space. *)
Fixpoint split_space_0 (s : string) : string :=
  match s with
  | EmptyString => EmptyString
  | String c rest =>
      if Ascii.eqb c " "%char then EmptyString else String c (split_space_0 rest)
  end.

(** [s.toLowerCase()] on the ASCII range.  The embedded functions take
    [String.prototype.toLowerCase] as a parameter; this one instantiates it
    for the sample inputs, which are ASCII. *)
Definition lower_ascii (c : Ascii.ascii) : Ascii.ascii :=
  let n := Ascii.nat_of_ascii c in
  if (65 <=? n) && (n <=? 90) then Ascii.ascii_of_nat (n + 32) else c.

Fixpoint toLowerCase (s : string) : string :=
  match s with
  | EmptyString => EmptyString
  | String c rest => String (lower_ascii c) (toLowerCase rest)
  end.

Definition upper_ascii (c : Ascii.ascii) : Ascii.ascii :=
  let n := Ascii.nat_of_ascii c in
  if (97 <=? n) && (n <=? 122) then Ascii.ascii_of_nat (n - 32) else c.

(** [s.charAt(0).toUpperCase() + s.slice(1)] *)
Definition capitalize (s : string) : string :=
  match s with
  | EmptyString => EmptyString
  | String c rest => String (upper_ascii c) rest
  end.

(** White space ([\s], [trim]) on the ASCII range. *)
Definition is_space (c : Ascii.ascii) : bool :=
  let n := Ascii.nat_of_ascii c in
  (n =? 32) || ((9 <=? n) && (n <=? 13)).

(** [s.replace(/\s+/g, '-')]; [in_run] tells that the previous character
    was white space. *)
Fixpoint dash_whitespace (in_run : bool) (s : string) : string :=
  match s with
  | EmptyString => EmptyString
  | String c rest =>
      if is_space c
      then (if in_run then dash_whitespace true rest
            else String "-"%char (dash_whitespace true rest))
      else String c (dash_whitespace false rest)
  end.

(** [s.replace(/%XY/g, by)] for the three-character pattern [%XY]. *)
Fixpoint replace_percent (x y : Ascii.ascii) (by_ : string) (s : string) : string :=
  match s with
  | EmptyString => EmptyString
  | String c tail =>
      match tail with
      | String a (String b rest) =>
          if Ascii.eqb c "%"%char && Ascii.eqb a x && Ascii.eqb b y
          then by_ +:+ replace_percent x y by_ rest
          else String c (replace_percent x y by_ tail)
      | _ => String c (replace_percent x y by_ tail)
      end
  end.

(** [xs.join(sep)] *)
Fixpoint join (sep : string) (xs : list string) : string :=
  match xs with
  | [] => ""
  | [x] => x
  | x :: rest => x +:+ sep +:+ join sep rest
  end.

(** [Array.prototype.sort] with a comparator [(a, b) => key(b) - key(a)]:
    descending in [key], and stable (ECMAScript 2019), so elements with equal
    keys keep their relative order. *)
Section sort.
Context {A : Type} (key : A → Z).

Fixpoint insert_desc (x : A) (l : list A) : list A :=
  match l with
  | [] => [x]
  | y :: l' => if (key x <? key y)%Z then y :: insert_desc x l' else x :: l
  end.

Definition sort_desc (l : list A) : list A := foldr insert_desc [] l.

(** [desc a b]: [a] may stand before [b] in the sorted array. *)
Definition desc (a b : A) : Prop := (key b ≤ key a)%Z.

End sort.

(** A file count as a JavaScript number (exact below [2^53]). *)
Definition number_of_nat (n : nat) : float :=
  PrimFloat.of_uint63 (Uint63.of_Z (Z.of_nat n)).

(** [Math.round x] for a finite [x >= 0]: the exact value [m * 2^e] of [x]
    rounded to the nearest integer, halves upwards. *)
Definition Math_round (x : float) : Z :=
  match Prim2SF x with
  | S754_finite false m e =>
      if (0 <=? e)%Z then Z.pos m * 2 ^ e
      else (2 * Z.pos m + 2 ^ (- e)) / 2 ^ (1 - e)
  | _ => 0
  end.

(** [Math.round((num / den) * 100)] as the source computes it: a binary64
    division, a binary64 multiplication, then the rounding. *)
Definition round_percent (num den : nat) : nat :=
  Z.to_nat (Math_round (number_of_nat num / number_of_nat den * 100)%float).

(** The same share with the quotient taken exactly:
    [floor (100 * num / den + 1/2)]. *)
Definition exact_percent (num den : nat) : Z :=
  (200 * Z.of_nat num + Z.of_nat den) / (2 * Z.of_nat den).

(** [Array.prototype.sort] with an arbitrary comparator, given as
    [after a b]: [comparator(a, b) > 0], i.e. [a] is to stand after [b].  The
    sort is stable: an element moves past a later one only when the
    comparator says so. *)
Section sort_with.
Context {A : Type} (after : A → A → bool).

Fixpoint insert_with (x : A) (l : list A) : list A :=
  match l with
  | [] => [x]
  | y :: l' => if after x y then y :: insert_with x l' else x :: l
  end.

Definition sort_with (l : list A) : list A := foldr insert_with [] l.

End sort_with.

(** [xs.push(x)] guarded by a condition, on an array threaded through
    successive statements. *)
Definition push_if {A : Type} (cond : bool) (x : A) (xs : list A) : list A :=
  if cond then xs ++ [x] else xs.

(** [s.split(sep)] for a one-character separator. *)
Fixpoint split_on (sep : Ascii.ascii) (s : string) : list string :=
  match s with
  | EmptyString => [EmptyString]
  | String c rest =>
      if Ascii.eqb c sep then EmptyString :: split_on sep rest
      else match split_on sep rest with
           | [] => [String c EmptyString]
           | piece :: pieces => String c piece :: pieces
           end
  end.

End Js.

(* ================================================================== *)
(** * Workspace scanner data (workspaceScanner.ts) *)
(* ================================================================== *)

(** The parsed manifest is typed [any]: an arbitrary JSON document. *)
Inductive json : Type :=
| JNull
| JBool (b : bool)
| JNum (n : float)
| JStr (s : string)
| JArr (items : list json)
| JObj (members : list (string * json)).

Module ProjectFile.
Record t : Type := mk {
  path : string;
  relativePath : string;
  name : string;
  extension : string;
  isDirectory : bool
}.
End ProjectFile.

(** [name] is declared a string, but [scanWorkspace] fills it with
    [packageJson?.name || path.basename(rootPath)] unchecked: it holds
    whatever truthy value the manifest has under [name]. *)
Module ProjectInfo.
Record t : Type := mk {
  name : json;
  rootPath : string;
  files : list ProjectFile.t;
  packageJson : option json;
  hasReadme : bool;
  existingReadmeContent : option string;
  configFiles : list string;
  sourceFiles : list string;
  totalFiles : nat
}.
End ProjectInfo.

(* ================================================================== *)
(** * Language detector (languageDetector.js) *)
(* ================================================================== *)

Module LanguageStat.
Record t : Type := mk {
  name : string;
  percentage : nat;
  fileCount : nat
}.
End LanguageStat.

Module LanguageDetector.

Definition LANGUAGE_MAP : list (string * string) :=
  [ (".js", "JavaScript"); (".jsx", "JavaScript (React)");
    (".ts", "TypeScript"); (".tsx", "TypeScript (React)");
    (".mjs", "JavaScript (ESM)"); (".cjs", "JavaScript (CommonJS)");
    (".py", "Python"); (".pyw", "Python"); (".java", "Java");
    (".kt", "Kotlin"); (".scala", "Scala"); (".go", "Go"); (".rs", "Rust");
    (".rb", "Ruby"); (".php", "PHP"); (".cs", "C#"); (".fs", "F#");
    (".cpp", "C++"); (".c", "C"); (".h", "C/C++ Header");
    (".hpp", "C++ Header"); (".swift", "Swift"); (".dart", "Dart");
    (".vue", "Vue.js"); (".svelte", "Svelte"); (".html", "HTML");
    (".css", "CSS"); (".scss", "SCSS"); (".sass", "Sass"); (".less", "Less") ].

(** [!file.isDirectory && LANGUAGE_MAP[file.extension]].  Extensions come from
    [path.extname(...).toLowerCase()], so they are empty or start with a dot
    and never name an inherited member; such a name is treated as
    unrecognised here. *)
Definition recognized (file : ProjectFile.t) : bool :=
  negb (ProjectFile.isDirectory file) &&
  match Js.get LANGUAGE_MAP (ProjectFile.extension file) with
  | Js.Own _ => true
  | _ => false
  end.

Definition language_name (ext : string) : string :=
  match Js.own LANGUAGE_MAP ext with
  | Some n => n
  | None => ""
  end.

(** [extensionCounts[ext] = (extensionCounts[ext] || 0) + 1] on an object
    whose keys are enumerated in insertion order. *)
Fixpoint bump (ext : string) (counts : list (string * nat)) : list (string * nat) :=
  match counts with
  | [] => [(ext, 1)]
  | (e, c) :: rest =>
      if String.eqb e ext then (e, S c) :: rest else (e, c) :: bump ext rest
  end.

(** First loop: the extension histogram and [totalFiles]. *)
Definition count_step (acc : list (string * nat) * nat) (file : ProjectFile.t)
  : list (string * nat) * nat :=
  if recognized file
  then (bump (ProjectFile.extension file) acc.1, S acc.2)
  else acc.

Definition count_files (files : list ProjectFile.t) : list (string * nat) * nat :=
  foldl count_step ([], 0) files.

Definition language_of (totalFiles : nat) (entry : string * nat) : LanguageStat.t :=
  LanguageStat.mk (language_name entry.1)
                  (Js.round_percent entry.2 totalFiles)
                  entry.2.

Definition by_fileCount (l : LanguageStat.t) : Z :=
  Z.of_nat (LanguageStat.fileCount l).

(** [existing = merged.find(l => l.name.startsWith(baseName))] followed by the
    in-place update of [existing]; the array is unchanged when nothing
    matches. *)
Fixpoint add_to_existing (baseName : string) (lang : LanguageStat.t)
    (merged : list LanguageStat.t) : list LanguageStat.t :=
  match merged with
  | [] => []
  | l :: rest =>
      if Js.startsWith (LanguageStat.name l) baseName
      then LanguageStat.mk (LanguageStat.name l)
             (LanguageStat.percentage l + LanguageStat.percentage lang)
             (LanguageStat.fileCount l + LanguageStat.fileCount lang) :: rest
      else l :: add_to_existing baseName lang rest
  end.

(** One iteration of the merge loop over ([merged], [seen]).  The object
    updated in place is an element visited earlier, so the iteration itself
    never observes the mutation. *)
Definition merge_step (acc : list LanguageStat.t * gset string)
    (lang : LanguageStat.t) : list LanguageStat.t * gset string :=
  let baseName := Js.split_space_0 (LanguageStat.name lang) in
  if bool_decide (baseName ∈ acc.2)
  then (add_to_existing baseName lang acc.1, acc.2)
  else (acc.1 ++ [lang], {[ baseName ]} ∪ acc.2).

Definition merge_languages (languages : list LanguageStat.t) : list LanguageStat.t :=
  (foldl merge_step ([], ∅) languages).1.

Definition detectLanguages (projectInfo : ProjectInfo.t) : list LanguageStat.t :=
  let '(extensionCounts, totalFiles) := count_files (ProjectInfo.files projectInfo) in
  if (totalFiles =? 0)%nat then []
  else
    let languages := map (language_of totalFiles) extensionCounts in
    let sorted := Js.sort_desc by_fileCount languages in
    take 5 (merge_languages sorted).

(** Helpers to write inputs down. *)
Definition file (name ext : string) : ProjectFile.t :=
  ProjectFile.mk name name name ext false.

Definition project (files : list ProjectFile.t) : ProjectInfo.t :=
  ProjectInfo.mk (JStr "demo") "/demo" files None false None [] [] (length files).

Definition total_fileCount (ls : list LanguageStat.t) : nat :=
  sum_list (LanguageStat.fileCount <$> ls).

(** [N]: the non-directory files whose extension is a recognised language. *)
Definition recognized_count (projectInfo : ProjectInfo.t) : nat :=
  length (filter (λ f, recognized f = true) (ProjectInfo.files projectInfo)).

(** The distinct base names (the text before the first space of the language
    label) among the recognised files. *)
Definition base_of (ext : string) : string :=
  Js.split_space_0 (language_name ext).

Definition base_name (l : LanguageStat.t) : string :=
  Js.split_space_0 (LanguageStat.name l).

Definition base_names (projectInfo : ProjectInfo.t) : gset string :=
  list_to_set
    ((base_of ∘ ProjectFile.extension) <$>
       filter (λ f, recognized f = true) (ProjectInfo.files projectInfo)).

(** [known ext]: [ext] is a key of [LANGUAGE_MAP]. *)
Definition known (ext : string) : Prop := is_Some (Js.own LANGUAGE_MAP ext).

(** The entry [e] of [merged] stands for the histogram entries [g]: it keeps
    the label of the first one and adds up their counts and rounded shares. *)
Definition group_ok (totalFiles : nat) (e : LanguageStat.t)
    (g : list (string * nat)) : Prop :=
  g ≠ [] ∧
  (∃ y, known y ∧ LanguageStat.name e = language_name y) ∧
  LanguageStat.percentage e =
    sum_list ((λ xc, Js.round_percent xc.2 totalFiles) <$> g) ∧
  LanguageStat.fileCount e = sum_list g.*2 ∧
  Forall (λ xc, known xc.1 ∧ base_of xc.1 = base_name e) g.

Definition merge_inv (totalFiles : nat) (done : list (string * nat))
    (acc : list LanguageStat.t * gset string) : Prop :=
  ∃ groups,
    Forall2 (group_ok totalFiles) acc.1 groups ∧
    mjoin groups ≡ₚ done ∧
    acc.2 = list_to_set (base_name <$> acc.1) ∧
    NoDup (base_name <$> acc.1).

(** Two facts about the table, decided by enumeration.  [shared_base_check]:
    when two different extensions share a base name, every label starting
    with that base name has that base name.  [group_size_check]: at most four
    extensions share a base name. *)
Definition shared_base_check : bool :=
  let exts := LANGUAGE_MAP.*1 in
  forallb (λ x, forallb (λ x0,
    if negb (String.eqb x x0) && String.eqb (base_of x) (base_of x0)
    then forallb (λ y,
           implb (Js.startsWith (language_name y) (base_of x))
                 (String.eqb (base_of y) (base_of x))) exts
    else true) exts) exts.

Definition group_size_check : bool :=
  let exts := LANGUAGE_MAP.*1 in
  forallb (λ x, length (filter (λ y, base_of y = base_of x) exts) <=? 4) exts.

(** Six files in six languages, and eight Python files under both Python
    extensions. *)
Definition six_languages : ProjectInfo.t :=
  project [ file "a.js" ".js"; file "b.py" ".py"; file "c.go" ".go";
            file "d.rs" ".rs"; file "e.rb" ".rb"; file "f.php" ".php" ].

Definition python_sources : ProjectInfo.t :=
  project [ file "a.py" ".py"; file "b.py" ".py"; file "c.py" ".py";
            file "t.pyw" ".pyw"; file "u.pyw" ".pyw"; file "v.pyw" ".pyw";
            file "w.pyw" ".pyw"; file "x.pyw" ".pyw" ].

End LanguageDetector.

(* ================================================================== *)
(** * Manifest access *)
(* ================================================================== *)

Module Json.

(** [v?.key] for an optional manifest value and a property name read by the
    sources.  None of those names is a built-in member of a string, number,
    boolean, array or plain object, so only an own property of an object can
    answer; [null] and [undefined] short-circuit to [undefined] ([None]). *)
Definition member (v : option json) (key : string) : option json :=
  match v with
  | Some (JObj members) => Js.own members key
  | _ => None
  end.

(** JavaScript truthiness; [None] is [undefined]. *)
Definition truthy (v : option json) : bool :=
  match v with
  | None | Some JNull => false
  | Some (JBool b) => b
  | Some (JNum n) => negb (PrimFloat.eqb n 0) && negb (PrimFloat.is_nan n)
  | Some (JStr s) => negb (String.eqb s "")
  | Some (JArr _) | Some (JObj _) => true
  end.

(** [v !== undefined] *)
Definition defined (v : option json) : bool :=
  match v with
  | Some _ => true
  | None => false
  end.

(** The own enumerable string keys that a spread [{...v}] copies: the
    members of an object, the indices of an array or of a string. *)
Definition indices (n : nat) : list string := pretty <$> seq 0 n.

Definition own_keys (v : option json) : list string :=
  match v with
  | Some (JObj members) => members.*1
  | Some (JArr items) => indices (length items)
  | Some (JStr s) => indices (String.length s)
  | _ => []
  end.

Section to_string.
(** [Number.prototype.toString] is taken as given. *)
Context (Number_toString : float → string).

(** String coercion, as in a template literal [`${v}`]. *)
Fixpoint to_string (v : json) : string :=
  match v with
  | JNull => "null"
  | JBool b => if b then "true" else "false"
  | JNum n => Number_toString n
  | JStr s => s
  | JArr items =>
      Js.join ","
        (List.map (λ item, match item with
                           | JNull => ""
                           | _ => to_string item
                           end) items)
  | JObj _ => "[object Object]"
  end.

(** String conversion looks up [toString] on an object; a parsed manifest
    holds no function, so an object with a member of that name has nothing to
    call ([valueOf] gives the object back) and the conversion throws.  An
    array converts its elements in turn. *)
Fixpoint coercible (v : json) : bool :=
  match v with
  | JArr items => forallb coercible items
  | JObj members => negb (existsb (λ member, String.eqb member.1 "toString") members)
  | _ => true
  end.

Definition conversion_error : string :=
  "TypeError: Cannot convert object to primitive value".

Definition coerce (v : json) : Js.completion string :=
  if coercible v then Js.Return (to_string v) else Js.Throw conversion_error.

End to_string.

End Json.

(* ================================================================== *)
(** * Detection result (languageDetector.js, [detectAll]) *)
(* ================================================================== *)

Module FrameworkMatch.
Record t : Type := mk {
  name : string;
  category : string;
  confidence : float
}.
End FrameworkMatch.

Module DetectionResult.
Record t : Type := mk {
  languages : list LanguageStat.t;
  frameworks : list FrameworkMatch.t;
  packageManager : option string;
  buildTools : list string;
  testFrameworks : list string
}.
End DetectionResult.

(* ================================================================== *)
(** * Framework and tool detection (languageDetector.js) *)
(* ================================================================== *)

Module FrameworkRule.
Record t : Type := mk {
  name : string;
  category : string;
  detect : ProjectInfo.t → float
}.
End FrameworkRule.

Module Detector.

(** [info.packageJson?.dependencies?.[key]] and
    [info.packageJson?.devDependencies?.[key]], as the truth value an [if]
    sees. *)
Definition dependency (info : ProjectInfo.t) (key : string) : bool :=
  Json.truthy
    (Json.member (Json.member (ProjectInfo.packageJson info) "dependencies") key).

Definition devDependency (info : ProjectInfo.t) (key : string) : bool :=
  Json.truthy
    (Json.member (Json.member (ProjectInfo.packageJson info) "devDependencies") key).

(** [info.configFiles.some(f => f.includes(part))] *)
Definition config_includes (info : ProjectInfo.t) (part : string) : bool :=
  existsb (λ f, Js.includes f part) (ProjectInfo.configFiles info).

(** [info.configFiles.includes(name)] *)
Definition config_named (info : ProjectInfo.t) (name : string) : bool :=
  existsb (λ f, String.eqb f name) (ProjectInfo.configFiles info).

(** [info.files.some(f => f.name === name)] *)
Definition file_named (info : ProjectInfo.t) (name : string) : bool :=
  existsb (λ f, String.eqb (ProjectFile.name f) name) (ProjectInfo.files info).

(** [info.files.some(f => f.extension === ext)] *)
Definition file_with_extension (info : ProjectInfo.t) (ext : string) : bool :=
  existsb (λ f, String.eqb (ProjectFile.extension f) ext) (ProjectInfo.files info).

Definition FRAMEWORK_RULES : list FrameworkRule.t :=
  [ (* JavaScript/TypeScript frameworks *)
    FrameworkRule.mk "React" "Frontend Framework" (λ info,
      if dependency info "react" then 1
      else if devDependency info "react" then 1
      else 0)%float;
    FrameworkRule.mk "Next.js" "Full-Stack Framework" (λ info,
      if dependency info "next" then 1
      else if config_includes info "next.config" then 1
      else 0)%float;
    FrameworkRule.mk "Vue.js" "Frontend Framework" (λ info,
      if dependency info "vue" then 1
      else if file_with_extension info ".vue" then 0.9
      else 0)%float;
    FrameworkRule.mk "Nuxt.js" "Full-Stack Framework" (λ info,
      if dependency info "nuxt" then 1
      else if config_includes info "nuxt.config" then 1
      else 0)%float;
    FrameworkRule.mk "Angular" "Frontend Framework" (λ info,
      if dependency info "@angular/core" then 1
      else if config_named info "angular.json" then 1
      else 0)%float;
    FrameworkRule.mk "Svelte" "Frontend Framework" (λ info,
      if dependency info "svelte" then 1
      else if file_with_extension info ".svelte" then 0.9
      else 0)%float;
    FrameworkRule.mk "Express.js" "Backend Framework" (λ info,
      if dependency info "express" then 1 else 0)%float;
    FrameworkRule.mk "Fastify" "Backend Framework" (λ info,
      if dependency info "fastify" then 1 else 0)%float;
    FrameworkRule.mk "NestJS" "Backend Framework" (λ info,
      if dependency info "@nestjs/core" then 1 else 0)%float;
    FrameworkRule.mk "Electron" "Desktop Framework" (λ info,
      if dependency info "electron" then 1
      else if devDependency info "electron" then 1
      else 0)%float;
    FrameworkRule.mk "React Native" "Mobile Framework" (λ info,
      if dependency info "react-native" then 1 else 0)%float;
    (* Python frameworks *)
    FrameworkRule.mk "Django" "Backend Framework" (λ info,
      if config_named info "manage.py" then 0.9
      else if file_named info "settings.py" then 0.7
      else 0)%float;
    FrameworkRule.mk "Flask" "Backend Framework" (λ info,
      let hasFlask :=
        existsb (λ f, String.eqb (ProjectFile.name f) "requirements.txt" ||
                      String.eqb (ProjectFile.name f) "Pipfile")
                (ProjectInfo.files info) in
      if hasFlask then 0.5 else 0)%float;
    FrameworkRule.mk "FastAPI" "Backend Framework" (λ info, 0%float);
    (* Other frameworks *)
    FrameworkRule.mk "Flutter" "Mobile Framework" (λ info,
      if file_named info "pubspec.yaml" then 1 else 0)%float;
    FrameworkRule.mk "Spring Boot" "Backend Framework" (λ info,
      if config_named info "pom.xml" || config_named info "build.gradle"
      then 0.5 else 0)%float;
    (* Build tools as frameworks *)
    FrameworkRule.mk "Vite" "Build Tool" (λ info,
      if devDependency info "vite" then 1
      else if config_includes info "vite.config" then 1
      else 0)%float;
    FrameworkRule.mk "Webpack" "Build Tool" (λ info,
      if devDependency info "webpack" then 1
      else if config_includes info "webpack.config" then 1
      else 0)%float;
    FrameworkRule.mk "Tailwind CSS" "CSS Framework" (λ info,
      if dependency info "tailwindcss" then 1
      else if devDependency info "tailwindcss" then 1
      else if existsb (λ f, String.eqb (ProjectFile.name f) "tailwind.config.js" ||
                            String.eqb (ProjectFile.name f) "tailwind.config.ts")
                      (ProjectInfo.files info) then 1
      else 0)%float ].

(** The match a rule pushes when its confidence is positive. *)
Definition match_of (projectInfo : ProjectInfo.t) (rule : FrameworkRule.t)
  : FrameworkMatch.t :=
  FrameworkMatch.mk (FrameworkRule.name rule) (FrameworkRule.category rule)
                    (FrameworkRule.detect rule projectInfo).

Definition fires (projectInfo : ProjectInfo.t) (rule : FrameworkRule.t) : bool :=
  (0 <? FrameworkRule.detect rule projectInfo)%float.

(** [(a, b) => b.confidence - a.confidence], as the sign the sort reads. *)
Definition by_confidence (a b : FrameworkMatch.t) : bool :=
  (0 <? FrameworkMatch.confidence b - FrameworkMatch.confidence a)%float.

(** [detectFrameworks(projectInfo)] *)
Definition detectFrameworks (projectInfo : ProjectInfo.t) : list FrameworkMatch.t :=
  let frameworks :=
    foldl (λ frameworks rule,
             Js.push_if (fires projectInfo rule) (match_of projectInfo rule)
                        frameworks)
          [] FRAMEWORK_RULES in
  (* Sort by confidence descending *)
  Js.sort_with by_confidence frameworks.

(** [detectPackageManager(projectInfo)]; [None] is [null]. *)
Definition detectPackageManager (projectInfo : ProjectInfo.t) : option string :=
  let files := ProjectFile.name <$> ProjectInfo.files projectInfo in
  let includes name := existsb (λ f, String.eqb f name) files in
  if includes "pnpm-lock.yaml" then Some "pnpm"
  else if includes "yarn.lock" then Some "yarn"
  else if includes "package-lock.json" then Some "npm"
  else if includes "bun.lockb" then Some "bun"
  else if includes "package.json" then Some "npm"
  else if includes "requirements.txt" || includes "Pipfile" then Some "pip"
  else if includes "Cargo.toml" then Some "cargo"
  else if includes "go.mod" then Some "go mod"
  else if includes "Gemfile" then Some "bundler"
  else if includes "composer.json" then Some "composer"
  else if includes "pom.xml" then Some "maven"
  else if includes "build.gradle" then Some "gradle"
  else None.

(** [detectBuildTools(projectInfo)] *)
Definition detectBuildTools (projectInfo : ProjectInfo.t) : list string :=
  let tools := [] in
  let tools :=
    Js.push_if (devDependency projectInfo "webpack" || config_includes projectInfo "webpack")
               "Webpack" tools in
  let tools :=
    Js.push_if (devDependency projectInfo "vite" || config_includes projectInfo "vite")
               "Vite" tools in
  let tools :=
    Js.push_if (devDependency projectInfo "rollup" || config_includes projectInfo "rollup")
               "Rollup" tools in
  let tools := Js.push_if (devDependency projectInfo "esbuild") "esbuild" tools in
  let tools := Js.push_if (devDependency projectInfo "parcel") "Parcel" tools in
  let tools := Js.push_if (config_named projectInfo "Makefile") "Make" tools in
  let tools := Js.push_if (config_named projectInfo "CMakeLists.txt") "CMake" tools in
  tools.

(** [detectTestFrameworks(projectInfo)] *)
Definition detectTestFrameworks (projectInfo : ProjectInfo.t) : list string :=
  let frameworks := [] in
  let frameworks := Js.push_if (devDependency projectInfo "jest") "Jest" frameworks in
  let frameworks := Js.push_if (devDependency projectInfo "mocha") "Mocha" frameworks in
  let frameworks := Js.push_if (devDependency projectInfo "vitest") "Vitest" frameworks in
  let frameworks := Js.push_if (devDependency projectInfo "cypress") "Cypress" frameworks in
  let frameworks :=
    Js.push_if (devDependency projectInfo "playwright" ||
                devDependency projectInfo "@playwright/test")
               "Playwright" frameworks in
  let frameworks :=
    Js.push_if (devDependency projectInfo "@testing-library/react")
               "React Testing Library" frameworks in
  let frameworks := Js.push_if (devDependency projectInfo "jasmine") "Jasmine" frameworks in
  let frameworks := Js.push_if (devDependency projectInfo "ava") "AVA" frameworks in
  frameworks.

(** [detectAll(projectInfo)] *)
Definition detectAll (projectInfo : ProjectInfo.t) : DetectionResult.t :=
  DetectionResult.mk
    (LanguageDetector.detectLanguages projectInfo)
    (detectFrameworks projectInfo)
    (detectPackageManager projectInfo)
    (detectBuildTools projectInfo)
    (detectTestFrameworks projectInfo).

(** The marker files of [detectPackageManager], in the order they are
    tested, with the manager each one selects. *)
Definition package_manager_markers : list (string * string) :=
  [ ("pnpm-lock.yaml", "pnpm"); ("yarn.lock", "yarn");
    ("package-lock.json", "npm"); ("bun.lockb", "bun");
    ("package.json", "npm"); ("requirements.txt", "pip"); ("Pipfile", "pip");
    ("Cargo.toml", "cargo"); ("go.mod", "go mod"); ("Gemfile", "bundler");
    ("composer.json", "composer"); ("pom.xml", "maven");
    ("build.gradle", "gradle") ].

(** The confidences a rule can report. *)
Definition confidence_levels : list float := [1; 0.9; 0.7; 0.5]%float.

(** A Vue project with a Django back end next to it, and a Python project
    known only by its requirements file. *)
Definition vue_django : ProjectInfo.t :=
  ProjectInfo.mk (JStr "demo") "/demo"
    [ LanguageDetector.file "App.vue" ".vue";
      LanguageDetector.file "manage.py" ".py";
      LanguageDetector.file "requirements.txt" ".txt" ]
    (Some (JObj [("dependencies", JObj [("express", JStr "^4.18.0")])]))
    false None ["manage.py"] ["App.vue"; "manage.py"] 3.

Definition python_requirements : ProjectInfo.t :=
  LanguageDetector.project [ LanguageDetector.file "requirements.txt" ".txt" ].

(** A project known as a Vite project only by its configuration file. *)
Definition vite_project : ProjectInfo.t :=
  ProjectInfo.mk (JStr "demo") "/demo"
    [ LanguageDetector.file "vite.config.ts" ".ts" ]
    None false None ["vite.config.ts"] ["vite.config.ts"] 1.

End Detector.

(* ================================================================== *)
(** * Workspace scanner, the returned record (workspaceScanner.ts) *)
(* ================================================================== *)

Module WorkspaceScanner.

Definition CONFIG_FILES : list string :=
  [ "package.json"; "tsconfig.json"; "webpack.config.js"; "vite.config.js";
    "vite.config.ts"; "next.config.js"; "next.config.mjs"; "nuxt.config.js";
    "nuxt.config.ts"; "angular.json"; "vue.config.js"; "rollup.config.js";
    "esbuild.config.js"; "requirements.txt"; "Pipfile"; "pyproject.toml";
    "setup.py"; "Cargo.toml"; "go.mod"; "Gemfile"; "composer.json"; "pom.xml";
    "build.gradle"; "CMakeLists.txt"; "Makefile"; "Dockerfile";
    "docker-compose.yml"; "docker-compose.yaml"; ".travis.yml";
    ".github/workflows"; "Jenkinsfile"; "azure-pipelines.yml"; "README.md";
    "LICENSE"; "CONTRIBUTING.md"; "CHANGELOG.md" ].

Definition SOURCE_EXTENSIONS : list string :=
  [ ".js"; ".jsx"; ".ts"; ".tsx"; ".mjs"; ".cjs";
    ".py"; ".pyw";
    ".java"; ".kt"; ".scala";
    ".go";
    ".rs";
    ".rb";
    ".php";
    ".cs"; ".fs";
    ".cpp"; ".c"; ".h"; ".hpp";
    ".swift";
    ".dart";
    ".vue"; ".svelte";
    ".html"; ".css"; ".scss"; ".sass"; ".less" ].

Definition is_config_file (f : ProjectFile.t) : bool :=
  negb (ProjectFile.isDirectory f) &&
  existsb (λ cf, String.eqb (ProjectFile.name f) cf ||
                 Js.includes (ProjectFile.relativePath f) cf) CONFIG_FILES.

Definition is_source_file (f : ProjectFile.t) : bool :=
  negb (ProjectFile.isDirectory f) &&
  existsb (String.eqb (ProjectFile.extension f)) SOURCE_EXTENSIONS.

(** The record [scanWorkspace] returns, given what its reads produced:
    [path.basename(rootPath)], the entries the directory walk kept, the
    parsed manifest and the text of an existing [README.md].  The walk
    itself, with its ignore rules, is not modelled. *)
Definition project_info (basename rootPath : string) (files : list ProjectFile.t)
    (packageJson : option json) (existingReadmeContent : option string)
  : ProjectInfo.t :=
  (* [packageJson?.name || path.basename(rootPath)] *)
  let name :=
    match Json.member packageJson "name" with
    | Some value => if Json.truthy (Some value) then value else JStr basename
    | None => JStr basename
    end in
  let hasReadme :=
    match existingReadmeContent with
    | Some content => negb (String.eqb content "")
    | None => false
    end in
  let configFiles :=
    ProjectFile.relativePath <$> filter (λ f, is_config_file f = true) files in
  let sourceFiles :=
    ProjectFile.relativePath <$> filter (λ f, is_source_file f = true) files in
  ProjectInfo.mk name rootPath files packageJson hasReadme existingReadmeContent
    configFiles sourceFiles
    (length (filter (λ f, ProjectFile.isDirectory f = false) files)).

End WorkspaceScanner.

(* ================================================================== *)
(** * Project type classifier (projectTypeDetector.js) *)
(* ================================================================== *)

(** The nine archetypes ([ProjectTypeResult.type]). *)
Inductive ProjectType : Type :=
| monorepo | mobile | desktop | cli | library
| fullstack | web_app | backend | unknown.

Module ProjectTypeResult.
Record t : Type := mk {
  type : ProjectType;
  displayName : string;
  confidence : float;
  reason : string
}.
End ProjectTypeResult.

Module ProjectTypeDetector.

(** The string each archetype is written as in the source. *)
Definition type_label (t : ProjectType) : string :=
  match t with
  | monorepo => "monorepo" | mobile => "mobile" | desktop => "desktop"
  | cli => "cli" | library => "library" | fullstack => "fullstack"
  | web_app => "web-app" | backend => "backend" | unknown => "unknown"
  end.

(** [names.includes(f.name)] *)
Definition named_in (names : list string) (f : FrameworkMatch.t) : bool :=
  existsb (String.eqb (FrameworkMatch.name f)) names.

(** [frameworks.some(f => names.includes(f.name))] *)
Definition has_framework (names : list string) (frameworks : list FrameworkMatch.t) : bool :=
  existsb (named_in names) frameworks.

(** [`Using ${frameworks.find(f => names.includes(f.name))?.name}`] *)
Definition using_framework (names : list string) (frameworks : list FrameworkMatch.t) : string :=
  "Using " +:+
  match find (named_in names) frameworks with
  | Some f => FrameworkMatch.name f
  | None => "undefined"
  end.

Definition has_file (p : ProjectFile.t → bool) (files : list ProjectFile.t) : bool :=
  existsb p files.

Section classifier.
(** [String.prototype.toLowerCase] is taken as given: keywords are free
    text, and the built-in maps more than the letters A to Z. *)
Context (toLowerCase : string → string).

Definition is_cli_keyword (k : string) : bool :=
  Js.includes (toLowerCase k) "cli" || Js.includes (toLowerCase k) "command".

(** [keywords.some(k => k.toLowerCase().includes(...) || ...)] on an array:
    elements are tested in order up to the first match; an element that is
    not a string has no [toLowerCase], and calling it throws. *)
Fixpoint some_cli_keyword (items : list json) : Js.completion bool :=
  match items with
  | [] => Js.Return false
  | JStr k :: rest =>
      if is_cli_keyword k then Js.Return true else some_cli_keyword rest
  | _ :: _ => Js.Throw "TypeError: k.toLowerCase is not a function"
  end.

(** [pkg?.keywords?.some(...)], as the truth value the [if] sees.  A
    [keywords] value that is neither absent, [null] nor an array has no
    method [some]. *)
Definition hasCliKeyword (pkg : option json) : Js.completion bool :=
  match Json.member pkg "keywords" with
  | None | Some JNull => Js.Return false
  | Some (JArr items) => some_cli_keyword items
  | Some _ => Js.Throw "TypeError: pkg.keywords.some is not a function"
  end.

Definition bit (b : bool) : nat := if b then 1 else 0.

(** The tests of [detectProjectType], under the names of its constants. *)
Definition hasWorkspaces (projectInfo : ProjectInfo.t) : bool :=
  Json.truthy (Json.member (ProjectInfo.packageJson projectInfo) "workspaces") ||
  has_file (λ f, String.eqb (ProjectFile.name f) "lerna.json" ||
                 String.eqb (ProjectFile.name f) "pnpm-workspace.yaml")
           (ProjectInfo.files projectInfo).

Definition mobileFrameworks : list string :=
  ["React Native"; "Flutter"; "Ionic"; "Cordova"].
Definition desktopFrameworks : list string := ["Electron"; "Tauri"].
Definition fullstackFrameworks : list string :=
  ["Next.js"; "Nuxt.js"; "SvelteKit"; "Remix"].
Definition frontendFrameworks : list string :=
  ["React"; "Vue.js"; "Angular"; "Svelte"].
Definition backendFrameworks : list string :=
  ["Express.js"; "Fastify"; "NestJS"; "Django"; "Flask"; "FastAPI"; "Spring Boot"].

Definition hasBinField (pkg : option json) : bool :=
  Json.defined (Json.member pkg "bin").
Definition hasMain (pkg : option json) : bool :=
  Json.defined (Json.member pkg "main").
Definition hasTypes (pkg : option json) : bool :=
  Json.defined (Json.member pkg "types") || Json.defined (Json.member pkg "typings").
Definition hasExports (pkg : option json) : bool :=
  Json.defined (Json.member pkg "exports").
(** [pkg?.private === true] *)
Definition isPrivate (pkg : option json) : bool :=
  match Json.member pkg "private" with
  | Some (JBool true) => true
  | _ => false
  end.
Definition libraryScore (pkg : option json) : nat :=
  bit (hasMain pkg) + bit (hasTypes pkg) + bit (hasExports pkg) +
  bit (negb (isPrivate pkg)).

Definition hasPublicFolder (files : list ProjectFile.t) : bool :=
  has_file (λ f, String.eqb (ProjectFile.name f) "public" &&
                 ProjectFile.isDirectory f) files.
Definition hasIndexHtml (files : list ProjectFile.t) : bool :=
  has_file (λ f, String.eqb (ProjectFile.name f) "index.html") files.
Definition hasServerFile (files : list ProjectFile.t) : bool :=
  has_file (λ f, existsb (String.eqb (ProjectFile.name f))
                   ["server.js"; "server.ts"; "app.js"; "app.ts";
                    "index.js"; "main.py"; "app.py"]) files.

Definition detectProjectType (projectInfo : ProjectInfo.t)
    (detection : DetectionResult.t) : Js.completion ProjectTypeResult.t :=
  let pkg := ProjectInfo.packageJson projectInfo in
  let frameworks := DetectionResult.frameworks detection in
  let files := ProjectInfo.files projectInfo in
  (* Check for monorepo indicators *)
  if hasWorkspaces projectInfo then
    Js.Return (ProjectTypeResult.mk monorepo "Monorepo" 0.9
                 "Detected workspace configuration")
  else
  (* Check for mobile frameworks *)
  if has_framework mobileFrameworks frameworks then
    Js.Return (ProjectTypeResult.mk mobile "Mobile App" 0.95
                 (using_framework mobileFrameworks frameworks))
  else
  (* Check for desktop frameworks *)
  if has_framework desktopFrameworks frameworks then
    Js.Return (ProjectTypeResult.mk desktop "Desktop App" 0.95
                 (using_framework desktopFrameworks frameworks))
  else
  (* Check for CLI indicators: both constants are computed before the test *)
  match hasCliKeyword pkg with
  | Js.Throw e => Js.Throw e
  | Js.Return hasCliKeyword =>
  if hasBinField pkg || hasCliKeyword then
    Js.Return (ProjectTypeResult.mk cli "CLI Tool" 0.85
                 (if hasBinField pkg then "Has bin field in package.json"
                  else "CLI-related keywords"))
  else
  (* Check for library indicators *)
  if (2 <=? libraryScore pkg) && negb (isPrivate pkg) then
    Js.Return (ProjectTypeResult.mk library "Library/Package"
                 (0.7 + Js.number_of_nat (libraryScore pkg) * 0.05)%float
                 "Has library configuration (main, types, exports)")
  else
  (* Check for fullstack frameworks *)
  if has_framework fullstackFrameworks frameworks then
    Js.Return (ProjectTypeResult.mk fullstack "Full-Stack App" 0.9
                 (using_framework fullstackFrameworks frameworks))
  else
  (* Check for frontend and backend frameworks *)
  let hasFrontendFramework := has_framework frontendFrameworks frameworks in
  let hasBackendFramework := has_framework backendFrameworks frameworks in
  if hasFrontendFramework && hasBackendFramework then
    Js.Return (ProjectTypeResult.mk fullstack "Full-Stack App" 0.85
                 "Has both frontend and backend frameworks")
  else if hasFrontendFramework then
    Js.Return (ProjectTypeResult.mk web_app "Web Application" 0.85
                 (using_framework frontendFrameworks frameworks))
  else if hasBackendFramework then
    Js.Return (ProjectTypeResult.mk backend "Backend/API" 0.85
                 (using_framework backendFrameworks frameworks))
  else
  (* Check file structure *)
  if hasPublicFolder files || hasIndexHtml files then
    Js.Return (ProjectTypeResult.mk web_app "Web Application" 0.6
                 "Has public folder or index.html")
  else
  (* Check for server files *)
  if hasServerFile files && negb (hasPublicFolder files) && negb (hasIndexHtml files) then
    Js.Return (ProjectTypeResult.mk backend "Backend/API" 0.6
                 "Has server entry file")
  else
    Js.Return (ProjectTypeResult.mk unknown "Project" 0.3
                 "Could not determine project type")
  end.

End classifier.

(** The number of library-style fields the manifest exposes, [types] and
    [typings] counting as one. *)
Definition library_fields (pkg : option json) : nat :=
  bit (hasMain pkg) + bit (hasTypes pkg) + bit (hasExports pkg).

(** [keywords] is absent, [null], or an array of strings. *)
Definition keywords_well_formed (pkg : option json) : Prop :=
  match Json.member pkg "keywords" with
  | None | Some JNull => True
  | Some (JArr items) => Forall (λ k, ∃ s, k = JStr s) items
  | Some _ => False
  end.

Definition confidence_of (r : Js.completion ProjectTypeResult.t) : option float :=
  match r with
  | Js.Return r => Some (ProjectTypeResult.confidence r)
  | Js.Throw _ => None
  end.

Definition type_of (r : Js.completion ProjectTypeResult.t) : option ProjectType :=
  match r with
  | Js.Return r => Some (ProjectTypeResult.type r)
  | Js.Throw _ => None
  end.

(** Inputs used below. *)
Definition manifest_project (pkg : json) : ProjectInfo.t :=
  ProjectInfo.mk (JStr "demo") "/demo" [] (Some pkg) false None [] [] 0.

Definition detected (frameworks : list FrameworkMatch.t) : DetectionResult.t :=
  DetectionResult.mk [] frameworks None [] [].

Definition react_native : FrameworkMatch.t :=
  FrameworkMatch.mk "React Native" "Mobile Framework" 1.

End ProjectTypeDetector.

(* ================================================================== *)
(** * Badge synthesizer (badgeGenerator.js) *)
(* ================================================================== *)

Module TechBadge.
Record t : Type := mk {
  name : string;
  color : string;
  logo : string;
  logoColor : string
}.
End TechBadge.

Module Badge.
Record t : Type := mk {
  label : string;
  markdown : string;
  category : string
}.
End Badge.

Global Instance badge_eq_dec : EqDecision Badge.t.
Proof. solve_decision. Defined.

Module BadgesByCategory.
Record t : Type := mk {
  language : list Badge.t;
  framework : list Badge.t;
  database : list Badge.t;
  tool : list Badge.t;
  cloud : list Badge.t;
  meta : list Badge.t
}.
End BadgesByCategory.

Module BadgeGenerator.

Definition TECH_BADGES : list (string * TechBadge.t) :=
  [ ("javascript", TechBadge.mk "JavaScript" "F7DF1E" "javascript" "black");
    ("typescript", TechBadge.mk "TypeScript" "3178C6" "typescript" "white");
    ("python", TechBadge.mk "Python" "3776AB" "python" "white");
    ("java", TechBadge.mk "Java" "ED8B00" "openjdk" "white");
    ("go", TechBadge.mk "Go" "00ADD8" "go" "white");
    ("rust", TechBadge.mk "Rust" "000000" "rust" "white");
    ("ruby", TechBadge.mk "Ruby" "CC342D" "ruby" "white");
    ("php", TechBadge.mk "PHP" "777BB4" "php" "white");
    ("csharp", TechBadge.mk "C%23" "239120" "csharp" "white");
    ("cpp", TechBadge.mk "C%2B%2B" "00599C" "cplusplus" "white");
    ("c", TechBadge.mk "C" "A8B9CC" "c" "black");
    ("swift", TechBadge.mk "Swift" "FA7343" "swift" "white");
    ("kotlin", TechBadge.mk "Kotlin" "7F52FF" "kotlin" "white");
    ("dart", TechBadge.mk "Dart" "0175C2" "dart" "white");
    ("html", TechBadge.mk "HTML5" "E34F26" "html5" "white");
    ("css", TechBadge.mk "CSS3" "1572B6" "css3" "white");
    ("sass", TechBadge.mk "Sass" "CC6699" "sass" "white");
    ("lua", TechBadge.mk "Lua" "2C2D72" "lua" "white");
    ("perl", TechBadge.mk "Perl" "39457E" "perl" "white");
    ("r", TechBadge.mk "R" "276DC3" "r" "white");
    ("scala", TechBadge.mk "Scala" "DC322F" "scala" "white");
    ("elixir", TechBadge.mk "Elixir" "4B275F" "elixir" "white");
    ("haskell", TechBadge.mk "Haskell" "5D4F85" "haskell" "white");
    ("clojure", TechBadge.mk "Clojure" "5881D8" "clojure" "white");
    ("react", TechBadge.mk "React" "61DAFB" "react" "black");
    ("vue", TechBadge.mk "Vue.js" "4FC08D" "vuedotjs" "white");
    ("angular", TechBadge.mk "Angular" "DD0031" "angular" "white");
    ("svelte", TechBadge.mk "Svelte" "FF3E00" "svelte" "white");
    ("next", TechBadge.mk "Next.js" "000000" "nextdotjs" "white");
    ("nuxt", TechBadge.mk "Nuxt.js" "00DC82" "nuxtdotjs" "white");
    ("gatsby", TechBadge.mk "Gatsby" "663399" "gatsby" "white");
    ("astro", TechBadge.mk "Astro" "FF5D01" "astro" "white");
    ("solid", TechBadge.mk "Solid.js" "2C4F7C" "solid" "white");
    ("remix", TechBadge.mk "Remix" "000000" "remix" "white");
    ("preact", TechBadge.mk "Preact" "673AB8" "preact" "white");
    ("alpine", TechBadge.mk "Alpine.js" "8BC0D0" "alpinedotjs" "black");
    ("htmx", TechBadge.mk "HTMX" "3D72D7" "htmx" "white");
    ("node", TechBadge.mk "Node.js" "339933" "nodedotjs" "white");
    ("express", TechBadge.mk "Express" "000000" "express" "white");
    ("nestjs", TechBadge.mk "NestJS" "E0234E" "nestjs" "white");
    ("fastify", TechBadge.mk "Fastify" "000000" "fastify" "white");
    ("koa", TechBadge.mk "Koa" "33333D" "koa" "white");
    ("django", TechBadge.mk "Django" "092E20" "django" "white");
    ("flask", TechBadge.mk "Flask" "000000" "flask" "white");
    ("fastapi", TechBadge.mk "FastAPI" "009688" "fastapi" "white");
    ("spring", TechBadge.mk "Spring" "6DB33F" "spring" "white");
    ("rails", TechBadge.mk "Rails" "CC0000" "rubyonrails" "white");
    ("laravel", TechBadge.mk "Laravel" "FF2D20" "laravel" "white");
    ("gin", TechBadge.mk "Gin" "00ADD8" "gin" "white");
    ("fiber", TechBadge.mk "Fiber" "00ACD7" "go" "white");
    ("actix", TechBadge.mk "Actix" "000000" "rust" "white");
    ("deno", TechBadge.mk "Deno" "000000" "deno" "white");
    ("bun", TechBadge.mk "Bun" "000000" "bun" "white");
    ("tailwind", TechBadge.mk "Tailwind" "06B6D4" "tailwindcss" "white");
    ("bootstrap", TechBadge.mk "Bootstrap" "7952B3" "bootstrap" "white");
    ("mui", TechBadge.mk "MUI" "007FFF" "mui" "white");
    ("chakra", TechBadge.mk "Chakra%20UI" "319795" "chakraui" "white");
    ("antdesign", TechBadge.mk "Ant%20Design" "0170FE" "antdesign" "white");
    ("shadcn", TechBadge.mk "shadcn/ui" "000000" "shadcnui" "white");
    ("radix", TechBadge.mk "Radix%20UI" "161618" "radixui" "white");
    ("bulma", TechBadge.mk "Bulma" "00D1B2" "bulma" "white");
    ("styled", TechBadge.mk "Styled%20Components" "DB7093" "styledcomponents" "white");
    ("mongodb", TechBadge.mk "MongoDB" "47A248" "mongodb" "white");
    ("postgresql", TechBadge.mk "PostgreSQL" "4169E1" "postgresql" "white");
    ("mysql", TechBadge.mk "MySQL" "4479A1" "mysql" "white");
    ("sqlite", TechBadge.mk "SQLite" "003B57" "sqlite" "white");
    ("redis", TechBadge.mk "Redis" "DC382D" "redis" "white");
    ("supabase", TechBadge.mk "Supabase" "3FCF8E" "supabase" "white");
    ("firebase", TechBadge.mk "Firebase" "FFCA28" "firebase" "black");
    ("prisma", TechBadge.mk "Prisma" "2D3748" "prisma" "white");
    ("dynamodb", TechBadge.mk "DynamoDB" "4053D6" "amazondynamodb" "white");
    ("elasticsearch", TechBadge.mk "Elasticsearch" "005571" "elasticsearch" "white");
    ("neo4j", TechBadge.mk "Neo4j" "4581C3" "neo4j" "white");
    ("cassandra", TechBadge.mk "Cassandra" "1287B1" "apachecassandra" "white");
    ("couchdb", TechBadge.mk "CouchDB" "E42528" "apachecouchdb" "white");
    ("mariadb", TechBadge.mk "MariaDB" "003545" "mariadb" "white");
    ("jest", TechBadge.mk "Jest" "C21325" "jest" "white");
    ("mocha", TechBadge.mk "Mocha" "8D6748" "mocha" "white");
    ("cypress", TechBadge.mk "Cypress" "17202C" "cypress" "white");
    ("playwright", TechBadge.mk "Playwright" "2EAD33" "playwright" "white");
    ("vitest", TechBadge.mk "Vitest" "6E9F18" "vitest" "white");
    ("pytest", TechBadge.mk "Pytest" "0A9EDC" "pytest" "white");
    ("junit", TechBadge.mk "JUnit5" "25A162" "junit5" "white");
    ("webpack", TechBadge.mk "Webpack" "8DD6F9" "webpack" "black");
    ("vite", TechBadge.mk "Vite" "646CFF" "vite" "white");
    ("rollup", TechBadge.mk "Rollup" "EC4A3F" "rollupdotjs" "white");
    ("esbuild", TechBadge.mk "esbuild" "FFCF00" "esbuild" "black");
    ("turbopack", TechBadge.mk "Turbopack" "000000" "turbopack" "white");
    ("parcel", TechBadge.mk "Parcel" "21374B" "parcel" "white");
    ("gulp", TechBadge.mk "Gulp" "CF4647" "gulp" "white");
    ("grunt", TechBadge.mk "Grunt" "FAA918" "grunt" "white");
    ("docker", TechBadge.mk "Docker" "2496ED" "docker" "white");
    ("kubernetes", TechBadge.mk "Kubernetes" "326CE5" "kubernetes" "white");
    ("git", TechBadge.mk "Git" "F05032" "git" "white");
    ("github", TechBadge.mk "GitHub" "181717" "github" "white");
    ("gitlab", TechBadge.mk "GitLab" "FC6D26" "gitlab" "white");
    ("actions", TechBadge.mk "GitHub%20Actions" "2088FF" "githubactions" "white");
    ("jenkins", TechBadge.mk "Jenkins" "D24939" "jenkins" "white");
    ("circleci", TechBadge.mk "CircleCI" "343434" "circleci" "white");
    ("nginx", TechBadge.mk "Nginx" "009639" "nginx" "white");
    ("apache", TechBadge.mk "Apache" "D22128" "apache" "white");
    ("aws", TechBadge.mk "AWS" "232F3E" "amazonaws" "white");
    ("azure", TechBadge.mk "Azure" "0078D4" "microsoftazure" "white");
    ("gcp", TechBadge.mk "Google%20Cloud" "4285F4" "googlecloud" "white");
    ("vercel", TechBadge.mk "Vercel" "000000" "vercel" "white");
    ("netlify", TechBadge.mk "Netlify" "00C7B7" "netlify" "white");
    ("heroku", TechBadge.mk "Heroku" "430098" "heroku" "white");
    ("digitalocean", TechBadge.mk "DigitalOcean" "0080FF" "digitalocean" "white");
    ("cloudflare", TechBadge.mk "Cloudflare" "F38020" "cloudflare" "white");
    ("railway", TechBadge.mk "Railway" "0B0D0E" "railway" "white");
    ("render", TechBadge.mk "Render" "46E3B7" "render" "black");
    ("eslint", TechBadge.mk "ESLint" "4B32C3" "eslint" "white");
    ("prettier", TechBadge.mk "Prettier" "F7B93E" "prettier" "black");
    ("biome", TechBadge.mk "Biome" "60A5FA" "biome" "white");
    ("reactnative", TechBadge.mk "React%20Native" "61DAFB" "react" "black");
    ("flutter", TechBadge.mk "Flutter" "02569B" "flutter" "white");
    ("expo", TechBadge.mk "Expo" "000020" "expo" "white");
    ("ionic", TechBadge.mk "Ionic" "3880FF" "ionic" "white");
    ("tensorflow", TechBadge.mk "TensorFlow" "FF6F00" "tensorflow" "white");
    ("pytorch", TechBadge.mk "PyTorch" "EE4C2C" "pytorch" "white");
    ("openai", TechBadge.mk "OpenAI" "412991" "openai" "white");
    ("langchain", TechBadge.mk "LangChain" "1C3C3C" "langchain" "white");
    ("npm", TechBadge.mk "npm" "CB3837" "npm" "white");
    ("yarn", TechBadge.mk "Yarn" "2C8EBB" "yarn" "white");
    ("pnpm", TechBadge.mk "pnpm" "F69220" "pnpm" "white");
    ("pip", TechBadge.mk "pip" "3776AB" "pypi" "white");
    ("cargo", TechBadge.mk "Cargo" "000000" "rust" "white") ].

(** Maps detected language names to badge keys *)
Definition LANGUAGE_MAP : list (string * string) :=
  [ ("JavaScript", "javascript"); ("TypeScript", "typescript");
    ("Python", "python"); ("Java", "java"); ("Go", "go"); ("Rust", "rust");
    ("Ruby", "ruby"); ("PHP", "php"); ("C#", "csharp"); ("C++", "cpp");
    ("C", "c"); ("Swift", "swift"); ("Kotlin", "kotlin"); ("Dart", "dart");
    ("HTML", "html"); ("CSS", "css"); ("Sass", "sass"); ("SCSS", "sass");
    ("Lua", "lua"); ("Perl", "perl"); ("R", "r"); ("Scala", "scala");
    ("Elixir", "elixir"); ("Haskell", "haskell"); ("Clojure", "clojure") ].

(** Maps detected framework names to badge keys *)
Definition FRAMEWORK_MAP : list (string * string) :=
  [ ("React", "react"); ("Vue.js", "vue"); ("Vue", "vue");
    ("Angular", "angular"); ("Svelte", "svelte"); ("Next.js", "next");
    ("Nuxt.js", "nuxt"); ("Gatsby", "gatsby"); ("Astro", "astro");
    ("Remix", "remix"); ("Express", "express"); ("NestJS", "nestjs");
    ("Fastify", "fastify"); ("Koa", "koa"); ("Django", "django");
    ("Flask", "flask"); ("FastAPI", "fastapi"); ("Spring Boot", "spring");
    ("Ruby on Rails", "rails"); ("Laravel", "laravel"); ("Gin", "gin");
    ("TailwindCSS", "tailwind"); ("Tailwind CSS", "tailwind");
    ("Bootstrap", "bootstrap"); ("Material-UI", "mui"); ("MUI", "mui");
    ("Chakra UI", "chakra"); ("Ant Design", "antdesign");
    ("Flutter", "flutter"); ("React Native", "reactnative"); ("Expo", "expo");
    ("Ionic", "ionic") ].

(** Maps package.json dependencies to badge keys *)
Definition DEPENDENCY_MAP : list (string * string) :=
  [ ("react", "react"); ("react-dom", "react"); ("vue", "vue");
    ("@angular/core", "angular"); ("svelte", "svelte"); ("next", "next");
    ("nuxt", "nuxt"); ("gatsby", "gatsby"); ("astro", "astro");
    ("@remix-run/react", "remix"); ("solid-js", "solid"); ("preact", "preact");
    ("alpinejs", "alpine"); ("htmx.org", "htmx"); ("express", "express");
    ("@nestjs/core", "nestjs"); ("fastify", "fastify"); ("koa", "koa");
    ("tailwindcss", "tailwind"); ("bootstrap", "bootstrap");
    ("@mui/material", "mui"); ("@chakra-ui/react", "chakra");
    ("antd", "antdesign"); ("@radix-ui/react-dialog", "radix");
    ("styled-components", "styled"); ("bulma", "bulma");
    ("mongoose", "mongodb"); ("mongodb", "mongodb"); ("pg", "postgresql");
    ("mysql2", "mysql"); ("better-sqlite3", "sqlite"); ("sqlite3", "sqlite");
    ("redis", "redis"); ("ioredis", "redis");
    ("@supabase/supabase-js", "supabase"); ("firebase", "firebase");
    ("@prisma/client", "prisma"); ("prisma", "prisma"); ("jest", "jest");
    ("mocha", "mocha"); ("cypress", "cypress");
    ("@playwright/test", "playwright"); ("vitest", "vitest");
    ("webpack", "webpack"); ("vite", "vite"); ("rollup", "rollup");
    ("esbuild", "esbuild"); ("parcel", "parcel"); ("eslint", "eslint");
    ("prettier", "prettier"); ("@biomejs/biome", "biome");
    ("react-native", "reactnative"); ("expo", "expo");
    ("@ionic/react", "ionic"); ("openai", "openai");
    ("langchain", "langchain"); ("@tensorflow/tfjs", "tensorflow") ].

(** Maps build tools to badge keys *)
Definition BUILD_TOOL_MAP : list (string * string) :=
  [ ("webpack", "webpack"); ("vite", "vite"); ("rollup", "rollup");
    ("esbuild", "esbuild"); ("parcel", "parcel"); ("gulp", "gulp");
    ("grunt", "grunt") ].

(** Maps package managers to badge keys *)
Definition PACKAGE_MANAGER_MAP : list (string * string) :=
  [ ("npm", "npm"); ("yarn", "yarn"); ("pnpm", "pnpm"); ("pip", "pip");
    ("cargo", "cargo") ].

Definition language_keys : list string :=
  [ "javascript"; "typescript"; "python"; "java"; "go"; "rust"; "ruby"; "php";
    "csharp"; "cpp"; "c"; "swift"; "kotlin"; "dart"; "html"; "css"; "sass";
    "lua"; "perl"; "r"; "scala"; "elixir"; "haskell"; "clojure" ].

Definition database_keys : list string :=
  [ "mongodb"; "postgresql"; "mysql"; "sqlite"; "redis"; "supabase";
    "firebase"; "prisma"; "dynamodb"; "elasticsearch"; "neo4j"; "cassandra";
    "couchdb"; "mariadb" ].

Definition cloud_keys : list string :=
  [ "aws"; "azure"; "gcp"; "vercel"; "netlify"; "heroku"; "digitalocean";
    "cloudflare"; "railway"; "render" ].

Definition tool_keys : list string :=
  [ "docker"; "kubernetes"; "git"; "github"; "gitlab"; "actions"; "jenkins";
    "circleci"; "nginx"; "apache"; "webpack"; "vite"; "rollup"; "esbuild";
    "parcel"; "gulp"; "grunt"; "eslint"; "prettier"; "biome"; "npm"; "yarn";
    "pnpm"; "pip"; "cargo" ].

(** [getCategoryForKey] *)
Definition getCategoryForKey (key : string) : string :=
  if existsb (String.eqb key) language_keys then "language"
  else if existsb (String.eqb key) database_keys then "database"
  else if existsb (String.eqb key) cloud_keys then "cloud"
  else if existsb (String.eqb key) tool_keys then "tool"
  else "framework".

(** [createBadge(key, style)].  It is called with values of the tables
    above and with the literals ['node'], ['docker'], ['actions'], never with
    the name of an inherited member; for such a name it is given no badge
    here. *)
Definition createBadge (key : string) (style : string) : option Badge.t :=
  match Js.get TECH_BADGES key with
  | Js.Own config =>
      let logoColor :=
        if String.eqb (TechBadge.logoColor config) "" then "white"
        else TechBadge.logoColor config in
      let markdown :=
        "![" +:+ Js.replace_percent "2" "0" " " (TechBadge.name config) +:+
        "](https://img.shields.io/badge/" +:+ TechBadge.name config +:+ "-" +:+
        TechBadge.color config +:+ "?style=" +:+ style +:+ "&logo=" +:+
        TechBadge.logo config +:+ "&logoColor=" +:+ logoColor +:+ ")" in
      Some (Badge.mk
              (Js.replace_percent "2" "3" "#"
                 (Js.replace_percent "2" "B" "+"
                    (Js.replace_percent "2" "0" " " (TechBadge.name config))))
              markdown
              (getCategoryForKey key))
  | _ => None
  end.

(** The label [createBadge] gives the badge of [key]. *)
Definition tech_label (key : string) : option string :=
  (λ config,
     Js.replace_percent "2" "3" "#"
       (Js.replace_percent "2" "B" "+"
          (Js.replace_percent "2" "0" " " (TechBadge.name config))))
  <$> Js.own TECH_BADGES key.

(** [badges] holds exactly the badges of the keys in [addedKeys], once each. *)
Definition badge_inv (style : string) (acc : list Badge.t * gset string) : Prop :=
  ∃ keys,
    NoDup keys ∧ acc.2 = list_to_set keys ∧
    Forall2 (λ badge key, createBadge key style = Some badge) acc.1 keys.

(** [generatePRsWelcomeBadge] *)
Definition generatePRsWelcomeBadge : Badge.t :=
  Badge.mk "PRs Welcome"
    "![PRs Welcome](https://img.shields.io/badge/PRs-Welcome-brightgreen?style=flat-square)"
    "meta".

(** The closure [addBadge] over [badges] and the set [addedKeys]. *)
Definition addBadge (style : string) (acc : list Badge.t * gset string)
    (key : string) : list Badge.t * gset string :=
  if bool_decide (key ∈ acc.2) then acc
  else match createBadge key style with
       | Some badge => (acc.1 ++ [badge], {[ key ]} ∪ acc.2)
       | None => acc
       end.

(** [a || b] on two table look-ups. *)
Definition or_else (a b : Js.prop string) : Js.prop string :=
  match a with
  | Js.Own k => if String.eqb k "" then b else a
  | Js.Inherited _ => a
  | Js.Missing => b
  end.

(** [if (key) addBadge(key)].  An inherited member is a truthy built-in
    function or object; [addBadge] passes it to [createBadge], which finds no
    entry under its string form, so nothing is added. *)
Definition add_found (style : string) (acc : list Badge.t * gset string)
    (key : Js.prop string) : list Badge.t * gset string :=
  match key with
  | Js.Own k => if String.eqb k "" then acc else addBadge style acc k
  | Js.Inherited _ => acc
  | Js.Missing => acc
  end.

(** [Object.keys({...dependencies, ...devDependencies})]: each key once, at
    its first position.  (An engine lists integer-like keys first; no such
    key has an entry in [DEPENDENCY_MAP], so the badges are the same.) *)
Definition spread_keys (a b : option json) : list string :=
  foldl (λ keys k, if bool_decide (k ∈ keys) then keys else keys ++ [k])
        [] (Json.own_keys a ++ Json.own_keys b).

Definition dependency_keys (projectInfo : ProjectInfo.t) : list string :=
  spread_keys (Json.member (ProjectInfo.packageJson projectInfo) "dependencies")
              (Json.member (ProjectInfo.packageJson projectInfo) "devDependencies").

Definition language_key (lang : LanguageStat.t) : Js.prop string :=
  or_else (Js.get LANGUAGE_MAP (LanguageStat.name lang))
          (Js.get LANGUAGE_MAP (Js.split_space_0 (LanguageStat.name lang))).

Section badges.
(** The built-ins [Number.prototype.toString], [encodeURIComponent] and
    [String.prototype.toLowerCase] are taken as given. *)
Context (Number_toString : float → string) (encodeURIComponent : string → string).
Context (toLowerCase : string → string).

(** Steps 1 to 8 of [generateAllBadges]: the technology badges. *)
Definition technology_badges (projectInfo : ProjectInfo.t)
    (detection : DetectionResult.t) (style : string)
  : list Badge.t * gset string :=
  let pkg := ProjectInfo.packageJson projectInfo in
  let files := ProjectInfo.files projectInfo in
  (* 1. language badges *)
  let acc := foldl (λ acc lang, add_found style acc (language_key lang))
                   ([], ∅) (DetectionResult.languages detection) in
  (* 2. framework badges *)
  let acc := foldl (λ acc fw,
                      add_found style acc
                        (Js.get FRAMEWORK_MAP (FrameworkMatch.name fw)))
                   acc (DetectionResult.frameworks detection) in
  (* 3. badges from package.json dependencies *)
  let acc := foldl (λ acc dep, add_found style acc (Js.get DEPENDENCY_MAP dep))
                   acc (dependency_keys projectInfo) in
  (* 4. build tool badges *)
  let acc := foldl (λ acc tool,
                      add_found style acc
                        (Js.get BUILD_TOOL_MAP (toLowerCase tool)))
                   acc (DetectionResult.buildTools detection) in
  (* 5. package manager badge *)
  let acc :=
    match DetectionResult.packageManager detection with
    | Some pm =>
        if String.eqb pm "" then acc
        else add_found style acc
               (Js.get PACKAGE_MANAGER_MAP (toLowerCase pm))
    | None => acc
    end in
  (* 6. Node.js badge *)
  let acc :=
    if Json.truthy (Json.member (Json.member pkg "engines") "node")
    then addBadge style acc "node" else acc in
  (* 7. Docker badge *)
  let acc :=
    if existsb (λ f, Js.includes (toLowerCase (ProjectFile.path f)) "dockerfile") files
    then addBadge style acc "docker" else acc in
  (* 8. GitHub Actions badge *)
  if existsb (λ f, Js.includes (ProjectFile.path f) ".github/workflows") files
  then addBadge style acc "actions" else acc.

(** [generateLicenseBadge] *)
Definition generateLicenseBadge (projectInfo : ProjectInfo.t) : option Badge.t :=
  let license := Json.member (ProjectInfo.packageJson projectInfo) "license" in
  match license with
  | Some value =>
      if Json.truthy license then
        let encoded := encodeURIComponent (Json.to_string Number_toString value) in
        Some (Badge.mk "License"
                ("![License](https://img.shields.io/badge/License-" +:+ encoded +:+
                 "-blue?style=flat-square)")
                "meta")
      else None
  | None => None
  end.

(** [generateVersionBadge] *)
Definition generateVersionBadge (projectInfo : ProjectInfo.t) : option Badge.t :=
  let version := Json.member (ProjectInfo.packageJson projectInfo) "version" in
  match version with
  | Some value =>
      if Json.truthy version then
        Some (Badge.mk "Version"
                ("![Version](https://img.shields.io/badge/Version-" +:+
                 Json.to_string Number_toString value +:+
                 "-green?style=flat-square)")
                "meta")
      else None
  | None => None
  end.

(** Step 9: the meta badges. *)
Definition meta_badges (projectInfo : ProjectInfo.t) : list Badge.t :=
  option_list (generateLicenseBadge projectInfo) ++
  option_list (generateVersionBadge projectInfo) ++
  [generatePRsWelcomeBadge].

(** [generateAllBadges(projectInfo, detection, style)] *)
Definition generateAllBadges (projectInfo : ProjectInfo.t)
    (detection : DetectionResult.t) (style : string) : list Badge.t :=
  (technology_badges projectInfo detection style).1 ++ meta_badges projectInfo.

(** [getBadgesMarkdown] *)
Definition getBadgesMarkdown (projectInfo : ProjectInfo.t)
    (detection : DetectionResult.t) (style : string) : string :=
  Js.join " " (Badge.markdown <$> generateAllBadges projectInfo detection style).

(** [generateLicenseBadge] and [generateVersionBadge] convert a truthy
    [license] or [version] to a string ([encodeURIComponent(license)], the
    template literal of the version badge).  When that conversion throws,
    the exception leaves [generateAllBadges] and its callers; otherwise the
    list is the one above. *)
Definition conversion_throws (projectInfo : ProjectInfo.t) (key : string) : bool :=
  match Json.member (ProjectInfo.packageJson projectInfo) key with
  | Some value => Json.truthy (Some value) && negb (Json.coercible value)
  | None => false
  end.

Definition getBadgesMarkdown_call (projectInfo : ProjectInfo.t)
    (detection : DetectionResult.t) (style : string) : Js.completion string :=
  if conversion_throws projectInfo "license" || conversion_throws projectInfo "version"
  then Js.Throw Json.conversion_error
  else Js.Return (getBadgesMarkdown projectInfo detection style).

(** [getBadgesByCategory] *)
Definition getBadgesByCategory (projectInfo : ProjectInfo.t)
    (detection : DetectionResult.t) (style : string) : BadgesByCategory.t :=
  let badges := generateAllBadges projectInfo detection style in
  let of_category c := filter (λ b, Badge.category b = c) badges in
  BadgesByCategory.mk (of_category "language") (of_category "framework")
    (of_category "database") (of_category "tool") (of_category "cloud")
    (of_category "meta").

End badges.

(** Sample inputs: a manifest depending on [react] and [react-dom], with
    React also among the detected frameworks; stand-ins for the built-ins
    (the second is right on unreserved characters). *)
Definition sample_Number_toString (n : float) : string := "0".
Definition sample_encodeURIComponent (s : string) : string := s.

Definition react_project : ProjectInfo.t :=
  ProjectInfo.mk (JStr "demo") "/demo" []
    (Some (JObj [ ("dependencies",
                   JObj [("react", JStr "^18.2.0"); ("react-dom", JStr "^18.2.0")]);
                  ("license", JStr "MIT") ]))
    false None [] [] 0.

Definition react_detection : DetectionResult.t :=
  DetectionResult.mk
    [LanguageStat.mk "JavaScript" 100 3]
    [FrameworkMatch.mk "React" "Frontend Framework" 1]
    (Some "npm") [] [].

End BadgeGenerator.

(* ================================================================== *)
(** * Offline fallback (offlineFallback.js) *)
(* ================================================================== *)

Module OfflineFallback.

Section offline.
(** [Number.prototype.toString], [encodeURIComponent] and
    [String.prototype.toLowerCase] are taken as given. *)
Context (Number_toString : float → string) (encodeURIComponent : string → string).
Context (toLowerCase : string → string).

(** [pkg?.scripts?.dev ? dev : (pkg?.scripts?.start ? start : fallback)] *)
Definition run_command (pkg : option json) (dev start fallback : string) : string :=
  let scripts := Json.member pkg "scripts" in
  if Json.truthy (Json.member scripts "dev") then dev
  else if Json.truthy (Json.member scripts "start") then start
  else fallback.

(** The [switch (packageManager)]: ([installCmd], [runCmd]). *)
Definition commands (pkg : option json) (packageManager : string) : string * string :=
  if String.eqb packageManager "npm" then
    ("npm install", run_command pkg "npm run dev" "npm start" "npm run start")
  else if String.eqb packageManager "yarn" then
    ("yarn", run_command pkg "yarn dev" "yarn start" "yarn start")
  else if String.eqb packageManager "pnpm" then
    ("pnpm install", run_command pkg "pnpm dev" "pnpm start" "pnpm start")
  else if String.eqb packageManager "pip" then
    ("pip install -r requirements.txt", "python main.py")
  else if String.eqb packageManager "cargo" then
    ("cargo build", "cargo run")
  else if String.eqb packageManager "go mod" then
    ("go mod download", "go run .")
  else ("npm install", "npm start").

(** [value || fallback] on strings. *)
Definition or_string (value fallback : string) : string :=
  if String.eqb value "" then fallback else value.

(** [value || fallback] on a manifest value. *)
Definition or_value (value : option json) (fallback : string) : json :=
  match value with
  | Some v => if Json.truthy (Some v) then v else JStr fallback
  | None => JStr fallback
  end.

(** [generateOfflineReadme(projectInfo, detection, projectType)]: the
    template literal, line by line.  Its substitutions are converted to
    strings from left to right, and [projectName.toLowerCase()] is a call on
    whatever [projectInfo.name] holds: each of these steps can throw. *)
Definition generateOfflineReadme (projectInfo : ProjectInfo.t)
    (detection : DetectionResult.t) (projectType : ProjectTypeResult.t)
  : Js.completion string :=
  let pkg := ProjectInfo.packageJson projectInfo in
  let projectName := or_value (Some (ProjectInfo.name projectInfo)) "Project" in
  match BadgeGenerator.getBadgesMarkdown_call Number_toString encodeURIComponent
          toLowerCase projectInfo detection "flat-square" with
  | Js.Throw e => Js.Throw e
  | Js.Return badges =>
  let languages :=
    or_string (Js.join ", " (LanguageStat.name <$> DetectionResult.languages detection))
              "Not detected" in
  let frameworks :=
    or_string (Js.join ", " (FrameworkMatch.name <$> DetectionResult.frameworks detection))
              "None" in
  let packageManager :=
    or_string (default "" (DetectionResult.packageManager detection)) "npm" in
  let installCmd := (commands pkg packageManager).1 in
  let runCmd := (commands pkg packageManager).2 in
  match Json.coerce Number_toString projectName with
  | Js.Throw e => Js.Throw e
  | Js.Return title =>
  match Json.coerce Number_toString
          (or_value (Json.member pkg "description") "A software project") with
  | Js.Throw e => Js.Throw e
  | Js.Return description =>
  match projectName with
  | JStr name =>
  let slug := Js.dash_whitespace false (toLowerCase name) in
  match Json.coerce Number_toString (or_value (Json.member pkg "license") "MIT") with
  | Js.Throw e => Js.Throw e
  | Js.Return licenseName =>
  let license := "This project is licensed under the " +:+ licenseName +:+ " License." in
  Js.Return (
  Js.join Js.LF
    [ "# " +:+ title;
      "";
      badges;
      "";
      description;
      "";
      "## 📋 Table of Contents";
      "";
      "- [About](#about)";
      "- [Features](#features)";
      "- [Tech Stack](#tech-stack)";
      "- [Getting Started](#getting-started)";
      "- [Usage](#usage)";
      "- [Contributing](#contributing)";
      "- [License](#license)";
      "";
      "## 📖 About";
      "";
      description;
      "";
      "**Project Type:** " +:+ ProjectTypeResult.displayName projectType;
      "";
      "## ✨ Features";
      "";
      "<!-- Add your features here -->";
      "- Feature 1";
      "- Feature 2";
      "- Feature 3";
      "";
      "## 🛠️ Tech Stack";
      "";
      "- **Languages:** " +:+ languages;
      "- **Frameworks:** " +:+ frameworks;
      "- **Package Manager:** " +:+ packageManager;
      "";
      "## 🚀 Getting Started";
      "";
      "### Prerequisites";
      "";
      "Make sure you have the following installed:";
      "- " +:+ (if String.eqb packageManager "pip" then "Python 3.x"
                else "Node.js (v16 or higher)");
      "- " +:+ Js.capitalize packageManager;
      "";
      "### Installation";
      "";
      "1. Clone the repository:";
      "```bash";
      "git clone https://github.com/username/" +:+ slug +:+ ".git";
      "cd " +:+ slug;
      "```";
      "";
      "2. Install dependencies:";
      "```bash";
      installCmd;
      "```";
      "";
      "## 💻 Usage";
      "";
      "Run the project:";
      "";
      "```bash";
      runCmd;
      "```";
      "";
      "## 🤝 Contributing";
      "";
      "Contributions are welcome! Please feel free to submit a Pull Request.";
      "";
      "1. Fork the repository";
      "2. Create your feature branch (`git checkout -b feature/AmazingFeature`)";
      "3. Commit your changes (`git commit -m 'Add some AmazingFeature'`)";
      "4. Push to the branch (`git push origin feature/AmazingFeature`)";
      "5. Open a Pull Request";
      "";
      "## 📄 License";
      "";
      license;
      "";
      "---";
      "";
      "⚠️ *This README was generated offline using a basic template. For a better README, please configure your OpenRouter API key and regenerate.*";
      "" ])
  end
  | _ => Js.Throw "TypeError: projectName.toLowerCase is not a function"
  end end end end.

(** What the document needs of its input: a name that is a string (or falsy,
    and then replaced), and values under [description], [license] and
    [version] that convert to strings where they are printed. *)
Definition name_is_text (name : json) : bool :=
  match name with
  | JStr _ => true
  | _ => negb (Json.truthy (Some name))
  end.

Definition converts (pkg : option json) (key : string) : bool :=
  match Json.member pkg key with
  | Some value => negb (Json.truthy (Some value)) || Json.coercible value
  | None => true
  end.

Definition printable (projectInfo : ProjectInfo.t) : bool :=
  let pkg := ProjectInfo.packageJson projectInfo in
  name_is_text (ProjectInfo.name projectInfo) &&
  converts pkg "description" && converts pkg "license" && converts pkg "version".

End offline.

End OfflineFallback.

(* ================================================================== *)
(** * Template registry (templates.ts) *)
(* ================================================================== *)

Module ReadmeSection.
Record t : Type := mk {
  id : string;
  name : string;
  description : string;
  defaultEnabled : bool
}.
End ReadmeSection.

Module ReadmeTemplate.
Record t : Type := mk {
  id : string;
  name : string;
  description : string;
  icon : string;
  sections : list ReadmeSection.t;
  promptPrefix : string
}.
End ReadmeTemplate.

Module Templates.

Definition ALL_SECTIONS : list ReadmeSection.t :=
  [ ReadmeSection.mk "title" "Title & Badges" "Project name, badges, and hero section" true;
    ReadmeSection.mk "toc" "Table of Contents" "Clickable navigation links" true;
    ReadmeSection.mk "description" "Description" "Project overview and purpose" true;
    ReadmeSection.mk "demo" "Demo/Screenshots" "Demo GIF or screenshots section" true;
    ReadmeSection.mk "features" "Features" "Key features and capabilities" true;
    ReadmeSection.mk "techstack" "Tech Stack" "Technologies and tools used" true;
    ReadmeSection.mk "structure" "Project Structure" "File tree and directory layout" true;
    ReadmeSection.mk "prerequisites" "Prerequisites" "System requirements and dependencies" true;
    ReadmeSection.mk "installation" "Installation" "How to install the project" true;
    ReadmeSection.mk "envvars" "Environment Variables" "Environment configuration table" false;
    ReadmeSection.mk "usage" "Usage" "How to use the project" true;
    ReadmeSection.mk "configuration" "Configuration" "Configuration options" false;
    ReadmeSection.mk "api" "API Reference" "API documentation" false;
    ReadmeSection.mk "examples" "Examples" "Code examples" false;
    ReadmeSection.mk "testing" "Testing" "How to run tests" false;
    ReadmeSection.mk "deployment" "Deployment" "Deployment instructions" false;
    ReadmeSection.mk "contributing" "Contributing" "Contribution guidelines" true;
    ReadmeSection.mk "roadmap" "Roadmap" "Future plans" false;
    ReadmeSection.mk "changelog" "Changelog" "Version history" false;
    ReadmeSection.mk "license" "License" "License information" true;
    ReadmeSection.mk "acknowledgements" "Acknowledgements" "Credits and thanks" false;
    ReadmeSection.mk "contact" "Contact" "Contact information" false ].

(** [ALL_SECTIONS.map(s => ({ ...s, defaultEnabled: ids.includes(s.id) }))] *)
Definition enable (ids : list string) : list ReadmeSection.t :=
  (λ s, ReadmeSection.mk (ReadmeSection.id s) (ReadmeSection.name s)
          (ReadmeSection.description s)
          (existsb (String.eqb (ReadmeSection.id s)) ids))
  <$> ALL_SECTIONS.

(** Open Source Template *)
Definition openSourceTemplate : ReadmeTemplate.t :=
  ReadmeTemplate.mk "openSource" "Open Source"
    "Ideal for open source projects with community focus"
    (Js.join Js.DQ ["<svg width="; "24"; " height="; "24"; " viewBox=";
       "0 0 24 24"; " fill="; "none"; " xmlns=";
       "http://www.w3.org/2000/svg"; "><circle cx="; "12"; " cy="; "12";
       " r="; "10"; " stroke="; "currentColor"; " stroke-width="; "2";
       "/><path d="; "M2 12h20"; " stroke="; "currentColor";
       " stroke-width="; "2"; "/><path d=";
       "M12 2a15.3 15.3 0 0 1 4 10 15.3 15.3 0 0 1-4 10 15.3 15.3 0 0 1-4-10 15.3 15.3 0 0 1 4-10z";
       " stroke="; "currentColor"; " stroke-width="; "2"; "/></svg>"])
    (enable [ "title"; "description"; "features"; "installation"; "usage"; "contributing"; "license" ])
    (Js.join Js.LF
       [ "Generate a README for an OPEN SOURCE project. Focus on:";
         "- Community-friendly language";
         "- Clear contribution guidelines";
         "- Prominent badges (license, version, build status)";
         "- Easy-to-follow installation and usage";
         "- Welcoming tone to encourage contributions" ]).

(** Library/Package Template *)
Definition libraryTemplate : ReadmeTemplate.t :=
  ReadmeTemplate.mk "library" "Library/Package"
    "Best for npm packages, PyPI packages, or libraries"
    (Js.join Js.DQ ["<svg width="; "24"; " height="; "24"; " viewBox=";
       "0 0 24 24"; " fill="; "none"; " xmlns=";
       "http://www.w3.org/2000/svg"; "><path d=";
       "M21 16V8a2 2 0 0 0-1-1.73l-7-4a2 2 0 0 0-2 0l-7 4A2 2 0 0 0 3 8v8a2 2 0 0 0 1 1.73l7 4a2 2 0 0 0 2 0l7-4A2 2 0 0 0 21 16z";
       " stroke="; "currentColor"; " stroke-width="; "2"; " stroke-linecap=";
       "round"; " stroke-linejoin="; "round"; "/><polyline points=";
       "3.27 6.96 12 12.01 20.73 6.96"; " stroke="; "currentColor";
       " stroke-width="; "2"; " stroke-linecap="; "round";
       " stroke-linejoin="; "round"; "/><line x1="; "12"; " y1="; "22.08";
       " x2="; "12"; " y2="; "12"; " stroke="; "currentColor";
       " stroke-width="; "2"; " stroke-linecap="; "round";
       " stroke-linejoin="; "round"; "/></svg>"])
    (enable [ "title"; "description"; "features"; "installation"; "usage"; "api"; "examples"; "license" ])
    (Js.join Js.LF
       [ "Generate a README for a LIBRARY/PACKAGE. Focus on:";
         "- Quick installation instructions (copy-paste ready)";
         "- API documentation with clear examples";
         "- TypeScript/type support information";
         "- Version compatibility notes";
         "- Minimal but comprehensive documentation" ]).

(** Startup/SaaS Template *)
Definition startupTemplate : ReadmeTemplate.t :=
  ReadmeTemplate.mk "startup" "Startup/SaaS"
    "Perfect for startups and commercial products"
    (Js.join Js.DQ ["<svg width="; "24"; " height="; "24"; " viewBox=";
       "0 0 24 24"; " fill="; "none"; " xmlns=";
       "http://www.w3.org/2000/svg"; "><path d=";
       "M4.5 16.5c-1.5 1.26-2 5-2 5s3.74-.5 5-2c.48-.56.93-1.23 1.32-2h-4.32z";
       " fill="; "currentColor"; "/><path d="; "M12 15l-3 3 5 5 3-3-5-5z";
       " fill="; "currentColor"; "/><path d=";
       "M15 12l-5-5-1.5 3.5 3.5 1.5z"; " stroke="; "currentColor";
       " stroke-width="; "2"; " stroke-linecap="; "round";
       " stroke-linejoin="; "round"; "/><path d=";
       "M12 15a8 8 0 1 1 0-14 8 8 0 0 1 0 14z"; " stroke="; "currentColor";
       " stroke-width="; "2"; " stroke-linecap="; "round";
       " stroke-linejoin="; "round"; "/></svg>"])
    (enable [ "title"; "description"; "features"; "demo"; "installation"; "usage"; "deployment"; "contact" ])
    (Js.join Js.LF
       [ "Generate a README for a STARTUP/SaaS product. Focus on:";
         "- Compelling product description";
         "- Key selling points and features";
         "- Professional branding tone";
         "- Easy getting started guide";
         "- Support and contact information" ]).

(** Academic/College Template *)
Definition academicTemplate : ReadmeTemplate.t :=
  ReadmeTemplate.mk "academic" "Academic/College"
    "Suited for research projects and academic work"
    (Js.join Js.DQ ["<svg width="; "24"; " height="; "24"; " viewBox=";
       "0 0 24 24"; " fill="; "none"; " xmlns=";
       "http://www.w3.org/2000/svg"; "><path d=";
       "M22 10v6M2 10l10-5 10 5-10 5z"; " stroke="; "currentColor";
       " stroke-width="; "2"; " stroke-linecap="; "round";
       " stroke-linejoin="; "round"; "/><path d="; "M6 12v5c3 3 9 3 12 0v-5";
       " stroke="; "currentColor"; " stroke-width="; "2"; " stroke-linecap=";
       "round"; " stroke-linejoin="; "round"; "/></svg>"])
    (enable [ "title"; "description"; "features"; "installation"; "usage"; "acknowledgements"; "license" ])
    (Js.join Js.LF
       [ "Generate a README for an ACADEMIC/RESEARCH project. Focus on:";
         "- Clear problem statement and objectives";
         "- Methodology explanation";
         "- Results or expected outcomes";
         "- Academic references format";
         "- Proper attribution and acknowledgements" ]).

(** Personal Project Template *)
Definition personalTemplate : ReadmeTemplate.t :=
  ReadmeTemplate.mk "personal" "Personal Project"
    "Simple and clean for portfolio projects"
    (Js.join Js.DQ ["<svg width="; "24"; " height="; "24"; " viewBox=";
       "0 0 24 24"; " fill="; "none"; " xmlns=";
       "http://www.w3.org/2000/svg"; "><path d=";
       "M20 21v-2a4 4 0 0 0-4-4H8a4 4 0 0 0-4 4v2"; " stroke=";
       "currentColor"; " stroke-width="; "2"; " stroke-linecap="; "round";
       " stroke-linejoin="; "round"; "/><circle cx="; "12"; " cy="; "7";
       " r="; "4"; " stroke="; "currentColor"; " stroke-width="; "2";
       " stroke-linecap="; "round"; " stroke-linejoin="; "round"; "/></svg>"])
    (enable [ "title"; "description"; "features"; "installation"; "usage"; "license" ])
    (Js.join Js.LF
       [ "Generate a README for a PERSONAL/PORTFOLIO project. Focus on:";
         "- Showcase your skills and learning";
         "- Clean and simple format";
         "- Highlight interesting technical challenges";
         "- Visual appeal for portfolio";
         "- Friendly, personal tone" ]).

Definition TEMPLATES : list (string * ReadmeTemplate.t) :=
  [ ("openSource", openSourceTemplate);
    ("library", libraryTemplate);
    ("startup", startupTemplate);
    ("academic", academicTemplate);
    ("personal", personalTemplate) ].

(** What [getTemplate] hands back: a template of the catalog, or the
    built-in function or object that the table inherits under that name. *)
Inductive template_value : Type :=
| Template (template : ReadmeTemplate.t)
| Builtin (name : string).

(** [getTemplate(templateId)]: [TEMPLATES[templateId] || openSourceTemplate].
    Templates and built-ins are objects, hence truthy. *)
Definition getTemplate (templateId : string) : template_value :=
  match Js.get TEMPLATES templateId with
  | Js.Own template => Template template
  | Js.Inherited name => Builtin name
  | Js.Missing => Template openSourceTemplate
  end.

(** [getAllTemplates()]: [Object.values(TEMPLATES)], in insertion order. *)
Definition getAllTemplates : list ReadmeTemplate.t := TEMPLATES.*2.

End Templates.

(* ================================================================== *)
(** * Prompt compiler helpers (promptBuilder.ts) *)
(* ================================================================== *)

Module PromptBuilder.

(** What a look-up with fallback hands back: an instruction of the table,
    or the built-in that the table inherits under that name. *)
Inductive instruction : Type :=
| Text (text : string)
| Builtin (name : string).

Definition language_instructions : list (string * string) :=
  [ ("english", "Write in fluent, professional English.");
    ("simpleEnglish",
     "Write in simple, easy-to-understand English. Avoid jargon and complex technical terms.");
    ("spanish",
     "Write in Spanish (Español). Use proper grammar and professional vocabulary.");
    ("french",
     "Write in French (Français). Use proper grammar and professional vocabulary.");
    ("german",
     "Write in German (Deutsch). Use proper grammar and professional vocabulary.");
    ("chinese",
     "Write in Simplified Chinese (简体中文). Use proper grammar and professional vocabulary.");
    ("japanese",
     "Write in Japanese (日本語). Use proper grammar and professional vocabulary.");
    ("hindi",
     "Write in Hindi (हिन्दी). Use proper grammar and professional vocabulary.") ].

Definition tone_instructions : list (string * string) :=
  [ ("professional",
     "Use a professional, authoritative tone. Be clear, concise, and direct.");
    ("friendly",
     "Use a friendly, welcoming tone. Be approachable, encouraging, and enthusiastic.");
    ("minimal",
     "Use a minimal, concise tone. Focus only on essential information. No fluff.");
    ("technical",
     "Use a technical, detailed tone. Include specifications, configurations, and in-depth explanations.") ].

(** [instructions[key] || instructions[fallback]] *)
Definition lookup_or (instructions : list (string * string)) (key fallback : string)
  : instruction :=
  match Js.get instructions key with
  | Js.Own text =>
      if String.eqb text "" then Text (default "" (Js.own instructions fallback))
      else Text text
  | Js.Inherited name => Builtin name
  | Js.Missing => Text (default "" (Js.own instructions fallback))
  end.

(** [getLanguageInstruction(language)] *)
Definition getLanguageInstruction (language : string) : instruction :=
  lookup_or language_instructions language "english".

(** [getToneInstruction(tone)] *)
Definition getToneInstruction (tone : string) : instruction :=
  lookup_or tone_instructions tone "professional".

(** [buildSectionInstructions(enabledSections, template)] *)
Definition buildSectionInstructions (enabledSections : list string)
    (template : ReadmeTemplate.t) : string :=
  let sectionDetails :=
    Js.join Js.LF
      ((λ s, "- **" +:+ ReadmeSection.name s +:+ "**: " +:+ ReadmeSection.description s)
         <$> filter (λ s, ReadmeSection.id s ∈ enabledSections)
                    (ReadmeTemplate.sections template)) in
  "Generate ONLY these sections in this order:" +:+ Js.LF +:+ sectionDetails.

End PromptBuilder.

(* ================================================================== *)
(** * Credential store (secretStorage.ts) *)
(* ================================================================== *)

Module SecretStorage.

(** What the editor's secret store holds under the extension's three keys. *)
Record secrets : Type := mkSecrets {
  openrouter_api_key : option string;
  huggingface_api_key : option string;
  api_provider : option string
}.

(** The module variable [secretStorage]: [None] until
    [initializeSecretStorage] has run. *)
Definition t : Type := option secrets.

Definition getApiKey (secretStorage : t) : Js.completion (option string) :=
  match secretStorage with
  | None => Js.Throw "Secret storage not initialized"
  | Some s => Js.Return (openrouter_api_key s)
  end.

Definition getHuggingFaceApiKey (secretStorage : t) : Js.completion (option string) :=
  match secretStorage with
  | None => Js.Throw "Secret storage not initialized"
  | Some s => Js.Return (huggingface_api_key s)
  end.

(** [!!key && key.length > 0] *)
Definition key_present (key : option string) : bool :=
  match key with
  | Some k => negb (String.eqb k "")
  | None => false
  end.

Definition hasApiKey (secretStorage : t) : Js.completion bool :=
  match getApiKey secretStorage with
  | Js.Return key => Js.Return (key_present key)
  | Js.Throw e => Js.Throw e
  end.

Definition hasHuggingFaceApiKey (secretStorage : t) : Js.completion bool :=
  match getHuggingFaceApiKey secretStorage with
  | Js.Return key => Js.Return (key_present key)
  | Js.Throw e => Js.Throw e
  end.

(** [getApiProvider]: [provider || 'huggingface'] *)
Definition getApiProvider (secretStorage : t) : Js.completion string :=
  match secretStorage with
  | None => Js.Throw "Secret storage not initialized"
  | Some s =>
      Js.Return (match api_provider s with
                 | Some provider =>
                     if String.eqb provider "" then "huggingface" else provider
                 | None => "huggingface"
                 end)
  end.

(** [initializeSecretStorage(context)]: the module variable now names the
    editor's store.  The store is taken to behave as a map from names to
    strings whose [store], [get] and [delete] succeed. *)
Definition initializeSecretStorage (context_secrets : secrets) : t :=
  Some context_secrets.

Definition setApiKey (secretStorage : t) (key : string) : Js.completion t :=
  match secretStorage with
  | None => Js.Throw "Secret storage not initialized"
  | Some s =>
      Js.Return (Some (mkSecrets (Some key) (huggingface_api_key s) (api_provider s)))
  end.

Definition deleteApiKey (secretStorage : t) : Js.completion t :=
  match secretStorage with
  | None => Js.Throw "Secret storage not initialized"
  | Some s =>
      Js.Return (Some (mkSecrets None (huggingface_api_key s) (api_provider s)))
  end.

Definition setHuggingFaceApiKey (secretStorage : t) (key : string) : Js.completion t :=
  match secretStorage with
  | None => Js.Throw "Secret storage not initialized"
  | Some s =>
      Js.Return (Some (mkSecrets (openrouter_api_key s) (Some key) (api_provider s)))
  end.

Definition deleteHuggingFaceApiKey (secretStorage : t) : Js.completion t :=
  match secretStorage with
  | None => Js.Throw "Secret storage not initialized"
  | Some s =>
      Js.Return (Some (mkSecrets (openrouter_api_key s) None (api_provider s)))
  end.

Definition setApiProvider (secretStorage : t) (provider : string) : Js.completion t :=
  match secretStorage with
  | None => Js.Throw "Secret storage not initialized"
  | Some s =>
      Js.Return (Some (mkSecrets (openrouter_api_key s) (huggingface_api_key s)
                         (Some provider)))
  end.

(** [hasAnyApiKey]: both checks are awaited before the [||]. *)
Definition hasAnyApiKey (secretStorage : t) : Js.completion bool :=
  match hasApiKey secretStorage with
  | Js.Throw e => Js.Throw e
  | Js.Return hasOR =>
      match hasHuggingFaceApiKey secretStorage with
      | Js.Throw e => Js.Throw e
      | Js.Return hasHF => Js.Return (hasOR || hasHF)
      end
  end.

(** [getActiveApiKey] *)
Definition getActiveApiKey (secretStorage : t) : Js.completion (option string) :=
  match getApiProvider secretStorage with
  | Js.Throw e => Js.Throw e
  | Js.Return provider =>
      if String.eqb provider "huggingface"
      then getHuggingFaceApiKey secretStorage
      else getApiKey secretStorage
  end.

(** A store right after activation, holding nothing. *)
Definition fresh : t := initializeSecretStorage (mkSecrets None None None).

End SecretStorage.

(* ================================================================== *)
(** * Generation orchestrator (readmeGenerator.ts) *)
(* ================================================================== *)

Module ChatMessage.
Record t : Type := mk {
  role : string;
  content : string
}.
End ChatMessage.

Module GenerationOptions.
Record t : Type := mk {
  templateId : string;
  enabledSections : list string;
  language : string;
  tone : string;
  customInstructions : option string;
  includeBadges : bool;
  customBadges : option string
}.
End GenerationOptions.

Module PromptOptions.
Record t : Type := mk {
  template : Templates.template_value;
  enabledSections : list string;
  language : string;
  tone : string;
  customInstructions : option string;
  includeBadges : bool;
  customBadges : option string
}.
End PromptOptions.

Module GenerationResult.
Record t : Type := mk {
  content : string;
  isOffline : bool;
  error : option string
}.
End GenerationResult.

Module ReadmeGenerator.

(** The two backends. *)
Inductive backend : Type := Groq | OpenRouter.

(** What a run does that its caller can observe, in order: requests sent to
    a backend and calls of the three callbacks. *)
Inductive event : Type :=
| Request (to : backend) (messages : list ChatMessage.t)
| OnToken (token : string)
| OnComplete (content : string)
| OnError (message : string).

(** A run of an [async] function: the events so far and how its promise
    settles. *)
Record run : Type := mkRun {
  events : list event;
  outcome : Js.completion unit
}.

Definition resolved (events : list event) : run := mkRun events (Js.Return tt).
Definition rejected (events : list event) (error : string) : run :=
  mkRun events (Js.Throw error).

Definition is_callback (e : event) : bool :=
  match e with
  | Request _ _ => false
  | _ => true
  end.

Section orchestrator.
(** The built-ins, the prompt compiler (promptBuilder.ts) and the two API
    clients are taken as given: the compiler returns the pair
    ([systemPrompt], [userPrompt]) or throws; a client, handed the messages,
    calls the callbacks (the events of its run) and its promise settles. *)
Context (Number_toString : float → string) (encodeURIComponent : string → string).
Context (toLowerCase : string → string).
Context (buildPrompt :
           ProjectInfo.t → DetectionResult.t → ProjectTypeResult.t →
           PromptOptions.t → Js.completion (string * string)).
Context (buildSectionRegeneratePrompt :
           ReadmeSection.t → ProjectInfo.t → DetectionResult.t →
           ProjectTypeResult.t → string → option string →
           Js.completion (string * string)).
Context (generateWithGroq generateWithStreaming : list ChatMessage.t → run).

Definition generateOfflineReadme :=
  OfflineFallback.generateOfflineReadme Number_toString encodeURIComponent toLowerCase.

Definition messages_of (prompts : string * string) : list ChatMessage.t :=
  [ ChatMessage.mk "system" prompts.1; ChatMessage.mk "user" prompts.2 ].

(** [hasGroqKey && (provider === 'huggingface' || !hasOrKey)] *)
Definition useGroq (hasGroqKey hasOrKey : bool) (provider : string) : bool :=
  hasGroqKey && (String.eqb provider "huggingface" || negb hasOrKey).

Definition call_backend (groq : bool) (messages : list ChatMessage.t) : run :=
  if groq
  then mkRun (Request Groq messages :: events (generateWithGroq messages))
             (outcome (generateWithGroq messages))
  else mkRun (Request OpenRouter messages :: events (generateWithStreaming messages))
             (outcome (generateWithStreaming messages)).

(** [generateReadme]; an awaited call that throws outside [try] rejects the
    promise of [generateReadme] itself. *)
Definition generateReadme (secretStorage : SecretStorage.t)
    (projectInfo : ProjectInfo.t) (detection : DetectionResult.t)
    (projectType : ProjectTypeResult.t) (options : GenerationOptions.t) : run :=
  match SecretStorage.hasHuggingFaceApiKey secretStorage with
  | Js.Throw e => rejected [] e
  | Js.Return hasGroqKey =>
  match SecretStorage.hasApiKey secretStorage with
  | Js.Throw e => rejected [] e
  | Js.Return hasOrKey =>
  match SecretStorage.getApiProvider secretStorage with
  | Js.Throw e => rejected [] e
  | Js.Return provider =>
  if negb hasGroqKey && negb hasOrKey then
    (* Use offline fallback *)
    match generateOfflineReadme projectInfo detection projectType with
    | Js.Throw e => rejected [] e
    | Js.Return offlineContent => resolved [OnComplete offlineContent]
    end
  else
  let template := Templates.getTemplate (GenerationOptions.templateId options) in
  let promptOptions :=
    PromptOptions.mk template
      (GenerationOptions.enabledSections options)
      (GenerationOptions.language options)
      (GenerationOptions.tone options)
      (GenerationOptions.customInstructions options)
      (GenerationOptions.includeBadges options)
      (GenerationOptions.customBadges options) in
  match buildPrompt projectInfo detection projectType promptOptions with
  | Js.Throw e => rejected [] e
  | Js.Return prompts =>
      let r := call_backend (useGroq hasGroqKey hasOrKey provider)
                            (messages_of prompts) in
      match outcome r with
      | Js.Return _ => resolved (events r)
      | Js.Throw _ =>
          (* Fallback to offline mode on error: the document is built
             first, then the two callbacks are called *)
          match generateOfflineReadme projectInfo detection projectType with
          | Js.Throw e => rejected (events r) e
          | Js.Return offlineContent =>
              resolved (events r ++
                        [ OnError "API request failed. Using offline template.";
                          OnComplete offlineContent ])
          end
      end
  end end end end.

(** [regenerateSection] *)
Definition regenerateSection (secretStorage : SecretStorage.t)
    (section : ReadmeSection.t) (projectInfo : ProjectInfo.t)
    (detection : DetectionResult.t) (projectType : ProjectTypeResult.t)
    (currentContent : string) (customInstructions : option string) : run :=
  match SecretStorage.hasApiKey secretStorage with
  | Js.Throw e => rejected [] e
  | Js.Return hasKey =>
  if negb hasKey then
    resolved [OnError "API key not configured. Cannot regenerate section."]
  else
  match buildSectionRegeneratePrompt section projectInfo detection projectType
          currentContent customInstructions with
  | Js.Throw e => rejected [] e
  | Js.Return prompts =>
  match SecretStorage.hasHuggingFaceApiKey secretStorage with
  | Js.Throw e => rejected [] e
  | Js.Return hasGroqKey =>
  match SecretStorage.hasApiKey secretStorage with
  | Js.Throw e => rejected [] e
  | Js.Return hasOrKey =>
  match SecretStorage.getApiProvider secretStorage with
  | Js.Throw e => rejected [] e
  | Js.Return provider =>
      call_backend (useGroq hasGroqKey hasOrKey provider) (messages_of prompts)
  end end end end end.

(** How the promise that [generateReadmeSimple] builds ends: it is
    fulfilled by the first [resolve], it rejects when a step before
    [new Promise] throws, and it stays pending when the client calls neither
    [onComplete] nor [onError].  [onError] builds the offline document before
    it calls [resolve]; when that throws, the exception goes back into the
    client in the middle of its run, and whether the promise is settled
    later is the client's affair: [Interrupted]. *)
Inductive settlement : Type :=
| Fulfilled (result : GenerationResult.t)
| Rejected (error : string)
| Pending
| Interrupted (error : string).

(** The callbacks of [generateReadmeSimple]: [onToken] only accumulates,
    [onComplete] and [onError] call [resolve]; only the first call of
    [resolve] counts. *)
Fixpoint first_resolve (offlineContent : Js.completion string) (events : list event)
  : option settlement :=
  match events with
  | [] => None
  | OnComplete fullContent :: _ =>
      Some (Fulfilled (GenerationResult.mk fullContent false None))
  | OnError _ :: _ =>
      match offlineContent with
      | Js.Return content =>
          Some (Fulfilled (GenerationResult.mk content true (Some "API request failed")))
      | Js.Throw e => Some (Interrupted e)
      end
  | _ :: rest => first_resolve offlineContent rest
  end.

(** [generateReadmeSimple]: the events of the run and the way its promise
    ends.  The client's own promise is dropped, so whether it resolves or
    rejects makes no difference. *)
Definition generateReadmeSimple (secretStorage : SecretStorage.t)
    (projectInfo : ProjectInfo.t) (detection : DetectionResult.t)
    (projectType : ProjectTypeResult.t) (options : GenerationOptions.t)
  : list event * settlement :=
  match SecretStorage.hasHuggingFaceApiKey secretStorage with
  | Js.Throw e => ([], Rejected e)
  | Js.Return hasGroqKey =>
  match SecretStorage.hasApiKey secretStorage with
  | Js.Throw e => ([], Rejected e)
  | Js.Return hasOrKey =>
  if negb hasGroqKey && negb hasOrKey then
    match generateOfflineReadme projectInfo detection projectType with
    | Js.Throw e => ([], Rejected e)
    | Js.Return content => ([], Fulfilled (GenerationResult.mk content true None))
    end
  else
  let template := Templates.getTemplate (GenerationOptions.templateId options) in
  let promptOptions :=
    PromptOptions.mk template
      (GenerationOptions.enabledSections options)
      (GenerationOptions.language options)
      (GenerationOptions.tone options)
      (GenerationOptions.customInstructions options)
      (GenerationOptions.includeBadges options)
      (GenerationOptions.customBadges options) in
  match buildPrompt projectInfo detection projectType promptOptions with
  | Js.Throw e => ([], Rejected e)
  | Js.Return prompts =>
      (* Check which API to use *)
      let useGroq := hasGroqKey && negb hasOrKey in
      let r := call_backend useGroq (messages_of prompts) in
      (events r,
       default Pending
         (first_resolve (generateOfflineReadme projectInfo detection projectType)
                        (events r)))
  end end end.

(** [getPromptPreview] *)
Definition getPromptPreview (projectInfo : ProjectInfo.t)
    (detection : DetectionResult.t) (projectType : ProjectTypeResult.t)
    (options : GenerationOptions.t) : Js.completion string :=
  let template := Templates.getTemplate (GenerationOptions.templateId options) in
  let promptOptions :=
    PromptOptions.mk template
      (GenerationOptions.enabledSections options)
      (GenerationOptions.language options)
      (GenerationOptions.tone options)
      (GenerationOptions.customInstructions options)
      (GenerationOptions.includeBadges options)
      (GenerationOptions.customBadges options) in
  match buildPrompt projectInfo detection projectType promptOptions with
  | Js.Throw e => Js.Throw e
  | Js.Return prompts =>
      Js.Return ("=== SYSTEM PROMPT ===" +:+ Js.LF +:+ prompts.1 +:+ Js.LF +:+ Js.LF +:+
                 "=== USER PROMPT ===" +:+ Js.LF +:+ prompts.2)
  end.

End orchestrator.

(** Sample inputs: stand-ins for the built-ins, the prompt compiler and the
    clients (no property below depends on what they return), a store with
    no key, and a store holding only the Groq key. *)
Definition sample_Number_toString := BadgeGenerator.sample_Number_toString.
Definition sample_encodeURIComponent := BadgeGenerator.sample_encodeURIComponent.
Definition sample_buildPrompt (projectInfo : ProjectInfo.t)
    (detection : DetectionResult.t) (projectType : ProjectTypeResult.t)
    (options : PromptOptions.t) : Js.completion (string * string) :=
  Js.Return ("system", "user").
Definition sample_buildSectionRegeneratePrompt (section : ReadmeSection.t)
    (projectInfo : ProjectInfo.t) (detection : DetectionResult.t)
    (projectType : ProjectTypeResult.t) (currentContent : string)
    (customInstructions : option string) : Js.completion (string * string) :=
  Js.Return ("system", "user").
Definition sample_client (messages : list ChatMessage.t) : run :=
  resolved [OnToken "# "; OnToken "Demo"; OnComplete "# Demo"].

Definition no_keys : SecretStorage.t :=
  Some (SecretStorage.mkSecrets None None None).
Definition groq_key_only : SecretStorage.t :=
  Some (SecretStorage.mkSecrets None (Some "gsk_example") None).

Definition sample_project : ProjectInfo.t :=
  ProjectInfo.mk (JStr "demo") "/demo" [] None false None [] [] 0.
Definition sample_detection : DetectionResult.t :=
  DetectionResult.mk [] [] None [] [].
(** What the scanner returns for a manifest [{"name": 123}], and a project
    whose [description] is an object with a member named [toString]. *)
Definition numbered_project : ProjectInfo.t :=
  ProjectInfo.mk (JNum 123) "/demo" [] (Some (JObj [("name", JNum 123)]))
    false None [] [] 0.
Definition object_description_project : ProjectInfo.t :=
  ProjectInfo.mk (JStr "demo") "/demo" []
    (Some (JObj [("description", JObj [("toString", JNum 1)])]))
    false None [] [] 0.
Definition sample_type : ProjectTypeResult.t :=
  ProjectTypeResult.mk unknown "Project" 0.3 "Could not determine project type".
Definition sample_options : GenerationOptions.t :=
  GenerationOptions.mk "openSource" ["title"] "english" "professional" None true None.
Definition sample_section : ReadmeSection.t :=
  ReadmeSection.mk "usage" "Usage" "How to use the project" true.

(** The [promptOptions] object built from the generation options. *)
Definition prompt_options (options : GenerationOptions.t) : PromptOptions.t :=
  PromptOptions.mk (Templates.getTemplate (GenerationOptions.templateId options))
    (GenerationOptions.enabledSections options)
    (GenerationOptions.language options)
    (GenerationOptions.tone options)
    (GenerationOptions.customInstructions options)
    (GenerationOptions.includeBadges options)
    (GenerationOptions.customBadges options).

(** Stores used below: both keys and no stored preference; the OpenRouter
    key alone. *)
Definition both_keys : SecretStorage.secrets :=
  SecretStorage.mkSecrets (Some "sk-or-example") (Some "gsk_example") None.
Definition openrouter_key_only : SecretStorage.secrets :=
  SecretStorage.mkSecrets (Some "sk-or-example") None None.
Definition groq_key : SecretStorage.secrets :=
  SecretStorage.mkSecrets None (Some "gsk_example") None.

End ReadmeGenerator.

(* ================================================================== *)
(** * Version history store (historyManager.ts) *)
(* ================================================================== *)

Module ReadmeVersion.
(** [id] is the string [`${timestamp}-${hash}`]; the timestamp is printed in
    decimal and ends at the first dash, so two ids are equal exactly when
    their timestamps and hashes are: the pair stands for the string. *)
Record t (path : Type) : Type := mk {
  id : N * string;
  timestamp : N;
  date : string;
  hash : string;
  preview : string;
  filePath : path
}.
Arguments mk {path} _ _ _ _ _ _.
Arguments id {path} _.
Arguments timestamp {path} _.
Arguments date {path} _.
Arguments hash {path} _.
Arguments preview {path} _.
Arguments filePath {path} _.
End ReadmeVersion.

Module HistoryManager.

Definition MAX_VERSIONS : nat := 20.

(** Names in the history directory [<root>/.readme-generator/history].
    [VersionFile t h] is the name [`${t}-${h}.md`] that [saveVersion] writes
    and that the pattern [/^(\d+)-([a-f0-9]+)\.md$/] of [getVersions] reads
    back as timestamp [t] and hash [h]; [OtherFile] is any name the pattern
    rejects. *)
Inductive filename : Type :=
| VersionFile (timestamp : N) (hash : string)
| OtherFile (name : string).

Global Instance filename_eq_dec : EqDecision filename.
Proof. solve_decision. Defined.

Global Instance filename_countable : Countable filename.
Proof.
  refine (inj_countable'
    (λ f, match f with
          | VersionFile t h => inl (t, h)
          | OtherFile n => inr n
          end)
    (λ x, match x with
          | inl (t, h) => VersionFile t h
          | inr n => OtherFile n
          end) _).
  by intros [].
Defined.

(** The part of the file system one project root owns: the history
    directory (absent until created), the ignore marker next to it, and the
    live [README.md]. *)
Record workspace : Type := mkWorkspace {
  history : option (gmap filename string);
  gitignore : option string;
  readme : option string
}.

(** The file-system calls of the module, one constructor per call site.  Any
    of them can be refused by the system (permissions, a full or read-only
    disk, a file held by another process). *)
Inductive fs_call : Type :=
| Mkdir
| WriteIgnore
| WriteVersion (name : filename)
| Readdir
| ReadListed (name : filename)
| ReadContent (name : filename)
| Unlink (name : filename)
| WriteReadme.

(** [fs call]: the system refuses this call during the run at hand.  Within
    one run of an exported function no call is made twice, so a run is
    described by the set of calls that fail in it. *)
Definition faults : Type := fs_call → bool.

Definition no_faults : faults := λ _, false.

(** Runs in which every deletion, every read of a listed file, or the write
    of [README.md] is refused. *)
Definition unlink_refused : faults :=
  λ call, match call with Unlink _ => true | _ => false end.
Definition read_refused : faults :=
  λ call, match call with ReadListed _ => true | _ => false end.
Definition readme_write_refused : faults :=
  λ call, match call with WriteReadme => true | _ => false end.

Fixpoint trimStart (s : string) : string :=
  match s with
  | EmptyString => EmptyString
  | String c rest => if Js.is_space c then trimStart rest else s
  end.

Definition trim (s : string) : string :=
  String.rev (trimStart (String.rev (trimStart s))).

(** [content.split('\n')], with the line being read kept in [line]. *)
Fixpoint split_lines (line : string) (s : string) : list string :=
  match s with
  | EmptyString => [String.rev line]
  | String c rest =>
      if Ascii.eqb c "010"%char
      then String.rev line :: split_lines "" rest
      else split_lines (String c line) rest
  end.

Definition substring_to (maxLength : nat) (s : string) : string :=
  String.substring 0 maxLength s.

Definition preview_line (maxLength : nat) (line : string) : option string :=
  let trimmed := trim line in
  if negb (String.eqb trimmed "") &&
     negb (Js.startsWith trimmed "#") &&
     negb (Js.startsWith trimmed "![") &&
     negb (Js.startsWith trimmed "[![") &&
     (10 <? String.length trimmed)
  then Some (substring_to maxLength trimmed +:+
             (if maxLength <? String.length trimmed then "..." else ""))
  else None.

(** [getPreview(content, maxLength = 100)] *)
Definition getPreview (content : string) : string :=
  match list_find (λ l, is_Some (preview_line 100 l)) (split_lines "" content) with
  | Some (_, line) => default "" (preview_line 100 line)
  | None => substring_to 100 content +:+ "..."
  end.

Section store.
(** Node's [crypto.createHash('md5')...digest('hex')] and
    [new Date(t).toLocaleString()] are taken as given; [fs] tells which
    file-system calls fail in the run. *)
Context (md5_hex : string → string) (toLocaleString : N → string).
Context (fs : faults).

(** [ensureHistoryDir]: [mkdir] with [recursive], then the ignore marker
    written with flag [wx], which throws on an existing marker and so leaves
    it alone.  Both calls sit in [try]/[catch]: a failure is ignored. *)
Definition ensureHistoryDir (ws : workspace) : workspace :=
  mkWorkspace
    (if fs Mkdir then history ws else Some (default ∅ (history ws)))
    (if fs WriteIgnore then gitignore ws
     else Some (default ("*" +:+ Js.LF) (gitignore ws)))
    (readme ws).

Definition generateHash (content : string) : string :=
  substring_to 8 (md5_hex content).

(** One round of the loop of [getVersions]: a name the pattern accepts is
    read; a file that cannot be read is skipped. *)
Definition version_of (entry : filename * string) : option (ReadmeVersion.t filename) :=
  match entry.1 with
  | VersionFile timestamp hash =>
      if fs (ReadListed entry.1) then None
      else Some (ReadmeVersion.mk (timestamp, hash) timestamp
                   (toLocaleString timestamp) hash (getPreview entry.2) entry.1)
  | OtherFile _ => None
  end.

Definition by_timestamp (v : ReadmeVersion.t filename) : Z :=
  Z.of_N (ReadmeVersion.timestamp v).

(** [getVersions]: the directory listing (in whatever order [readdir] gives
    it), the names the pattern accepts, newest first.  A missing directory,
    or any other failure of [readdir], is caught and gives the empty list. *)
Definition listing (dir : gmap filename string) : list (ReadmeVersion.t filename) :=
  omap version_of (map_to_list dir).

Definition getVersions (ws : workspace) : list (ReadmeVersion.t filename) :=
  match history ws with
  | None => []
  | Some dir => if fs Readdir then [] else Js.sort_desc by_timestamp (listing dir)
  end.

Definition readFile (ws : workspace) (name : filename) : option string :=
  history ws ≫= λ dir, dir !! name.

(** [fs.promises.unlink]: [None] when it throws, refused by the system or
    for want of a file to delete. *)
Definition unlink (ws : workspace) (name : filename) : option workspace :=
  match history ws with
  | Some dir =>
      if fs (Unlink name) || negb (bool_decide (is_Some (dir !! name))) then None
      else Some (mkWorkspace (Some (delete name dir)) (gitignore ws) (readme ws))
  | None => None
  end.

(** [fs.promises.writeFile] of a version file: [None] when it throws,
    refused by the system or for want of the history directory. *)
Definition writeFile (ws : workspace) (name : filename) (content : string)
  : option workspace :=
  match history ws with
  | Some dir =>
      if fs (WriteVersion name) then None
      else Some (mkWorkspace (Some (<[name := content]> dir)) (gitignore ws) (readme ws))
  | None => None
  end.

(** [unlink] inside [try]/[catch]: a failure changes nothing. *)
Definition try_unlink (ws : workspace) (name : filename) : workspace :=
  default ws (unlink ws name).

Definition cleanupOldVersions (ws : workspace) : workspace :=
  let versions := getVersions ws in
  if decide (length versions ≤ MAX_VERSIONS) then ws
  else foldl (λ ws v, try_unlink ws (ReadmeVersion.filePath v)) ws
             (drop MAX_VERSIONS versions).

(** The record [saveVersion] returns for content saved at [now]. *)
Definition saved_version (now : N) (content : string) : ReadmeVersion.t filename :=
  let timestamp := now in
  let hash := generateHash content in
  ReadmeVersion.mk (timestamp, hash) timestamp (toLocaleString timestamp)
    hash (getPreview content) (VersionFile timestamp hash).

(** The state right after the write of [saveVersion], before the cleanup
    (the state before the write when it throws). *)
Definition written (ws : workspace) (now : N) (content : string) : workspace :=
  let ws1 := ensureHistoryDir ws in
  default ws1 (writeFile ws1 (VersionFile now (generateHash content)) content).

(** [saveVersion(workspacePath, content)] at clock reading [now]
    ([Date.now()]): the state it leaves and the version it returns, [None]
    when the write throws and the promise is rejected. *)
Definition saveVersion (ws : workspace) (now : N) (content : string)
  : workspace * option (ReadmeVersion.t filename) :=
  let ws1 := ensureHistoryDir ws in
  let filePath := VersionFile now (generateHash content) in
  match writeFile ws1 filePath content with
  | None => (ws1, None)
  | Some ws2 =>
      let ws3 := cleanupOldVersions ws2 in
      (ws3, Some (saved_version now content))
  end.

(** [getVersionContent]: [null] for an unknown id and for a file that
    cannot be read. *)
Definition getVersionContent (ws : workspace) (versionId : N * string) : option string :=
  match list_find (λ v, ReadmeVersion.id v = versionId) (getVersions ws) with
  | None => None
  | Some (_, version) =>
      if fs (ReadContent (ReadmeVersion.filePath version)) then None
      else readFile ws (ReadmeVersion.filePath version)
  end.

(** [rollbackToVersion]: [if (!content) return false] rejects both a missing
    version ([null]) and empty content (the empty string is falsy); a write
    of [README.md] that throws is caught and answered with [false]. *)
Definition rollbackToVersion (ws : workspace) (versionId : N * string)
  : workspace * bool :=
  match getVersionContent ws versionId with
  | None => (ws, false)
  | Some content =>
      if String.eqb content "" then (ws, false)
      else if fs WriteReadme then (ws, false)
      else (mkWorkspace (history ws) (gitignore ws) (Some content), true)
  end.

(** [deleteVersion]: an [unlink] that throws is caught and answered with
    [false]. *)
Definition deleteVersion (ws : workspace) (versionId : N * string)
  : workspace * bool :=
  match list_find (λ v, ReadmeVersion.id v = versionId) (getVersions ws) with
  | None => (ws, false)
  | Some (_, version) =>
      match unlink ws (ReadmeVersion.filePath version) with
      | Some ws' => (ws', true)
      | None => (ws, false)
      end
  end.

(** [hasHistory] *)
Definition hasHistory (ws : workspace) : bool :=
  0 <? length (getVersions ws).

End store.

(** Sample inputs.  [sample_md5] stands in for the digest (it gives the MD5
    of the two contents used below); no property depends on its values. *)
Definition sample_md5 (content : string) : string :=
  if String.eqb content "" then "d41d8cd98f00b204e9800998ecf8427e"
  else if String.eqb content "hello" then "5d41402abc4b2a76b9719d911017c592"
  else "00000000000000000000000000000000".

Definition sample_date (t : N) : string := pretty t.

Definition empty_workspace : workspace := mkWorkspace None None None.

(** Twenty stored versions with timestamps [first], ..., [first + 19]. *)
Definition twenty_versions (first : N) : workspace :=
  mkWorkspace
    (Some (list_to_map
             ((λ i, (VersionFile (first + N.of_nat i) "0cc175b9", "# old"))
                <$> seq 0 20)))
    (Some ("*" +:+ Js.LF)) None.

End HistoryManager.

(* ================================================================== *)
(** * Groq client (groqClient.ts) *)
(* ================================================================== *)

Module GroqClient.

Definition GROQ_MODELS : list string :=
  [ "llama-3.3-70b-versatile"; "llama-3.1-8b-instant";
    "mixtral-8x7b-32768"; "gemma2-9b-it" ].

(** The module variable [currentModelIndex] is threaded through as a
    natural number.  [GROQ_MODELS[currentModelIndex]] is [undefined]
    ([None]) past the end of the array. *)
Definition getCurrentModel (currentModelIndex : nat) : option string :=
  GROQ_MODELS !! currentModelIndex.

(** [model.split('-').slice(0, 2).join('-')]; reading [split] from
    [undefined] throws. *)
Definition getModelDisplayName (currentModelIndex : nat) : Js.completion string :=
  match getCurrentModel currentModelIndex with
  | Some model => Js.Return (Js.join "-" (take 2 (Js.split_on "-" model)))
  | None =>
      Js.Throw "TypeError: Cannot read properties of undefined (reading 'split')"
  end.

(** [switchToNextModel()]: the new index and the returned flag. *)
Definition switchToNextModel (currentModelIndex : nat) : nat * bool :=
  if currentModelIndex <? length GROQ_MODELS - 1
  then (S currentModelIndex, true)
  else (currentModelIndex, false).

Definition resetToFirstModel : nat := 0.

(** What one pass through the [try] block meets: an exception before any
    content is streamed (a rejected [fetch], an unreadable or ill-shaped
    body), a response that is not [ok], or generated text. *)
Inductive response : Type :=
| Failed (error : string)
| HttpError (status : nat) (errorMessage : string)
| Ok (generatedText : string).

(** What a run does, in order: the three callbacks, requests and pauses.
    The callbacks themselves are taken not to throw. *)
Inductive action : Type :=
| Token (token : string)
| Complete (fullContent : string)
| Error (message : string)
| Fetch (model : string) (messages : list ChatMessage.t)
| Sleep (ms : nat).

Record result : Type := mkResult {
  actions : list action;
  currentModelIndex : nat;
  outcome : Js.completion unit
}.

Definition chunkSize : nat := 3.

(** The [for] loop that replays the text in chunks of three words;
    [fuel] bounds its iterations. *)
Fixpoint stream_from (fuel i : nat) (words : list string) : list action :=
  match fuel with
  | 0 => []
  | S fuel =>
      if i <? length words then
        let chunk := Js.join " " (take chunkSize (drop i words)) +:+ " " in
        Token chunk :: Sleep 15 :: stream_from fuel (i + chunkSize) words
      else []
  end.

Definition simulate_streaming (generatedText : string) : list action :=
  let words := Js.split_on " " generatedText in
  stream_from (length words) 0 words.

(** [!generatedText || generatedText.trim().length === 0], with [trim] on
    the ASCII range. *)
Definition blank (generatedText : string) : bool :=
  String.eqb generatedText "" ||
  (String.length (HistoryManager.trim generatedText) =? 0).

(** The notice sent before the next model is tried. *)
Definition switching_notice (phrase nextModel : string) : string :=
  Js.LF +:+ "⚠️ " +:+ phrase +:+ " **" +:+ nextModel +:+ "**..." +:+ Js.LF +:+ Js.LF.

Definition prepend (before : list action) (r : option result) : option result :=
  (λ r, mkResult (before ++ actions r) (currentModelIndex r) (outcome r)) <$> r.

Section client.
(** [fetch n]: what the [n]-th request of the run meets. *)
Context (fetch : nat → response) (messages : list ChatMessage.t).

(** The [while (true)] loop, one iteration per unit of [fuel]; [None] when
    the fuel runs out. *)
Fixpoint try_models (fuel attempt currentModelIndex : nat) : option result :=
  match fuel with
  | 0 => None
  | S fuel =>
  match getModelDisplayName currentModelIndex with
  | Js.Throw e => Some (mkResult [] currentModelIndex (Js.Throw e))
  | Js.Return modelName =>
  let currentModel := default "" (getCurrentModel currentModelIndex) in
  let started :=
    [ Token ("🤖 Using Groq model: **" +:+ modelName +:+ "**" +:+ Js.LF +:+ Js.LF);
      Fetch currentModel messages ] in
  let finished (last : list action) (index : nat) :=
    Some (mkResult (started ++ last) index (Js.Return tt)) in
  (* [if (switchToNextModel()) { ...; continue; }], else [otherwise]; after
     a switch the index is in range, so the display name is defined *)
  let switch_or (phrase : string) (ms : nat) (otherwise : option result) :=
    if (switchToNextModel currentModelIndex).2 then
      match getModelDisplayName (switchToNextModel currentModelIndex).1 with
      | Js.Throw e =>
          Some (mkResult started (switchToNextModel currentModelIndex).1 (Js.Throw e))
      | Js.Return nextModel =>
          prepend (started ++ [Token (switching_notice phrase nextModel); Sleep ms])
                  (try_models fuel (S attempt) (switchToNextModel currentModelIndex).1)
      end
    else otherwise in
  match fetch attempt with
  | Failed error =>
      (* Network error - try next model *)
      switch_or "Connection error. Trying" 1000
        (finished [Error error] currentModelIndex)
  | HttpError status errorMessage =>
      if status =? 429 then
        (* Rate limit - try next model *)
        switch_or "Rate limited. Switching to" 1500
          (finished
             [Error ("⏳ Rate limit reached on all models." +:+ Js.LF +:+ Js.LF +:+
                     "Please wait a moment and try again.")]
             resetToFirstModel)
      else if status =? 404 then
        (* Model not found - try next *)
        switch_or "Model unavailable. Trying" 500
          (finished [Error ("Groq API Error: " +:+ errorMessage)] currentModelIndex)
      else if status =? 401 then
        finished
          [Error "❌ Invalid Groq API key. Please check your API key in settings."]
          currentModelIndex
      else
        finished [Error ("Groq API Error: " +:+ errorMessage)] currentModelIndex
  | Ok generatedText =>
      let streamed :=
        finished (simulate_streaming generatedText ++ [Complete generatedText])
                 currentModelIndex in
      if blank generatedText
      then switch_or "No response. Trying" 500 streamed
      else streamed
  end end end.

(** [generateWithGroq(messages, callbacks)], started with the module
    variable at [currentModelIndex]. *)
Definition generateWithGroq (secretStorage : SecretStorage.t)
    (currentModelIndex : nat) : option result :=
  match SecretStorage.getHuggingFaceApiKey secretStorage with
  | Js.Throw e => Some (mkResult [] currentModelIndex (Js.Throw e))
  | Js.Return apiKey =>
      if negb (SecretStorage.key_present apiKey) then
        Some (mkResult
                [Error "Groq API key not configured. Please set your Groq API key."]
                currentModelIndex (Js.Return tt))
      else
        (* Reset to first model at the start of each generation *)
        try_models (length GROQ_MODELS) 0 resetToFirstModel
  end.

End client.

Definition is_terminal (a : action) : bool :=
  match a with
  | Complete _ | Error _ => true
  | _ => false
  end.

Definition is_fetch (a : action) : bool :=
  match a with
  | Fetch _ _ => true
  | _ => false
  end.

Definition token_of (a : action) : option string :=
  match a with
  | Token token => Some token
  | _ => None
  end.

(** The callbacks of a run end the stream once: one [onComplete] or
    [onError], after everything else. *)
Definition ends_once (actions : list action) : Prop :=
  ∃ before last,
    actions = before ++ [last] ∧ is_terminal last = true ∧
    Forall (λ a, is_terminal a = false) before.

Definition fetches (actions : list action) : nat :=
  length (filter (λ a, is_fetch a = true) actions).

(** The callbacks of a run, as the caller of the client sees them. *)
Definition callback_of (a : action) : option ReadmeGenerator.event :=
  match a with
  | Token token => Some (ReadmeGenerator.OnToken token)
  | Complete fullContent => Some (ReadmeGenerator.OnComplete fullContent)
  | Error message => Some (ReadmeGenerator.OnError message)
  | Fetch _ _ | Sleep _ => None
  end.

(** The client as [generateReadme] calls it.  The loop ends within the
    fuel [generateWithGroq] gives it, so the last case does not arise. *)
Definition client (fetch : nat → response) (secretStorage : SecretStorage.t)
    (currentModelIndex : nat) (messages : list ChatMessage.t)
  : ReadmeGenerator.run :=
  match generateWithGroq fetch messages secretStorage currentModelIndex with
  | Some r => ReadmeGenerator.mkRun (omap callback_of (actions r)) (outcome r)
  | None => ReadmeGenerator.mkRun [] (Js.Return tt)
  end.

(** Sample environments: every model is rate limited; the first model
    answers. *)
Definition always_rate_limited (attempt : nat) : response :=
  HttpError 429 "Rate limit exceeded".

Definition answers (generatedText : string) (attempt : nat) : response :=
  Ok generatedText.

End GroqClient.

(* ================================================================== *)
(** * OpenRouter client, retry helpers (openRouterClient.js) *)
(* ================================================================== *)

Module OpenRouterClient.

Definition MAX_RETRIES : nat := 3.
Definition INITIAL_DELAY_MS : N := 2000.
Definition MAX_DELAY_MS : N := 30000.

(** [getRetryDelay(attempt)]: [Math.min(INITIAL_DELAY_MS * Math.pow(2,
    attempt), MAX_DELAY_MS)].  The product is a power of two times 125, exact
    in binary64 until it overflows to [Infinity], where the minimum is
    [MAX_DELAY_MS] as well. *)
Definition getRetryDelay (attempt : nat) : N :=
  N.min (INITIAL_DELAY_MS * 2 ^ N.of_nat attempt) MAX_DELAY_MS.

(** What one call of [fetch] gives: a response with its status, or a
    rejection. *)
Inductive fetched (response : Type) : Type :=
| Responded (r : response)
| Rejected (error : string).
Arguments Responded {response} r.
Arguments Rejected {response} error.

Inductive step : Type :=
| Fetch (attempt : nat)
| OnRetry (attempt : nat) (delayMs : N)
| Sleep (ms : N).

Section retry.
Context {response : Type} (status : response → nat).
(** [fetch n]: what the [n]-th call of [fetch] gives; [onRetry] tells
    whether the optional callback was passed. *)
Context (fetch : nat → fetched response) (onRetry : bool).

Definition retry_steps (attempt : nat) : list step :=
  let delayMs := getRetryDelay attempt in
  (if onRetry then [OnRetry (attempt + 1) delayMs] else []) ++ [Sleep delayMs].

(** The [for] loop from [attempt] on, with [remaining] iterations left:
    its steps and how the function ends. *)
Fixpoint attempts (maxRetries remaining attempt : nat) (lastError : option string)
  : list step * Js.completion response :=
  match remaining with
  | 0 =>
      ([], Js.Throw (default "Request failed after retries" lastError))
  | S remaining =>
      match fetch attempt with
      | Responded r =>
          (* If rate limited (429), retry after delay *)
          if (status r =? 429) && (attempt <? maxRetries) then
            let rest := attempts maxRetries remaining (S attempt) lastError in
            (Fetch attempt :: retry_steps attempt ++ rest.1, rest.2)
          else ([Fetch attempt], Js.Return r)
      | Rejected error =>
          let rest := attempts maxRetries remaining (S attempt) (Some error) in
          if attempt <? maxRetries
          then (Fetch attempt :: retry_steps attempt ++ rest.1, rest.2)
          else (Fetch attempt :: rest.1, rest.2)
      end
  end.

(** [fetchWithRetry(url, options, maxRetries = MAX_RETRIES, onRetry)], for
    [maxRetries] a natural number (the module leaves it at [MAX_RETRIES]) and
    an [onRetry] that does not throw. *)
Definition fetchWithRetry (maxRetries : nat) : list step * Js.completion response :=
  attempts maxRetries (S maxRetries) 0 None.

End retry.

Definition is_fetch (s : step) : bool :=
  match s with
  | Fetch _ => true
  | _ => false
  end.

Definition slept (s : step) : N :=
  match s with
  | Sleep ms => ms
  | _ => 0%N
  end.

(** The time spent in [sleep], in milliseconds. *)
Definition total_sleep (steps : list step) : N :=
  foldr N.add 0%N (slept <$> steps).

(** A server that rate-limits the first two calls and then answers. *)
Definition busy_twice (attempt : nat) : fetched nat :=
  if attempt <? 2 then Responded 429 else Responded 200.

End OpenRouterClient.

(* ################################################################## *)
(** * Properties *)
(* ################################################################## *)

Module JsFacts.
Import Js.

Lemma prefix_split_space_0 (s : string) :
  String.prefix (split_space_0 s) s = true.
Proof.
  induction s as [|c s IH]; simpl; [done|].
  destruct (Ascii.eqb c " "); simpl; [done|].
  by destruct (ascii_dec c c).
Qed.

Lemma startsWith_split_space_0 (s : string) :
  startsWith s (split_space_0 s) = true.
Proof. apply prefix_split_space_0. Qed.

Section sort_facts.
Context {A : Type} (key : A → Z).

Lemma insert_desc_Permutation (x : A) (l : list A) :
  insert_desc key x l ≡ₚ x :: l.
Proof.
  induction l as [|y l IH]; simpl; [done|].
  case_match; [|done].
  rewrite IH. apply Permutation_swap.
Qed.

Lemma sort_desc_Permutation (l : list A) : sort_desc key l ≡ₚ l.
Proof.
  induction l as [|x l IH]; simpl; [done|].
  rewrite insert_desc_Permutation. by f_equiv.
Qed.

Lemma sort_desc_length (l : list A) : length (sort_desc key l) = length l.
Proof. by rewrite sort_desc_Permutation. Qed.

Lemma insert_desc_HdRel (a x : A) (l : list A) :
  desc key a x → HdRel (desc key) a l → HdRel (desc key) a (insert_desc key x l).
Proof.
  intros Hax Hal. destruct l as [|y l]; simpl; [by constructor|].
  case_match; constructor; [by inversion Hal|done].
Qed.

Lemma insert_desc_Sorted (x : A) (l : list A) :
  Sorted (desc key) l → Sorted (desc key) (insert_desc key x l).
Proof.
  induction 1 as [|y l Hl IH Hy]; simpl; [by repeat constructor|].
  case_match eqn:Hlt.
  - constructor; [done|]. apply insert_desc_HdRel; [|done].
    unfold desc. lia.
  - constructor; [by constructor|]. constructor. unfold desc. lia.
Qed.

Lemma sort_desc_Sorted (l : list A) : Sorted (desc key) (sort_desc key l).
Proof.
  induction l as [|x l IH]; simpl; [constructor|].
  by apply insert_desc_Sorted.
Qed.

Lemma sort_desc_StronglySorted (l : list A) :
  StronglySorted (desc key) (sort_desc key l).
Proof.
  apply Sorted_StronglySorted; [|apply sort_desc_Sorted].
  intros a b c. unfold desc. lia.
Qed.

End sort_facts.

Lemma insert_desc_fmap {A B : Type} (key : B → Z) (f : A → B) (x : A) (l : list A) :
  insert_desc key (f x) (f <$> l) = f <$> insert_desc (key ∘ f) x l.
Proof.
  induction l as [|y l IH]; simpl; [done|].
  case_match; simpl; [|done].
  f_equal. exact IH.
Qed.

Lemma sort_desc_fmap {A B : Type} (key : B → Z) (f : A → B) (l : list A) :
  sort_desc key (f <$> l) = f <$> sort_desc (key ∘ f) l.
Proof.
  induction l as [|x l IH]; [done|].
  rewrite fmap_cons. unfold sort_desc in *. rewrite !foldr_cons, IH.
  apply insert_desc_fmap.
Qed.

Lemma own_Some_elem_of {A : Type} (table : list (string * A)) (k : string) (v : A) :
  own table k = Some v → (k, v) ∈ table.
Proof.
  induction table as [|[k' v'] table IH]; simpl; [done|].
  destruct (String.eqb_spec k' k) as [->|Hne].
  - intros [= ->]. left.
  - intros H. right. by apply IH.
Qed.

Lemma exact_percent_bound (num den : nat) :
  0 < den →
  (2 * Z.of_nat den * exact_percent num den
     ≤ 200 * Z.of_nat num + Z.of_nat den)%Z.
Proof.
  intros Hden. unfold exact_percent.
  apply Z.mul_div_le. lia.
Qed.

(** Membership in a list written out. *)
Ltac solve_elem_of :=
  repeat first [ apply list_elem_of_here | apply list_elem_of_further ].

Section sort_with_facts.
Context {A : Type} (after : A → A → bool).

Lemma insert_with_Permutation (x : A) (l : list A) :
  insert_with after x l ≡ₚ x :: l.
Proof.
  induction l as [|y l IH]; simpl; [done|].
  destruct (after x y); [|done].
  rewrite IH. apply Permutation_swap.
Qed.

Lemma sort_with_Permutation (l : list A) : sort_with after l ≡ₚ l.
Proof.
  induction l as [|x l IH]; simpl; [done|].
  by rewrite insert_with_Permutation, IH.
Qed.

(** On elements satisfying [P], let the comparator agree with a transitive
    order [R]: [after x y] puts [y] before [x] under [R], and its negation
    puts [x] before [y]. *)
Context (R : relation A) (P : A → Prop).
Hypothesis R_trans : ∀ x y z, P x → P y → P z → R x y → R y z → R x z.
Hypothesis after_false : ∀ x y, P x → P y → after x y = false → R x y.
Hypothesis after_true : ∀ x y, P x → P y → after x y = true → R y x.

Lemma insert_with_StronglySorted (x : A) (l : list A) :
  P x → Forall P l → StronglySorted R l →
  StronglySorted R (insert_with after x l).
Proof.
  intros Hx. induction l as [|y l IH]; intros HP Hs; simpl.
  { repeat constructor. }
  apply Forall_cons in HP as [Hy HP].
  apply StronglySorted_inv in Hs as [Hs Hall].
  destruct (after x y) eqn:Hxy.
  - constructor; [by apply IH|].
    rewrite insert_with_Permutation. constructor; [by apply after_true|done].
  - constructor; [by constructor|].
    constructor; [by apply after_false|].
    rewrite Forall_forall in Hall, HP. apply Forall_forall. intros z Hz.
    apply (R_trans x y z); auto.
Qed.

Lemma sort_with_StronglySorted (l : list A) :
  Forall P l → StronglySorted R (sort_with after l).
Proof.
  induction l as [|x l IH]; intros HP; simpl; [constructor|].
  apply Forall_cons in HP as [Hx HP].
  apply insert_with_StronglySorted; [done| |by apply IH].
  by rewrite sort_with_Permutation.
Qed.

End sort_with_facts.

Lemma foldl_push_if {A B : Type} (p : B → bool) (f : B → A) (l : list B) (acc : list A) :
  foldl (λ acc r, push_if (p r) (f r) acc) acc l
  = acc ++ (f <$> filter (λ r, p r = true) l).
Proof.
  revert acc. induction l as [|r l IH]; intros acc; csimpl.
  { by rewrite (right_id_L [] (++)). }
  rewrite IH, filter_cons. unfold push_if.
  destruct (p r); [rewrite decide_True by done|rewrite decide_False by done];
    csimpl; [|done].
  by rewrite <-(assoc_L (++)).
Qed.

Lemma push_if_app {A : Type} (c : bool) (x : A) (xs : list A) :
  push_if c x xs = xs ++ (if c then [x] else []).
Proof. unfold push_if. destruct c; [done|]. by rewrite (right_id_L [] (++)). Qed.

Lemma elem_of_push_if {A : Type} (c : bool) (x y : A) (xs : list A) :
  y ∈ push_if c x xs ↔ y ∈ xs ∨ (c = true ∧ y = x).
Proof.
  unfold push_if. destruct c.
  - rewrite elem_of_app, list_elem_of_singleton. naive_solver.
  - naive_solver.
Qed.

Lemma sublist_push_if {A : Type} (c : bool) (x : A) (xs ys : list A) :
  xs `sublist_of` ys → push_if c x xs `sublist_of` ys ++ [x].
Proof.
  intros H. rewrite push_if_app. apply sublist_app; [done|].
  destruct c; [done|apply sublist_nil_l].
Qed.

Lemma existsb_fmap {A B : Type} (f : A → B) (p : B → bool) (l : list A) :
  existsb p (f <$> l) = existsb (p ∘ f) l.
Proof. induction l as [|x l IH]; csimpl; [done|]. by rewrite IH. Qed.

Lemma prefix_trans (p q s : string) :
  String.prefix p q = true → String.prefix q s = true → String.prefix p s = true.
Proof.
  revert q s. induction p as [|a p IH]; intros [|b q] [|c s]; simpl; try done.
  destruct (ascii_dec a b) as [->|]; [|done].
  destruct (ascii_dec b c) as [->|]; [|done].
  apply IH.
Qed.

Lemma includes_prefix (s p q : string) :
  String.prefix p q = true → includes s q = true → includes s p = true.
Proof.
  intros Hpq. induction s as [|c s IH]; cbn [includes].
  - rewrite !orb_false_r. by apply prefix_trans.
  - intros [H|H]%orb_true_iff; apply orb_true_iff.
    + left. by eapply prefix_trans.
    + right. by apply IH.
Qed.

Lemma own_is_Some {A : Type} (table : list (string * A)) (key : string) :
  is_Some (own table key) ↔ key ∈ table.*1.
Proof.
  induction table as [|[k v] table IH]; csimpl.
  - split; [by intros [? ?]|by intros ?%elem_of_nil].
  - destruct (String.eqb_spec k key) as [->|Hne].
    + split; [intros _; left|by eexists].
    + rewrite IH, elem_of_cons. naive_solver.
Qed.

Lemma append_String (c : Ascii.ascii) (a b : string) :
  String c a +:+ b = String c (a +:+ b).
Proof. reflexivity. Qed.

Lemma append_empty_r (s : string) : s +:+ "" = s.
Proof. induction s as [|c s IH]; [done|]. by rewrite append_String, IH. Qed.

Lemma append_assoc (a b c : string) : (a +:+ b) +:+ c = a +:+ (b +:+ c).
Proof. induction a as [|x a IH]; [done|]. by rewrite !append_String, IH. Qed.

Lemma length_append (a b : string) :
  String.length (a +:+ b) = String.length a + String.length b.
Proof.
  induction a as [|c a IH]; [done|].
  rewrite append_String. cbn [String.length]. by rewrite IH.
Qed.

Lemma join_sep_cons (sep x : string) (xs : list string) :
  xs ≠ [] → join sep (x :: xs) = x +:+ sep +:+ join sep xs.
Proof. by destruct xs. Qed.

Lemma join_sep_app (sep : string) (l1 l2 : list string) :
  l1 ≠ [] → l2 ≠ [] →
  join sep (l1 ++ l2) = join sep l1 +:+ sep +:+ join sep l2.
Proof.
  intros H1 H2. induction l1 as [|x l1 IH]; [done|].
  destruct l1 as [|y l1].
  - change ([x] ++ l2) with (x :: l2). rewrite join_sep_cons by done. done.
  - rewrite <-app_comm_cons, (join_sep_cons sep x (y :: l1)) by done.
    rewrite join_sep_cons by done.
    rewrite IH by done. by rewrite !append_assoc.
Qed.

Lemma join_empty_cons (x : string) (xs : list string) :
  join "" (x :: xs) = x +:+ join "" xs.
Proof.
  destruct xs as [|y xs]; [by rewrite append_empty_r|].
  by rewrite join_sep_cons.
Qed.

Lemma split_on_nonempty (sep : Ascii.ascii) (s : string) : split_on sep s ≠ [].
Proof.
  induction s as [|c s IH]; simpl; [done|].
  destruct (Ascii.eqb c sep); [done|]. by destruct (split_on sep s).
Qed.

Lemma join_split_on (sep : Ascii.ascii) (s : string) :
  join (String sep "") (split_on sep s) = s.
Proof.
  induction s as [|c s IH]; [done|].
  cbn [split_on]. destruct (Ascii.eqb_spec c sep) as [->|Hne].
  - rewrite join_sep_cons by apply split_on_nonempty. by rewrite IH.
  - pose proof (split_on_nonempty sep s) as Hn.
    destruct (split_on sep s) as [|w ws]; [done|].
    destruct ws as [|w' ws]; simpl in *; by rewrite <-IH.
Qed.

End JsFacts.

(** Binary64 arithmetic on file counts, from the specification of the
    primitive operations: conversion of a count, division, multiplication by
    100 and [Math.round], each with its rounding error. *)
Module Binary64Facts.
Local Open Scope Z_scope.

Lemma digits2_pos_size (p : positive) : digits2_pos p = Pos.size p.
Proof. induction p as [p IH|p IH|]; simpl; by rewrite ?IH. Qed.

Lemma digits2_bounds (p : positive) :
  2 ^ (Z.pos (digits2_pos p) - 1) ≤ Z.pos p < 2 ^ Z.pos (digits2_pos p).
Proof.
  rewrite digits2_pos_size.
  pose proof (Pos.size_gt p) as Hgt. pose proof (Pos.size_le p) as Hle.
  apply Pos2Z.pos_lt_pos in Hgt. apply Pos2Z.pos_le_pos in Hle.
  rewrite Pos2Z.inj_pow in Hgt, Hle. rewrite Pos2Z.inj_xO in Hle.
  change (Z.pos 2) with 2 in *.
  set (s := Z.pos (Pos.size p)) in *.
  assert (2 ^ s = 2 * 2 ^ (s - 1)) as Hs.
  { rewrite <-Z.pow_succ_r by lia. f_equal. lia. }
  change ((2 * 1) ^ s) with (2 ^ s) in Hle. lia.
Qed.

Lemma digits2_unique (p : positive) (d : Z) :
  2 ^ (d - 1) ≤ Z.pos p < 2 ^ d → Z.pos (digits2_pos p) = d.
Proof.
  intros [Hlo Hhi]. pose proof (digits2_bounds p) as [Hlo' Hhi'].
  destruct (Z.lt_trichotomy (Z.pos (digits2_pos p)) d) as [Hlt|[Heq|Hgt]]; [|done|].
  - assert (2 ^ Z.pos (digits2_pos p) ≤ 2 ^ (d - 1)) by (apply Z.pow_le_mono_r; lia).
    lia.
  - assert (0 ≤ d).
    { destruct (Z.le_gt_cases 0 d); [done|]. rewrite Z.pow_neg_r in Hhi by lia. lia. }
    assert (2 ^ d ≤ 2 ^ (Z.pos (digits2_pos p) - 1)) by (apply Z.pow_le_mono_r; lia).
    lia.
Qed.

(** One shift to the right halves the mantissa. *)
Lemma shr_1_m (mrs : shr_record) :
  0 ≤ shr_m mrs → shr_m (shr_1 mrs) = shr_m mrs / 2 ∧ 0 ≤ shr_m (shr_1 mrs).
Proof.
  destruct mrs as [m r s]. cbn [shr_m]. intros Hm.
  destruct m as [|[p|p|]|p]; cbn [shr_1 shr_m]; try lia; (split; [|lia]).
  - done.
  - change (Z.pos p~1) with (2 * Z.pos p + 1). apply Z.div_unique with 1; lia.
  - change (Z.pos p~0) with (2 * Z.pos p). apply Z.div_unique with 0; lia.
  - done.
Qed.

Lemma iter_shr_1_m (p : positive) (mrs : shr_record) :
  0 ≤ shr_m mrs →
  shr_m (SpecFloat.iter_pos shr_1 p mrs) = shr_m mrs / 2 ^ Z.pos p ∧
  0 ≤ shr_m (SpecFloat.iter_pos shr_1 p mrs).
Proof.
  revert mrs. induction p as [p IH|p IH|]; intros mrs Hm; cbn [SpecFloat.iter_pos].
  - destruct (shr_1_m mrs Hm) as [H1 H1'].
    destruct (IH _ H1') as [H2 H2']. destruct (IH _ H2') as [H3 H3'].
    split; [|done]. rewrite H3, H2, H1. change (Z.pos p~1) with (2 * Z.pos p + 1).
    rewrite !Z.div_div by lia. f_equal.
    replace (2 * Z.pos p + 1) with (1 + Z.pos p + Z.pos p) by lia.
    rewrite !Z.pow_add_r, Z.pow_1_r by lia. lia.
  - destruct (IH _ Hm) as [H2 H2']. destruct (IH _ H2') as [H3 H3'].
    split; [|done]. rewrite H3, H2. change (Z.pos p~0) with (2 * Z.pos p).
    rewrite !Z.div_div by lia. f_equal.
    replace (2 * Z.pos p) with (Z.pos p + Z.pos p) by lia.
    rewrite !Z.pow_add_r by lia. lia.
  - destruct (shr_1_m mrs Hm) as [H1 H1']. by rewrite Z.pow_1_r.
Qed.

(** [shr_fexp] for a mantissa of [d] digits, [53 <= d], in the normal
    range: [d - 53] digits are dropped. *)
Lemma shr_fexp_m (m e : Z) (l : location) (p : positive) :
  0 < m → Zdigits2 m = Z.pos p → 53 ≤ Z.pos p → -1000 ≤ e →
  let r := shr_fexp prec emax m e l in
  shr_m r.1 = m / 2 ^ (Z.pos p - 53) ∧ r.2 = e + (Z.pos p - 53).
Proof.
  intros Hm Hd Hp He. cbv zeta. unfold shr_fexp. rewrite Hd.
  assert (fexp prec emax (Z.pos p + e) - e = Z.pos p - 53) as ->.
  { unfold fexp, SpecFloat.emin, prec, emax. lia. }
  assert (shr_m (shr_record_of_loc m l) = m) as Hrec by (by destruct l as [|[]]).
  unfold shr. destruct (Z.pos p - 53) as [|k|k] eqn:Hk; cbn [fst snd].
  - rewrite Hrec, Z.pow_0_r, Z.div_1_r. split; [done|lia].
  - destruct (iter_shr_1_m k (shr_record_of_loc m l)) as [Hi _]; [rewrite Hrec; lia|].
    by rewrite Hi, Hrec.
  - lia.
Qed.

Lemma round_nearest_even_bounds (m : Z) (l : location) :
  m ≤ round_nearest_even m l ≤ m + 1.
Proof. destruct l as [|[]]; cbn [round_nearest_even]; try lia. destruct (Z.even m); lia. Qed.

Lemma Zdigits2_pos (m d : Z) :
  0 < m → 2 ^ (d - 1) ≤ m < 2 ^ d → ∃ p, Zdigits2 m = Z.pos p ∧ Z.pos p = d.
Proof.
  intros Hm Hd. destruct m as [|q|q]; try lia.
  exists (digits2_pos q). split; [done|]. by apply digits2_unique.
Qed.

Lemma Zdigits2_range (m lo hi : Z) :
  0 ≤ lo → 2 ^ lo ≤ m < 2 ^ hi →
  ∃ p, Zdigits2 m = Z.pos p ∧ lo < Z.pos p ≤ hi ∧ 2 ^ (Z.pos p - 1) ≤ m < 2 ^ Z.pos p.
Proof.
  intros Hlo [Hm1 Hm2].
  assert (0 < 2 ^ lo) by (apply Z.pow_pos_nonneg; lia).
  destruct m as [|q|q]; try lia.
  exists (digits2_pos q). pose proof (digits2_bounds q) as [Hb1 Hb2].
  split; [done|]. split; [|done]. split.
  - destruct (Z.le_gt_cases (Z.pos (digits2_pos q)) lo) as [Hle|]; [|done].
    assert (2 ^ Z.pos (digits2_pos q) ≤ 2 ^ lo) by (apply Z.pow_le_mono_r; lia). lia.
  - destruct (Z.le_gt_cases (Z.pos (digits2_pos q)) hi) as [|Hgt]; [done|].
    assert (2 ^ hi ≤ 2 ^ (Z.pos (digits2_pos q) - 1)) by (apply Z.pow_le_mono_r; lia). lia.
Qed.

(** Rounding a positive value with at least 53 digits, well inside the
    exponent range: the result is a normal number, and it exceeds the value
    rounded by less than one part in [2^52]. *)
Lemma binary_round_aux_bound (mx ex : Z) (lx : location) :
  2 ^ 52 ≤ mx < 2 ^ 110 → -1000 ≤ ex ≤ 800 →
  ∃ m e, binary_round_aux prec emax false mx ex lx = S754_finite false m e ∧
         2 ^ 52 ≤ Z.pos m < 2 ^ 53 ∧ ex ≤ e ≤ ex + 58 ∧
         2 ^ 52 * (Z.pos m * 2 ^ (e - ex)) ≤ mx * (2 ^ 52 + 1).
Proof.
  intros Hmx Hex.
  destruct (Zdigits2_range mx 52 110 ltac:(lia) Hmx) as (p & Hd & Hp & Hb).
  set (k := Z.pos p - 53) in *.
  assert (0 ≤ k ≤ 57) as Hk by lia.
  assert (0 < 2 ^ k) as Hk2 by (apply Z.pow_pos_nonneg; lia).
  assert (2 ^ (Z.pos p - 1) = 2 ^ k * 2 ^ 52) as Hlo.
  { rewrite <-Z.pow_add_r by lia. f_equal. lia. }
  assert (2 ^ Z.pos p = 2 ^ k * 2 ^ 53) as Hhi.
  { rewrite <-Z.pow_add_r by lia. f_equal. lia. }
  unfold binary_round_aux.
  pose proof (shr_fexp_m mx ex lx p ltac:(lia) Hd ltac:(lia) ltac:(lia)) as Hs1.
  cbv zeta in Hs1. fold k in Hs1.
  destruct (shr_fexp prec emax mx ex lx) as [mrs1 e1]. cbn [fst snd] in Hs1.
  destruct Hs1 as [Hm1 He1].
  set (m1 := shr_m mrs1) in *.
  assert (2 ^ 52 ≤ m1 < 2 ^ 53) as Hm1b.
  { rewrite Hm1. split.
    - apply Z.div_le_lower_bound; lia.
    - apply Z.div_lt_upper_bound; lia. }
  assert (2 ^ k * m1 ≤ mx) as Hm1le.
  { rewrite Hm1. apply Z.mul_div_le. lia. }
  pose proof (round_nearest_even_bounds m1 (loc_of_shr_record mrs1)) as Hr.
  set (m1' := round_nearest_even m1 (loc_of_shr_record mrs1)) in *.
  destruct (Zdigits2_range m1' 52 54 ltac:(lia) ltac:(lia)) as (p2 & Hd2 & Hp2 & Hb2).
  set (k2 := Z.pos p2 - 53) in *.
  assert (0 ≤ k2 ≤ 1) as Hk2' by lia.
  pose proof (shr_fexp_m m1' e1 loc_Exact p2 ltac:(lia) Hd2 ltac:(lia) ltac:(lia)) as Hs2.
  cbv zeta in Hs2. fold k2 in Hs2.
  destruct (shr_fexp prec emax m1' e1 loc_Exact) as [mrs2 e2]. cbn [fst snd] in Hs2.
  destruct Hs2 as [Hm2 He2].
  assert (0 < 2 ^ k2) as Hk2p by (apply Z.pow_pos_nonneg; lia).
  assert (2 ^ (Z.pos p2 - 1) = 2 ^ k2 * 2 ^ 52) as Hlo2.
  { rewrite <-Z.pow_add_r by lia. f_equal. lia. }
  assert (2 ^ Z.pos p2 = 2 ^ k2 * 2 ^ 53) as Hhi2.
  { rewrite <-Z.pow_add_r by lia. f_equal. lia. }
  assert (2 ^ 52 ≤ shr_m mrs2 < 2 ^ 53) as Hm2b.
  { rewrite Hm2. split.
    - apply Z.div_le_lower_bound; lia.
    - apply Z.div_lt_upper_bound; lia. }
  assert (2 ^ k2 * shr_m mrs2 ≤ m1') as Hm2le.
  { rewrite Hm2. apply Z.mul_div_le. lia. }
  destruct (shr_m mrs2) as [|m|m] eqn:Hm; try lia.
  assert ((e2 <=? emax - prec) = true) as ->.
  { apply Z.leb_le. unfold emax, prec. lia. }
  exists m, e2. split; [done|]. split; [done|]. split; [lia|].
  replace (e2 - ex) with (k + k2) by lia.
  rewrite Z.pow_add_r by lia. nia.
Qed.

(** A mantissa of exactly 53 digits is not rounded. *)
Lemma binary_round_aux_exact (m : positive) (ex : Z) :
  2 ^ 52 ≤ Z.pos m < 2 ^ 53 → -1000 ≤ ex ≤ 800 →
  binary_round_aux prec emax false (Z.pos m) ex loc_Exact = S754_finite false m ex.
Proof.
  intros Hm Hex.
  assert (Z.pos (digits2_pos m) = 53) as Hd by (by apply digits2_unique).
  unfold binary_round_aux, shr_fexp. cbn [Zdigits2 shr_record_of_loc]. rewrite Hd.
  assert (fexp prec emax (53 + ex) - ex = 0) as ->.
  { unfold fexp, SpecFloat.emin, prec, emax. lia. }
  cbn [shr shr_m loc_of_shr_record round_nearest_even Zdigits2]. rewrite Hd.
  assert (fexp prec emax (53 + ex) - ex = 0) as ->.
  { unfold fexp, SpecFloat.emin, prec, emax. lia. }
  cbn [shr shr_m].
  assert ((ex <=? emax - prec) = true) as ->; [|done].
  apply Z.leb_le. unfold emax, prec. lia.
Qed.

Lemma iter_xO (k m : positive) :
  Z.pos (Pos.iter xO m k) = Z.pos m * 2 ^ Z.pos k.
Proof.
  induction k as [|k IH] using Pos.peano_ind.
  - cbn [Pos.iter]. lia.
  - rewrite Pos.iter_succ, Pos2Z.inj_succ, Z.pow_succ_r by lia.
    change (Z.pos (Pos.iter xO m k)~0) with (2 * Z.pos (Pos.iter xO m k)).
    rewrite IH. lia.
Qed.

(** A count below [2^53] is converted exactly, to a normal number. *)
Lemma number_of_nat_finite (n : nat) :
  0 < Z.of_nat n < 2 ^ 53 →
  ∃ m e, Prim2SF (Js.number_of_nat n) = S754_finite false m e ∧
         2 ^ 52 ≤ Z.pos m < 2 ^ 53 ∧ -52 ≤ e ≤ 0 ∧
         Z.pos m = Z.of_nat n * 2 ^ (- e).
Proof.
  intros Hn. unfold Js.number_of_nat.
  rewrite of_uint63_spec, Uint63.of_Z_spec.
  rewrite Z.mod_small by (change Uint63.wB with (2 ^ 63); lia).
  destruct (Z.of_nat n) as [|q|q] eqn:Hq; try lia.
  cbn [binary_normalize]. unfold binary_round, shl_align.
  pose proof (digits2_bounds q) as Hb.
  set (d := Z.pos (digits2_pos q)) in *.
  assert (0 < d ≤ 53) as Hd.
  { split; [done|].
    destruct (Z.le_gt_cases d 53) as [|Hgt]; [done|].
    assert (2 ^ 53 ≤ 2 ^ (d - 1)) by (apply Z.pow_le_mono_r; lia). lia. }
  assert (fexp prec emax (d + 0) - 0 = d - 53) as ->.
  { unfold fexp, SpecFloat.emin, prec, emax. lia. }
  destruct (d - 53) as [|s|s] eqn:Hs; try lia.
  - assert (d = 53) as Hd53 by lia. rewrite Hd53 in Hb.
    exists q, 0. split; [|split; [done|split; [lia|]]].
    + apply binary_round_aux_exact; [done|lia].
    + change (2 ^ (- 0)) with 1. lia.
  - assert (2 ^ (d - 1) * 2 ^ Z.pos s = 2 ^ 52) as Hlo.
    { rewrite <-Z.pow_add_r by lia. f_equal. lia. }
    assert (2 ^ d * 2 ^ Z.pos s = 2 ^ 53) as Hhi.
    { rewrite <-Z.pow_add_r by lia. f_equal. lia. }
    assert (0 < 2 ^ Z.pos s) by (apply Z.pow_pos_nonneg; lia).
    pose proof (iter_xO s q) as Hit.
    assert (fexp prec emax (d + 0) = Z.neg s) as ->.
    { unfold fexp, SpecFloat.emin, prec, emax. lia. }
    exists (Pos.iter xO q s), (Z.neg s).
    split; [|split; [|split; [lia|]]].
    + apply binary_round_aux_exact; [nia|lia].
    + nia.
    + rewrite Hit. done.
Qed.

Lemma number_of_nat_zero : Prim2SF (Js.number_of_nat 0) = S754_zero false.
Proof. reflexivity. Qed.

(** The quotient of two normal numbers: a normal number that exceeds the
    exact quotient by less than one part in [2^52]. *)
Lemma SFdiv_bound (mx my : positive) (ex ey : Z) :
  2 ^ 52 ≤ Z.pos mx < 2 ^ 53 → 2 ^ 52 ≤ Z.pos my < 2 ^ 53 →
  -52 ≤ ex ≤ 0 → -52 ≤ ey ≤ 0 →
  ∃ m e, SF64div (S754_finite false mx ex) (S754_finite false my ey)
           = S754_finite false m e ∧
         2 ^ 52 ≤ Z.pos m < 2 ^ 53 ∧
         ex - ey - 53 ≤ e ≤ ex - ey + 5 ∧
         2 ^ 52 * (Z.pos m * 2 ^ (e - (ex - ey - 53))) * Z.pos my
           ≤ Z.pos mx * 2 ^ 53 * (2 ^ 52 + 1).
Proof.
  intros Hmx Hmy Hex Hey.
  unfold SF64div, SFdiv, SFdiv_core_binary. cbn [Zdigits2 xorb].
  rewrite (digits2_unique mx 53), (digits2_unique my 53) by done.
  assert (Z.min (fexp prec emax (53 + ex - (53 + ey))) (ex - ey) = ex - ey - 53) as ->.
  { unfold fexp, SpecFloat.emin, prec, emax. lia. }
  replace (ex - ey - (ex - ey - 53)) with 53 by lia.
  rewrite Z.shiftl_mul_pow2 by lia.
  pose proof (Z_div_mod (Z.pos mx * 2 ^ 53) (Z.pos my) ltac:(lia)) as Hdiv.
  destruct (Z.div_eucl (Z.pos mx * 2 ^ 53) (Z.pos my)) as [q r].
  destruct Hdiv as [Hqr Hr].
  assert (2 ^ 52 ≤ q < 2 ^ 110) as Hq by nia.
  destruct (binary_round_aux_bound q (ex - ey - 53) (new_location (Z.pos my) r)
              Hq ltac:(lia)) as (m & e & -> & Hm & He & Hle).
  exists m, e. split; [done|]. split; [done|]. split.
  - lia.
  - nia.
Qed.

(** The product of a normal number and 100. *)
Lemma SFmul_100_bound (mx : positive) (ex : Z) :
  2 ^ 52 ≤ Z.pos mx < 2 ^ 53 → -200 ≤ ex ≤ 200 →
  ∃ m e, SF64mul (S754_finite false mx ex) (Prim2SF 100)
           = S754_finite false m e ∧
         2 ^ 52 ≤ Z.pos m < 2 ^ 53 ∧
         ex - 46 ≤ e ≤ ex + 12 ∧
         2 ^ 52 * (Z.pos m * 2 ^ (e - (ex - 46)))
           ≤ Z.pos mx * (100 * 2 ^ 46) * (2 ^ 52 + 1).
Proof.
  intros Hmx Hex.
  change (Prim2SF 100) with (S754_finite false 7036874417766400 (-46)).
  unfold SF64mul, SFmul. cbn [xorb].
  assert (Z.pos 7036874417766400 = 100 * 2 ^ 46) as H100 by reflexivity.
  destruct (binary_round_aux_bound (Z.pos (mx * 7036874417766400)) (ex + -46)
              loc_Exact) as (m & e & -> & Hm & He & Hle).
  { rewrite Pos2Z.inj_mul, H100. lia. }
  { lia. }
  exists m, e. split; [done|]. split; [done|]. split; [lia|].
  rewrite Pos2Z.inj_mul, H100 in Hle.
  replace (ex - 46) with (ex + -46) by lia. done.
Qed.


(** [Math.round((count / totalFiles) * 100)], computed in binary64, never
    exceeds the share rounded from the exact quotient, for any count out of a
    total below [2^32] (the bound on the length of a JavaScript array). *)
Lemma round_percent_le_exact (count totalFiles : nat) :
  (count ≤ totalFiles)%nat → (0 < totalFiles)%nat →
  Z.of_nat totalFiles < 2 ^ 32 →
  Z.of_nat (Js.round_percent count totalFiles)
    ≤ Js.exact_percent count totalFiles.
Proof.
  intros Hle HT HN.
  assert (0 ≤ Js.exact_percent count totalFiles) as Hk0.
  { unfold Js.exact_percent. apply Z.div_pos; lia. }
  pose proof (JsFacts.exact_percent_bound count totalFiles HT) as Hk1.
  assert (200 * Z.of_nat count + Z.of_nat totalFiles
            < 2 * Z.of_nat totalFiles * (Js.exact_percent count totalFiles + 1)) as Hk2.
  { unfold Js.exact_percent.
    pose proof (Z.mul_succ_div_gt (200 * Z.of_nat count + Z.of_nat totalFiles)
                  (2 * Z.of_nat totalFiles) ltac:(lia)) as H.
    unfold Z.succ in H. exact H. }
  set (k := Js.exact_percent count totalFiles) in *.
  assert (k ≤ 100) as Hk100 by nia.
  unfold Js.round_percent, Js.Math_round. rewrite FloatAxioms.mul_spec, FloatAxioms.div_spec.
  destruct (number_of_nat_finite totalFiles ltac:(lia))
    as (mN & eN & -> & HmN & HeN & HNv).
  destruct (decide (count = 0%nat)) as [->|Hc0].
  { rewrite number_of_nat_zero.
    change (Prim2SF 100) with (S754_finite false 7036874417766400 (-46)).
    cbn. lia. }
  destruct (number_of_nat_finite count ltac:(lia))
    as (mc & ec & -> & Hmc & Hec & Hcv).
  destruct (SFdiv_bound mc mN ec eN Hmc HmN Hec HeN)
    as (mq & eQ & -> & Hmq & HeQ & Hq).
  destruct (SFmul_100_bound mq eQ Hmq ltac:(lia))
    as (mp & ep & -> & Hmp & Hep & Hp).
  set (c := Z.of_nat count) in *. set (N := Z.of_nat totalFiles) in *.
  assert (0 < c ≤ N) as HcN by lia.
  set (v := eQ - (ec - eN - 53)) in *. set (u := ep - (eQ - 46)) in *.
  assert (0 ≤ v) as Hv by lia. assert (0 ≤ u) as Hu by lia.
  assert (0 < 2 ^ v) as HPV by (apply Z.pow_pos_nonneg; lia).
  assert (0 < 2 ^ u) as HPU by (apply Z.pow_pos_nonneg; lia).
  assert (0 < 2 ^ (- ec)) as HPA by (apply Z.pow_pos_nonneg; lia).
  assert (0 < 2 ^ (- eN)) as HPB by (apply Z.pow_pos_nonneg; lia).
  set (G := 2 ^ (u + v + - eN)).
  assert (G = 2 ^ u * 2 ^ v * 2 ^ (- eN)) as HG.
  { unfold G. by rewrite !Z.pow_add_r by lia. }
  assert (0 < G) as HG0 by (rewrite HG; nia).
  assert (2 ^ 104 * (Z.pos mp * G * N)
            ≤ c * 2 ^ (- ec) * (100 * 2 ^ 99 * (2 ^ 52 + 1) * (2 ^ 52 + 1))) as Hstar.
  { rewrite HG. rewrite HNv in Hq. rewrite Hcv in Hq.
    set (PU := 2 ^ u) in *. set (PV := 2 ^ v) in *.
    set (PA := 2 ^ (- ec)) in *. set (PB := 2 ^ (- eN)) in *.
    clearbody PU PV PA PB.
    assert (2 ^ 52 * (Z.pos mp * PU * PV) ≤ Z.pos mq * PV * (100 * 2 ^ 46) * (2 ^ 52 + 1)) as H1.
    { replace (2 ^ 52 * (Z.pos mp * PU * PV)) with (2 ^ 52 * (Z.pos mp * PU) * PV) by ring.
      replace (Z.pos mq * PV * (100 * 2 ^ 46) * (2 ^ 52 + 1))
        with (Z.pos mq * (100 * 2 ^ 46) * (2 ^ 52 + 1) * PV) by ring.
      apply Z.mul_le_mono_nonneg_r; [lia|exact Hp]. }
    assert (2 ^ 52 * (2 ^ 52 * (Z.pos mp * PU * PV)) * (N * PB)
              ≤ 2 ^ 52 * (Z.pos mq * PV * (100 * 2 ^ 46) * (2 ^ 52 + 1)) * (N * PB)) as H2.
    { apply Z.mul_le_mono_nonneg_r; [nia|].
      apply Z.mul_le_mono_nonneg_l; [lia|exact H1]. }
    assert (2 ^ 52 * (Z.pos mq * PV) * (N * PB) * ((100 * 2 ^ 46) * (2 ^ 52 + 1))
              ≤ c * PA * 2 ^ 53 * (2 ^ 52 + 1) * ((100 * 2 ^ 46) * (2 ^ 52 + 1))) as H3.
    { apply Z.mul_le_mono_nonneg_r; [lia|exact Hq]. }
    replace (2 ^ 104 * (Z.pos mp * (PU * PV * PB) * N))
      with (2 ^ 52 * (2 ^ 52 * (Z.pos mp * PU * PV)) * (N * PB))
      by (change (2 ^ 104) with (2 ^ 52 * 2 ^ 52); ring).
    etrans; [exact H2|].
    replace (2 ^ 52 * (Z.pos mq * PV * (100 * 2 ^ 46) * (2 ^ 52 + 1)) * (N * PB))
      with (2 ^ 52 * (Z.pos mq * PV) * (N * PB) * ((100 * 2 ^ 46) * (2 ^ 52 + 1))) by ring.
    etrans; [exact H3|].
    apply Z.eq_le_incl. change (2 ^ 99) with (2 ^ 53 * 2 ^ 46). ring. }
  assert (u + v + - eN = - ec + 99 + ep) as Hexp by lia.
  destruct (Z.leb_spec 0 ep) as [Hep0|Hep0].
  - exfalso.
    assert (G = 2 ^ (- ec) * 2 ^ 99 * 2 ^ ep) as HG'.
    { unfold G. rewrite Hexp. by rewrite !Z.pow_add_r by lia. }
    assert (0 < 2 ^ ep) as HPE by (apply Z.pow_pos_nonneg; lia).
    set (PA := 2 ^ (- ec)) in *. set (PE := 2 ^ ep) in *.
    clearbody PA PE G.
    assert (2 ^ 104 * (2 ^ 52 * (PA * 2 ^ 99) * N) ≤ 2 ^ 104 * (Z.pos mp * G * N)) as H1.
    { apply Z.mul_le_mono_nonneg_l; [lia|].
      apply Z.mul_le_mono_nonneg_r; [lia|].
      apply Z.mul_le_mono_nonneg; [lia|lia|nia|nia]. }
    assert (c * PA * (100 * 2 ^ 99 * (2 ^ 52 + 1) * (2 ^ 52 + 1))
              ≤ N * PA * (100 * 2 ^ 99 * (2 ^ 52 + 1) * (2 ^ 52 + 1))) as H2.
    { apply Z.mul_le_mono_nonneg_r; [lia|].
      apply Z.mul_le_mono_nonneg_r; lia. }
    assert (0 < N * PA) as H3 by nia.
    set (NP := N * PA) in *.
    replace (2 ^ 104 * (2 ^ 52 * (PA * 2 ^ 99) * N)) with (NP * (2 ^ 104 * 2 ^ 52 * 2 ^ 99)) in H1
      by (unfold NP; ring).
    clearbody NP. lia.
  - assert (0 < 2 ^ (- ep)) as HT0 by (apply Z.pow_pos_nonneg; lia).
    assert (2 ^ (1 - ep) = 2 * 2 ^ (- ep)) as ->.
    { replace (1 - ep) with (1 + - ep) by lia. by rewrite Z.pow_add_r by lia. }
    assert (2 ^ (- ep) * G = 2 ^ (- ec) * 2 ^ 99) as HTG.
    { unfold G. rewrite <-!Z.pow_add_r by lia. f_equal. lia. }
    set (PA := 2 ^ (- ec)) in *. set (T := 2 ^ (- ep)) in *.
    clearbody PA T G.
    assert (2 * Z.pos mp < T * (2 * k + 1)) as Hfin.
    { destruct (Z.lt_ge_cases (2 * Z.pos mp) (T * (2 * k + 1))) as [|Hge]; [done|].
      exfalso.
      assert (T * G * (2 * k + 1) ≤ 2 * Z.pos mp * G) as H1.
      { replace (T * G * (2 * k + 1)) with (T * (2 * k + 1) * G) by ring.
        apply Z.mul_le_mono_nonneg_r; lia. }
      rewrite HTG in H1.
      assert (2 ^ 104 * N * (PA * 2 ^ 99 * (2 * k + 1)) ≤ 2 ^ 104 * N * (2 * Z.pos mp * G)) as H2.
      { apply Z.mul_le_mono_nonneg_l; [lia|exact H1]. }
      assert (2 * (c * PA * (100 * 2 ^ 99 * (2 ^ 52 + 1) * (2 ^ 52 + 1)))
                ≤ ((2 * k + 1) * N - 1) * (PA * 2 ^ 99) * ((2 ^ 52 + 1) * (2 ^ 52 + 1))) as H3.
      { replace (2 * (c * PA * (100 * 2 ^ 99 * (2 ^ 52 + 1) * (2 ^ 52 + 1))))
          with ((200 * c) * (PA * 2 ^ 99) * ((2 ^ 52 + 1) * (2 ^ 52 + 1))) by ring.
        apply Z.mul_le_mono_nonneg_r; [lia|].
        apply Z.mul_le_mono_nonneg_r; [lia|]. lia. }
      assert (2 ^ 104 * ((2 * k + 1) * N) * (PA * 2 ^ 99)
                ≤ ((2 * k + 1) * N - 1) * ((2 ^ 52 + 1) * (2 ^ 52 + 1)) * (PA * 2 ^ 99)) as H4.
      { replace (2 ^ 104 * ((2 * k + 1) * N) * (PA * 2 ^ 99))
          with (2 ^ 104 * N * (PA * 2 ^ 99 * (2 * k + 1))) by ring.
        etrans; [exact H2|].
        replace (2 ^ 104 * N * (2 * Z.pos mp * G)) with (2 * (2 ^ 104 * (Z.pos mp * G * N))) by ring.
        etrans; [apply Z.mul_le_mono_nonneg_l; [lia|exact Hstar]|].
        etrans; [exact H3|]. apply Z.eq_le_incl. ring. }
      apply Z.mul_le_mono_pos_r in H4; [|lia].
      assert (0 < (2 * k + 1) * N ≤ 201 * 2 ^ 32) as HJ by nia.
      set (J := (2 * k + 1) * N) in *. clearbody J. lia. }
    assert ((2 * Z.pos mp + T) / (2 * T) < k + 1) as Hdiv.
    { apply Z.div_lt_upper_bound; [lia|]. nia. }
    assert (0 ≤ (2 * Z.pos mp + T) / (2 * T)) by (apply Z.div_pos; lia).
    rewrite Z2Nat.id by done. lia.
Qed.

End Binary64Facts.

Module LanguageDetectorFacts.
Import Js JsFacts LanguageDetector.

Lemma recognized_known (f : ProjectFile.t) :
  recognized f = true → known (ProjectFile.extension f).
Proof.
  unfold recognized, get, known. intros [_ H]%andb_true_iff.
  destruct (own LANGUAGE_MAP (ProjectFile.extension f)); [eauto|].
  by destruct (existsb _ _).
Qed.

Lemma bump_keys (ext : string) (counts : list (string * nat)) :
  (bump ext counts).*1 =
    if bool_decide (ext ∈ counts.*1) then counts.*1 else counts.*1 ++ [ext].
Proof.
  induction counts as [|[e c] counts IH]; csimpl; [done|].
  destruct (String.eqb_spec e ext) as [->|Hne]; csimpl.
  - rewrite bool_decide_eq_true_2; [done|left].
  - rewrite IH. case_bool_decide as Hin.
    + rewrite bool_decide_eq_true_2; [done|by right].
    + rewrite bool_decide_eq_false_2; [done|].
      rewrite elem_of_cons. naive_solver.
Qed.

Lemma bump_sum (ext : string) (counts : list (string * nat)) :
  sum_list (bump ext counts).*2 = S (sum_list counts.*2).
Proof.
  induction counts as [|[e c] counts IH]; csimpl; [done|].
  destruct (String.eqb e ext); csimpl; [done|]. rewrite IH. lia.
Qed.

Lemma count_files_inv (files : list ProjectFile.t) (acc : list (string * nat) * nat) :
  NoDup acc.1.*1 → Forall known acc.1.*1 →
  let r := foldl count_step acc files in
  let n := length (filter (λ f, recognized f = true) files) in
  NoDup r.1.*1 ∧ Forall known r.1.*1 ∧
  sum_list r.1.*2 = sum_list acc.1.*2 + n ∧
  r.2 = acc.2 + n ∧
  (list_to_set r.1.*1 : gset string) =
    list_to_set acc.1.*1 ∪
    list_to_set (ProjectFile.extension <$> filter (λ f, recognized f = true) files).
Proof.
  revert acc. induction files as [|f files IH]; intros acc Hnd Hkn; csimpl.
  - repeat split; try done; try lia. set_solver.
  - unfold count_step at 2 4 6 8 10. rewrite filter_cons.
    destruct (recognized f) eqn:Hrec.
    + rewrite decide_True by done.
      destruct (IH (bump (ProjectFile.extension f) acc.1, S acc.2))
        as (H1 & H2 & H3 & H4 & H5); csimpl.
      * rewrite bump_keys. case_bool_decide; [done|].
        apply NoDup_app. repeat split; [done| |apply NoDup_singleton].
        intros x Hx ->%list_elem_of_singleton. done.
      * rewrite bump_keys. case_bool_decide; [done|].
        apply Forall_app. split; [done|].
        apply Forall_singleton. by apply recognized_known.
      * csimpl in *. repeat split; [done|done| | |].
        -- rewrite H3, bump_sum. lia.
        -- rewrite H4. lia.
        -- rewrite H5, bump_keys. case_bool_decide; set_solver.
    + rewrite decide_False by done.
      by apply IH.
Qed.

Lemma count_files_spec (files : list ProjectFile.t) :
  let r := count_files files in
  let n := length (filter (λ f, recognized f = true) files) in
  NoDup r.1.*1 ∧ Forall known r.1.*1 ∧ sum_list r.1.*2 = n ∧ r.2 = n ∧
  (list_to_set r.1.*1 : gset string) =
    list_to_set (ProjectFile.extension <$> filter (λ f, recognized f = true) files).
Proof.
  destruct (count_files_inv files ([], 0)) as (H1 & H2 & H3 & H4 & H5);
    [constructor|constructor|].
  csimpl in *. repeat split; try done. set_solver.
Qed.

Lemma known_elem_of (x : string) : known x → x ∈ LANGUAGE_MAP.*1.
Proof.
  intros [v Hv]. apply own_Some_elem_of in Hv.
  apply list_elem_of_fmap. by exists (x, v).
Qed.

Lemma shared_base_prefix (x x0 y : string) :
  known x → known x0 → known y → x ≠ x0 → base_of x = base_of x0 →
  startsWith (language_name y) (base_of x) = true →
  base_of y = base_of x.
Proof.
  intros Hx Hx0 Hy Hne Hb Hp.
  assert (shared_base_check = true) as Hc by (vm_compute; reflexivity).
  unfold shared_base_check in Hc. cbv zeta in Hc.
  rewrite forallb_forall in Hc.
  specialize (Hc x (proj1 (list_elem_of_In _ _) (known_elem_of _ Hx))).
  rewrite forallb_forall in Hc.
  specialize (Hc x0 (proj1 (list_elem_of_In _ _) (known_elem_of _ Hx0))).
  rewrite (proj2 (String.eqb_neq x x0) Hne) in Hc.
  rewrite (proj2 (String.eqb_eq _ _) Hb) in Hc.
  cbn [negb andb] in Hc.
  rewrite forallb_forall in Hc.
  specialize (Hc y (proj1 (list_elem_of_In _ _) (known_elem_of _ Hy))).
  rewrite Hp in Hc.
  simpl in Hc. by apply String.eqb_eq.
Qed.

Lemma group_size (g : list (string * nat)) (b : string) :
  g ≠ [] → NoDup g.*1 → Forall (λ xc, known xc.1 ∧ base_of xc.1 = b) g →
  length g ≤ 4.
Proof.
  intros Hne Hnd Hall.
  destruct g as [|[x0 c0] g']; [done|].
  pose proof (Forall_inv Hall) as [Hk0 Hb0]. simpl in Hk0, Hb0.
  assert (group_size_check = true) as Hc by (vm_compute; reflexivity).
  unfold group_size_check in Hc. cbv zeta in Hc.
  rewrite forallb_forall in Hc.
  specialize (Hc x0 (proj1 (list_elem_of_In _ _) (known_elem_of _ Hk0))).
  apply Nat.leb_le in Hc.
  rewrite <-(length_fmap fst).
  etrans; [|exact Hc].
  apply submseteq_length, NoDup_submseteq; [done|].
  intros x [[x' c'] [-> Hin]]%list_elem_of_fmap.
  rewrite Forall_forall in Hall. destruct (Hall _ Hin) as [Hk Hb].
  apply list_elem_of_filter. split; [simpl in *; congruence|].
  by apply known_elem_of.
Qed.

Lemma sum_round_percent_bound (totalFiles : nat) (g : list (string * nat)) :
  0 < totalFiles → (Z.of_nat totalFiles < 2 ^ 32)%Z →
  sum_list g.*2 ≤ totalFiles →
  2 * totalFiles * sum_list ((λ xc, round_percent xc.2 totalFiles) <$> g)
    ≤ 200 * sum_list g.*2 + length g * totalFiles.
Proof.
  intros HT Hchk. induction g as [|[x c] g IH]; csimpl; [lia|].
  intros Hle.
  pose proof (Binary64Facts.round_percent_le_exact c totalFiles
                ltac:(lia) HT Hchk) as Hc.
  pose proof (exact_percent_bound c totalFiles HT) as He.
  specialize (IH ltac:(lia)). nia.
Qed.

Lemma add_to_existing_base_names (b : string) (lang : LanguageStat.t)
    (merged : list LanguageStat.t) :
  base_name <$> add_to_existing b lang merged = base_name <$> merged.
Proof.
  induction merged as [|l merged IH]; csimpl; [done|].
  case_match; csimpl; [done|]. by rewrite IH.
Qed.

Lemma add_to_existing_groups (totalFiles : nat) (b : string)
    (lang : LanguageStat.t) (xc : string * nat)
    (merged : list LanguageStat.t) (groups : list (list (string * nat))) :
  Forall2 (group_ok totalFiles) merged groups →
  Exists (λ l, startsWith (LanguageStat.name l) b = true) merged →
  (∀ e g, e ∈ merged → group_ok totalFiles e g →
     startsWith (LanguageStat.name e) b = true →
     group_ok totalFiles
       (LanguageStat.mk (LanguageStat.name e)
          (LanguageStat.percentage e + LanguageStat.percentage lang)
          (LanguageStat.fileCount e + LanguageStat.fileCount lang))
       (g ++ [xc])) →
  ∃ groups',
    Forall2 (group_ok totalFiles) (add_to_existing b lang merged) groups' ∧
    mjoin groups' ≡ₚ xc :: mjoin groups.
Proof.
  induction 1 as [|e g merged groups Heg HF IH]; intros Hex Hupd.
  - by apply Exists_nil in Hex.
  - csimpl. destruct (startsWith (LanguageStat.name e) b) eqn:Hsw.
    + exists ((g ++ [xc]) :: groups). split.
      * constructor; [|done]. apply Hupd; [left|done|done].
      * csimpl. rewrite <-(assoc_L (++)). csimpl.
        by rewrite <-Permutation_middle.
    + destruct IH as (groups' & HF' & Hperm).
      * apply Exists_cons in Hex as [Hex|Hex]; [congruence|done].
      * intros e' g' Hin. apply Hupd. by right.
      * exists (g :: groups'). split; [by constructor|].
        csimpl. rewrite Hperm. by rewrite <-Permutation_middle.
Qed.

Lemma merge_step_inv (totalFiles : nat) (done : list (string * nat))
    (acc : list LanguageStat.t * gset string) (x : string) (c : nat) :
  merge_inv totalFiles done acc → known x → x ∉ done.*1 →
  merge_inv totalFiles (done ++ [(x, c)])
    (merge_step acc (language_of totalFiles (x, c))).
Proof.
  intros (groups & HF & Hperm & Hseen & Hnd) Hk Hfresh.
  unfold merge_step. cbn [language_of LanguageStat.name fst snd].
  fold (base_of x). case_bool_decide as Hin.
  - (* the base name was seen: fold the entry into the first match *)
    rewrite Hseen in Hin.
    apply elem_of_list_to_set, list_elem_of_fmap in Hin as (e0 & Hb0 & He0).
    apply list_elem_of_lookup in He0 as [i Hi].
    destruct (Forall2_lookup_l _ _ _ _ _ HF Hi) as (g0 & Hgi & Hg0).
    destruct Hg0 as (Hne0 & _ & _ & _ & Hall0).
    destruct g0 as [|[x0 c0] g0]; [done|].
    apply Forall_inv in Hall0 as [Hk0 Hbx0]. simpl in Hk0, Hbx0.
    assert (x0 ≠ x) as Hx0.
    { intros ->. apply Hfresh. rewrite <-Hperm.
      apply list_elem_of_fmap. exists (x, c0). split; [done|].
      apply list_elem_of_join. exists ((x, c0) :: g0). split; [left|].
      by eapply list_elem_of_lookup_2. }
    destruct (add_to_existing_groups totalFiles (base_of x)
                (language_of totalFiles (x, c)) (x, c) acc.1 groups HF)
      as (groups' & HF' & Hperm').
    + apply Exists_exists. exists e0. split.
      * by eapply list_elem_of_lookup_2.
      * rewrite Hb0. apply startsWith_split_space_0.
    + intros e g _ (Hne & (y & Hky & Hy) & Hpct & Hfc & Hall) Hsw.
      assert (base_name e = base_of x) as Hbe.
      { unfold base_name. rewrite Hy. fold (base_of y).
        apply (shared_base_prefix x x0 y); try done; [congruence|].
        by rewrite <-Hy. }
      repeat split; cbn [LanguageStat.name LanguageStat.percentage
                           LanguageStat.fileCount language_of fst snd].
      * by destruct g.
      * by exists y.
      * rewrite fmap_app, sum_list_with_app, Hpct. csimpl. lia.
      * rewrite fmap_app, sum_list_with_app, Hfc. csimpl. lia.
      * apply Forall_app. split; [exact Hall|].
        apply Forall_singleton. split; [done|].
        exact (eq_sym Hbe).
    + exists groups'. cbn [fst snd]. repeat split; [done| | |].
      * rewrite Hperm', Hperm. by rewrite <-Permutation_cons_append.
      * by rewrite add_to_existing_base_names.
      * by rewrite add_to_existing_base_names.
  - (* a new base name: push the entry *)
    exists (groups ++ [[(x, c)]]). cbn [fst snd]. repeat split.
    + apply Forall2_app; [done|]. constructor; [|constructor].
      repeat split; cbn [LanguageStat.name LanguageStat.percentage
                           LanguageStat.fileCount language_of fst snd];
        csimpl; try done; try lia.
      * by exists x.
      * by apply Forall_singleton.
    + rewrite join_app. csimpl. by rewrite Hperm.
    + rewrite fmap_app, list_to_set_app_L, Hseen. csimpl.
      unfold base_name at 2. cbn [LanguageStat.name language_of fst].
      fold (base_of x). set_solver.
    + rewrite fmap_app. apply NoDup_app. repeat split; [done| |apply NoDup_singleton].
      intros b Hb ->%list_elem_of_singleton. apply Hin. rewrite Hseen.
      by apply elem_of_list_to_set.
Qed.

Lemma merge_foldl_inv (totalFiles : nat) (cs done : list (string * nat))
    (acc : list LanguageStat.t * gset string) :
  NoDup (done.*1 ++ cs.*1) → Forall known cs.*1 →
  merge_inv totalFiles done acc →
  merge_inv totalFiles (done ++ cs)
    (foldl merge_step acc (language_of totalFiles <$> cs)).
Proof.
  revert done acc. induction cs as [|[x c] cs IH]; intros done acc Hnd Hkn Hinv.
  - by rewrite (right_id_L [] (++)).
  - csimpl. rewrite (cons_middle (x, c)), (assoc_L (++)).
    csimpl in Hnd. csimpl in Hkn.
    apply IH.
    + rewrite fmap_app. csimpl. by rewrite <-(assoc_L (++)).
    + by eapply Forall_inv_tail.
    + apply merge_step_inv; [done|by eapply Forall_inv|].
      apply NoDup_app in Hnd as (_ & Hdisj & _).
      intros Hin. apply (Hdisj _ Hin). left.
Qed.

Lemma merge_languages_inv (totalFiles : nat) (cs : list (string * nat)) :
  NoDup cs.*1 → Forall known cs.*1 →
  merge_inv totalFiles cs
    (foldl merge_step ([], ∅) (language_of totalFiles <$> cs)).
Proof.
  intros Hnd Hkn.
  apply (merge_foldl_inv totalFiles cs [] ([], ∅)); [done|done|].
  exists []. repeat split; csimpl; try done; constructor.
Qed.

Lemma groups_fileCount (totalFiles : nat) (merged : list LanguageStat.t)
    (groups : list (list (string * nat))) :
  Forall2 (group_ok totalFiles) merged groups →
  total_fileCount merged = sum_list (mjoin groups).*2.
Proof.
  unfold total_fileCount.
  induction 1 as [|e g merged groups (_ & _ & _ & Hfc & _) _ IH]; csimpl; [done|].
  by rewrite fmap_app, sum_list_with_app, IH, Hfc.
Qed.

Lemma groups_base_names (totalFiles : nat) (merged : list LanguageStat.t)
    (groups : list (list (string * nat))) :
  Forall2 (group_ok totalFiles) merged groups →
  (list_to_set (base_name <$> merged) : gset string) =
    list_to_set (base_of <$> (mjoin groups).*1).
Proof.
  induction 1 as [|e g merged groups (Hne & _ & _ & _ & Hall) _ IH]; csimpl; [done|].
  rewrite !fmap_app, list_to_set_app_L, IH. f_equal.
  apply set_eq. intros b. rewrite elem_of_singleton, elem_of_list_to_set.
  rewrite <-list_fmap_compose, list_elem_of_fmap. split.
  - intros ->. destruct g as [|xc g]; [done|]. exists xc. split; [|left].
    by destruct (Forall_inv Hall).
  - intros (xc & -> & Hin). rewrite Forall_forall in Hall.
    by destruct (Hall _ Hin).
Qed.

Lemma elem_of_sublist_join {A : Type} (g : list A) (groups : list (list A)) :
  g ∈ groups → g `sublist_of` mjoin groups.
Proof.
  intros (l1 & l2 & ->)%list_elem_of_split.
  rewrite join_app. csimpl.
  apply sublist_inserts_l, sublist_inserts_r. done.
Qed.

Lemma merged_percentage_bound (totalFiles : nat) (cs : list (string * nat))
    (acc : list LanguageStat.t * gset string) (e : LanguageStat.t) :
  0 < totalFiles → (Z.of_nat totalFiles < 2 ^ 32)%Z →
  sum_list cs.*2 = totalFiles → NoDup cs.*1 →
  merge_inv totalFiles cs acc → e ∈ acc.1 →
  LanguageStat.percentage e ≤ 102.
Proof.
  intros HT Hchk Hsum Hnd (groups & HF & Hperm & _ & _) He.
  apply list_elem_of_lookup in He as [i Hi].
  destruct (Forall2_lookup_l _ _ _ _ _ HF Hi) as (g & Hgi & Hg).
  destruct Hg as (Hne & _ & Hpct & _ & Hall).
  assert (∃ k, cs ≡ₚ g ++ k) as [k Hk].
  { apply submseteq_Permutation. rewrite <-Hperm.
    apply sublist_submseteq, elem_of_sublist_join.
    by eapply list_elem_of_lookup_2. }
  assert (length g ≤ 4) as Hlen.
  { apply (group_size g (base_name e)); [done| |done].
    rewrite Hk, fmap_app in Hnd. by apply NoDup_app in Hnd as (? & _ & _). }
  assert (sum_list g.*2 ≤ totalFiles) as Hle.
  { rewrite <-Hsum, Hk, fmap_app, sum_list_with_app. lia. }
  pose proof (sum_round_percent_bound totalFiles g HT Hchk Hle) as Hb.
  rewrite <-Hpct in Hb. nia.
Qed.

Lemma total_fileCount_take (n : nat) (ls : list LanguageStat.t) :
  total_fileCount (take n ls) ≤ total_fileCount ls.
Proof.
  unfold total_fileCount. rewrite <-(take_drop n ls) at 2.
  rewrite fmap_app, sum_list_with_app. lia.
Qed.

(** What [detectLanguages] computes, in terms of the merge invariant. *)
Lemma detectLanguages_shape (projectInfo : ProjectInfo.t) :
  let n := recognized_count projectInfo in
  (n = 0 ∧ detectLanguages projectInfo = []) ∨
  (0 < n ∧ ∃ cs acc,
     NoDup cs.*1 ∧ sum_list cs.*2 = n ∧
     (list_to_set (base_of <$> cs.*1) : gset string) = base_names projectInfo ∧
     merge_inv n cs acc ∧
     detectLanguages projectInfo = take 5 acc.1).
Proof.
  unfold detectLanguages, recognized_count, base_names. cbv zeta.
  pose proof (count_files_spec (ProjectInfo.files projectInfo)) as Hspec.
  destruct (count_files (ProjectInfo.files projectInfo)) as [counts total].
  cbv zeta in Hspec. cbn [fst snd] in Hspec.
  destruct Hspec as (Hnd & Hkn & Hsum & Htot & Hset).
  destruct (Nat.eqb_spec total 0) as [H0|H0]; [left; split; [lia|done]|].
  right. split; [lia|].
  rewrite sort_desc_fmap.
  set (cs := sort_desc (by_fileCount ∘ language_of total) counts).
  assert (cs ≡ₚ counts) as Hcs by apply sort_desc_Permutation.
  exists cs, (foldl merge_step ([], ∅) (language_of total <$> cs)).
  repeat split.
  - by rewrite Hcs.
  - by rewrite Hcs.
  - rewrite Hcs. apply set_eq. intros b.
    rewrite !elem_of_list_to_set, list_fmap_compose, !list_elem_of_fmap.
    assert (∀ x, x ∈ counts.*1 ↔
              x ∈ ProjectFile.extension <$>
                filter (λ f, recognized f = true) (ProjectInfo.files projectInfo))
      as Hiff.
    { intros x. by rewrite <-!(elem_of_list_to_set (C:=gset string)), Hset. }
    split; intros (x & -> & Hx); exists x; (split; [done|]); by apply Hiff.
  - rewrite <-Htot. apply merge_languages_inv; by rewrite Hcs.
Qed.

Lemma recognized_count_le (projectInfo : ProjectInfo.t) :
  recognized_count projectInfo ≤ length (ProjectInfo.files projectInfo).
Proof. unfold recognized_count. apply length_filter. Qed.

(** C1 (as the code has it): [detectLanguages] returns at most five entries;
    their [fileCount] values sum to at most the number N of recognised files,
    and to exactly N when the recognised files span at most five base
    language names; every returned percentage is at most 102 (a merged
    entry adds up to four rounded shares), for every [files] array of fewer
    than [2^32] entries, the bound on the length of a JavaScript array. *)
Theorem detectLanguages_top5_totals (projectInfo : ProjectInfo.t) :
  let result := detectLanguages projectInfo in
  length result ≤ 5 ∧
  total_fileCount result ≤ recognized_count projectInfo ∧
  (size (base_names projectInfo) ≤ 5 →
     total_fileCount result = recognized_count projectInfo) ∧
  ((Z.of_nat (length (ProjectInfo.files projectInfo)) < 2 ^ 32)%Z →
     Forall (λ l, LanguageStat.percentage l ≤ 102) result).
Proof.
  cbv zeta.
  destruct (detectLanguages_shape projectInfo)
    as [[Hn ->]|(Hn & cs & acc & Hnd & Hsum & Hbases & Hinv & ->)].
  { rewrite Hn. repeat split; csimpl; try done; lia. }
  pose proof Hinv as (groups & HF & Hperm & Hseen & Hndb).
  assert (total_fileCount acc.1 = recognized_count projectInfo) as Htotal.
  { by rewrite (groups_fileCount _ _ _ HF), Hperm. }
  repeat split.
  - rewrite length_take. lia.
  - rewrite <-Htotal. apply total_fileCount_take.
  - intros Hsize. rewrite take_ge; [done|].
    rewrite <-(length_fmap base_name), <-(size_list_to_set (C:=gset string)) by done.
    by rewrite (groups_base_names _ _ _ HF), Hperm, Hbases.
  - intros Hlen. apply Forall_forall. intros e [i [Hi _]]%elem_of_take.
    pose proof (recognized_count_le projectInfo) as Hrc.
    eapply (merged_percentage_bound _ cs acc); try done; [lia|].
    by eapply list_elem_of_lookup_2.
Qed.

(** Both conditions are met, for instance, by [python_sources]. *)
Lemma detectLanguages_top5_totals_witness :
  size (base_names python_sources) ≤ 5 ∧
  (Z.of_nat (length (ProjectInfo.files python_sources)) < 2 ^ 32)%Z ∧
  total_fileCount (detectLanguages python_sources)
    = recognized_count python_sources ∧
  Forall (λ l, LanguageStat.percentage l ≤ 102)
         (detectLanguages python_sources).
Proof.
  assert (size (base_names python_sources) ≤ 5) as H
    by (vm_compute; repeat constructor).
  assert (Z.of_nat (length (ProjectInfo.files python_sources)) < 2 ^ 32)%Z
    as Hchk by (vm_compute; reflexivity).
  pose proof (detectLanguages_top5_totals python_sources) as (_ & _ & Hsum & Hpct).
  exact (conj H (conj Hchk (conj (Hsum H) (Hpct Hchk)))).
Defined.

(** C1 (as stated) fails on both counts.  With six files in six languages
    only the top five entries are returned, so the counts sum to 5, not 6;
    with three [.py] and five [.pyw] files the merged Python entry carries
    38 + 63 = 101 percent. *)
Lemma detectLanguages_counterexample :
  (recognized_count six_languages = 6 ∧
   total_fileCount (detectLanguages six_languages) = 5) ∧
  (recognized_count python_sources = 8 ∧
   detectLanguages python_sources = [LanguageStat.mk "Python" 101 8]).
Proof. vm_compute. done. Qed.

End LanguageDetectorFacts.

Module HistoryManagerFacts.
Import Js JsFacts HistoryManager.

Lemma length_substring_to (n : nat) (s : string) :
  String.length (substring_to n s) = n `min` String.length s.
Proof.
  unfold substring_to. revert s. induction n as [|n IH]; intros [|c s]; simpl; try done.
  by rewrite IH.
Qed.

Lemma preview_line_length (maxLength : nat) (line r : string) :
  preview_line maxLength line = Some r →
  10 `min` maxLength ≤ String.length r ∧ String.length r ≤ maxLength + 3.
Proof.
  unfold preview_line. cbv zeta.
  destruct (_ && _) eqn:Hc; [|done]. intros [= <-].
  apply andb_true_iff in Hc as [_ Hlen]. apply Nat.ltb_lt in Hlen.
  rewrite length_append, length_substring_to.
  destruct (maxLength <? _); cbn [String.length]; lia.
Qed.

(** X15: the preview [getPreview] gives is never empty and never longer
    than 103 characters (100 of the text and the ellipsis). *)
Theorem getPreview_length (content : string) :
  3 ≤ String.length (getPreview content) ∧ String.length (getPreview content) ≤ 103.
Proof.
  unfold getPreview.
  destruct (list_find _ _) as [[i line]|] eqn:Hfind.
  - apply list_find_Some in Hfind as (_ & [r Hr] & _).
    rewrite Hr. cbn [default from_option]. unfold id.
    apply preview_line_length in Hr. lia.
  - rewrite length_append, length_substring_to. cbn [String.length]. lia.
Qed.

Lemma filter_Forall_id {A : Type} (P : A → Prop) `{!∀ x, Decision (P x)} (l : list A) :
  Forall P l → filter P l = l.
Proof.
  induction 1 as [|x l Hx _ IH]; [done|].
  by rewrite filter_cons_True, IH.
Qed.

Lemma filter_submseteq_mono {A : Type} (P : A → Prop) `{!∀ x, Decision (P x)}
    (l k : list A) :
  l ⊆+ k → filter P l ⊆+ filter P k.
Proof.
  induction 1 as [|x l k _ IH|x y l|x l k _ IH|l k m _ IH1 _ IH2].
  - done.
  - rewrite !filter_cons. destruct (decide (P x)); [by constructor|done].
  - rewrite !filter_cons. destruct (decide (P x)), (decide (P y)); try done.
    by constructor.
  - rewrite filter_cons. destruct (decide (P x)); [by apply submseteq_cons|done].
  - by etrans.
Qed.

Lemma omap_submseteq {A B : Type} (f g : A → option B) (l : list A) :
  (∀ x y, f x = Some y → g x = Some y) → omap f l ⊆+ omap g l.
Proof.
  intros Hfg. induction l as [|x l IH]; csimpl; [done|].
  destruct (f x) as [y|] eqn:Hf.
  - rewrite (Hfg x y Hf). by constructor.
  - destruct (g x); [by apply submseteq_cons|done].
Qed.

Section store_facts.
Context (md5_hex : string → string) (toLocaleString : N → string).

Local Abbreviation version := (ReadmeVersion.t filename).
Local Abbreviation generateHash := (generateHash md5_hex).
Local Abbreviation saved_version := (saved_version md5_hex toLocaleString).

(** The versions in the store: what a listing that meets no failure shows. *)
Local Abbreviation stored := (HistoryManager.getVersions toLocaleString no_faults).

(** ** Whatever the failures of the run *)

Section faulty.
Context (fs : faults).

Local Abbreviation version_of := (version_of toLocaleString fs).
Local Abbreviation listing := (listing toLocaleString fs).
Local Abbreviation getVersions := (getVersions toLocaleString fs).
Local Abbreviation cleanupOldVersions := (cleanupOldVersions toLocaleString fs).
Local Abbreviation saveVersion := (saveVersion md5_hex toLocaleString fs).
Local Abbreviation written := (written md5_hex fs).

Lemma version_of_Some (e : filename * string) (v : version) :
  version_of e = Some v →
  ReadmeVersion.filePath v = e.1 ∧
  e.1 = VersionFile (ReadmeVersion.id v).1 (ReadmeVersion.id v).2 ∧
  ReadmeVersion.timestamp v = (ReadmeVersion.id v).1 ∧
  HistoryManager.version_of toLocaleString no_faults e = Some v.
Proof.
  unfold HistoryManager.version_of. destruct e as [[timestamp hash|other] content];
    cbn [fst snd]; [|done].
  destruct (fs _); [done|]. by intros [= <-].
Qed.

Lemma version_of_readable (name : filename) (content : string) (v : version) :
  HistoryManager.version_of toLocaleString no_faults (name, content) = Some v →
  fs (ReadListed name) = false →
  version_of (name, content) = Some v.
Proof.
  unfold HistoryManager.version_of. cbn [fst snd]. destruct name; [|done].
  by intros Hv ->.
Qed.

Lemma elem_of_listing (dir : gmap filename string) (v : version) :
  v ∈ listing dir ↔
  ∃ content, dir !! ReadmeVersion.filePath v = Some content ∧
             version_of (ReadmeVersion.filePath v, content) = Some v.
Proof.
  unfold HistoryManager.listing. rewrite list_elem_of_omap. split.
  - intros ([name content] & Hin%elem_of_map_to_list & Hv).
    destruct (version_of_Some _ _ Hv) as (Hp & _). simpl in Hp. subst name.
    eauto.
  - intros (content & Hl & Hv). exists (ReadmeVersion.filePath v, content).
    by rewrite elem_of_map_to_list.
Qed.

Lemma listing_id_path (dir : gmap filename string) (v : version) :
  v ∈ listing dir →
  ReadmeVersion.filePath v = VersionFile (ReadmeVersion.id v).1 (ReadmeVersion.id v).2.
Proof.
  intros (content & _ & Hv)%elem_of_listing.
  destruct (version_of_Some _ _ Hv) as (Hp & Hn & _). simpl in *. congruence.
Qed.

Lemma listing_stored (dir : gmap filename string) :
  listing dir ⊆+ HistoryManager.listing toLocaleString no_faults dir.
Proof.
  apply omap_submseteq. intros e v Hv. by apply version_of_Some in Hv as (_ & _ & _ & ?).
Qed.

Lemma getVersions_history (a b : workspace) :
  history a = history b → getVersions a = getVersions b.
Proof. unfold HistoryManager.getVersions. by intros ->. Qed.

Lemma getVersions_sorted (ws : workspace) :
  StronglySorted (desc by_timestamp) (getVersions ws).
Proof.
  unfold HistoryManager.getVersions. destruct (history ws); [|constructor].
  destruct (fs Readdir); [constructor|]. apply sort_desc_StronglySorted.
Qed.

Lemma getVersions_stored (ws : workspace) : getVersions ws ⊆+ stored ws.
Proof.
  unfold HistoryManager.getVersions. destruct (history ws) as [dir|]; [|done].
  cbn [no_faults]. destruct (fs Readdir); [apply submseteq_nil_l|].
  rewrite !sort_desc_Permutation. apply listing_stored.
Qed.

Lemma elem_of_getVersions (ws : workspace) (v : version) :
  v ∈ getVersions ws →
  ∃ dir, history ws = Some dir ∧ v ∈ listing dir.
Proof.
  unfold HistoryManager.getVersions. destruct (history ws) as [dir|];
    [|by intros ?%elem_of_nil].
  destruct (fs Readdir); [by intros ?%elem_of_nil|].
  rewrite sort_desc_Permutation. by exists dir.
Qed.

Lemma getVersions_reliable (ws : workspace) :
  fs Readdir = false → (∀ name, fs (ReadListed name) = false) →
  getVersions ws = stored ws.
Proof.
  intros Hdir Hread. unfold HistoryManager.getVersions.
  destruct (history ws) as [dir|]; [|done]. rewrite Hdir. cbn [no_faults].
  f_equal. unfold HistoryManager.listing.
  induction (map_to_list dir) as [|e l IH]; csimpl; [done|]. rewrite IH.
  unfold HistoryManager.version_of. destruct e.1; [|done].
  by rewrite Hread.
Qed.

(** A deletion inside [try]/[catch] touches one file of the directory at
    most. *)
Lemma try_unlink_fields (ws : workspace) (name : filename) :
  readme (try_unlink fs ws name) = readme ws ∧
  gitignore (try_unlink fs ws name) = gitignore ws.
Proof.
  unfold try_unlink, unlink. destruct (history ws); [|done].
  by destruct (_ || _).
Qed.

Lemma try_unlink_lookup (ws : workspace) (name other : filename)
    (dir : gmap filename string) (content : string) :
  history ws = Some dir → dir !! other = Some content → other ≠ name →
  ∃ dir', history (try_unlink fs ws name) = Some dir' ∧ dir' !! other = Some content.
Proof.
  intros Hdir Hl Hne. unfold try_unlink, unlink. rewrite Hdir.
  destruct (_ || _); cbn [default from_option history]; [by exists dir|].
  eexists. split; [done|]. by rewrite lookup_delete_ne.
Qed.

Lemma unlink_all_keeps (D : list version) (ws : workspace) (other : filename)
    (dir : gmap filename string) (content : string) :
  history ws = Some dir → dir !! other = Some content →
  other ∉ ReadmeVersion.filePath <$> D →
  ∃ dir', history (foldl (λ ws v, try_unlink fs ws (ReadmeVersion.filePath v)) ws D)
            = Some dir' ∧
          dir' !! other = Some content.
Proof.
  revert ws dir. induction D as [|d D IH]; intros ws dir Hdir Hl Hnot; csimpl.
  - by exists dir.
  - rewrite fmap_cons, not_elem_of_cons in Hnot. destruct Hnot as [Hne Hnot].
    destruct (try_unlink_lookup ws (ReadmeVersion.filePath d) other dir content
                Hdir Hl Hne) as (dir1 & Hdir1 & Hl1).
    by apply (IH _ dir1).
Qed.

Lemma unlink_all_fields (D : list version) (ws : workspace) :
  readme (foldl (λ ws v, try_unlink fs ws (ReadmeVersion.filePath v)) ws D) = readme ws ∧
  gitignore (foldl (λ ws v, try_unlink fs ws (ReadmeVersion.filePath v)) ws D)
    = gitignore ws.
Proof.
  revert ws. induction D as [|d D IH]; intros ws; csimpl; [done|].
  destruct (IH (try_unlink fs ws (ReadmeVersion.filePath d))) as [-> ->].
  apply try_unlink_fields.
Qed.

Lemma cleanupOldVersions_fields (ws : workspace) :
  readme (cleanupOldVersions ws) = readme ws ∧
  gitignore (cleanupOldVersions ws) = gitignore ws.
Proof.
  unfold HistoryManager.cleanupOldVersions. cbv zeta. case_decide; [done|].
  apply unlink_all_fields.
Qed.

Lemma cleanupOldVersions_keeps (ws : workspace) (other : filename)
    (dir : gmap filename string) (content : string) :
  history ws = Some dir → dir !! other = Some content →
  other ∉ ReadmeVersion.filePath <$> drop MAX_VERSIONS (getVersions ws) →
  ∃ dir', history (cleanupOldVersions ws) = Some dir' ∧ dir' !! other = Some content.
Proof.
  intros Hdir Hl Hnot. unfold HistoryManager.cleanupOldVersions. cbv zeta.
  case_decide; [by exists dir|]. by apply (unlink_all_keeps _ ws other dir).
Qed.

Lemma cleanupOldVersions_reliable (ws : workspace) :
  fs Readdir = false → (∀ name, fs (ReadListed name) = false) →
  (∀ name, fs (Unlink name) = false) →
  cleanupOldVersions ws = HistoryManager.cleanupOldVersions toLocaleString no_faults ws.
Proof.
  intros Hdir Hread Hunlink. unfold HistoryManager.cleanupOldVersions. cbv zeta.
  rewrite (getVersions_reliable ws Hdir Hread). case_decide as Hlen; [done|].
  generalize (drop MAX_VERSIONS (stored ws)). clear Hlen. intros D. revert ws.
  induction D as [|d D IH]; intros ws; csimpl; [done|]. rewrite IH. f_equal.
  unfold try_unlink, unlink. by rewrite Hunlink.
Qed.

(** A save that went through: what it returned and the state it left. *)
Lemma saveVersion_Some (ws : workspace) (now : N) (content : string) (saved : version) :
  (saveVersion ws now content).2 = Some saved →
  saved = saved_version now content ∧
  (saveVersion ws now content).1 = cleanupOldVersions (written ws now content) ∧
  history (written ws now content)
    = Some (<[VersionFile now (generateHash content) := content]>
              (default ∅ (history ws))) ∧
  readme (written ws now content) = readme ws.
Proof.
  unfold HistoryManager.saveVersion, HistoryManager.written, writeFile,
    ensureHistoryDir. cbv zeta. cbn [history gitignore readme].
  destruct (fs Mkdir), (history ws) as [dir|]; cbn [default from_option];
    try discriminate;
    (destruct (fs (WriteVersion _)); [discriminate|]);
    cbn [fst snd default from_option history readme]; by intros [= <-].
Qed.

(** The file just written is not among those the cleanup deletes, when
    fewer than [MAX_VERSIONS] stored versions carry a timestamp at or after
    its own: a listing that skips files only moves it forward. *)
Lemma saved_survives (ws : workspace) (now : N) (content : string) :
  history (written ws now content)
    = Some (<[VersionFile now (generateHash content) := content]>
              (default ∅ (history ws))) →
  length (filter (λ v, (now ≤ ReadmeVersion.timestamp v)%N) (stored ws))
    < MAX_VERSIONS →
  VersionFile now (generateHash content)
    ∉ ReadmeVersion.filePath <$> drop MAX_VERSIONS (getVersions (written ws now content)).
Proof.
  intros Hhist Hfew. set (name := VersionFile now (generateHash content)) in *.
  set (V := getVersions (written ws now content)).
  intros (v & Hpath & [j Hj]%list_elem_of_lookup)%list_elem_of_fmap.
  rewrite lookup_drop in Hj. set (i := MAX_VERSIONS + j) in Hj.
  assert (v ∈ V) as Hv by (by eapply list_elem_of_lookup_2).
  (* [v] is the version just written *)
  assert (v = saved_version now content) as Hsaved.
  { destruct (elem_of_getVersions _ _ Hv) as (dir & Hdir & Hin).
    rewrite Hhist in Hdir. injection Hdir as <-.
    apply elem_of_listing in Hin as (c & Hc & Hvo).
    rewrite <-Hpath, lookup_insert_eq in Hc. injection Hc as <-.
    rewrite <-Hpath in Hvo.
    apply version_of_Some in Hvo as (_ & _ & _ & Hvo).
    unfold HistoryManager.version_of in Hvo. cbn in Hvo. by injection Hvo as <-. }
  (* the [i] versions listed before it are stored versions of [ws] *)
  pose proof (getVersions_sorted (written ws now content)) as Hsorted.
  fold V in Hsorted. rewrite <-(take_drop_middle V i v Hj) in Hsorted.
  assert (Forall (λ u, (now ≤ ReadmeVersion.timestamp u)%N) (take i V)) as Hnewer.
  { apply Forall_forall. intros u Hu.
    pose proof (StronglySorted_app_1_elem_of _ _ _ u v Hsorted Hu) as Hd.
    unfold desc, by_timestamp in Hd. specialize (Hd ltac:(left)).
    rewrite Hsaved in Hd. cbn [HistoryManager.saved_version ReadmeVersion.timestamp] in Hd.
    lia. }
  assert (take i V ⊆+ stored ws) as Hsub.
  { pose proof (getVersions_stored (written ws now content)) as HV. fold V in HV.
    unfold HistoryManager.getVersions in HV. rewrite Hhist in HV.
    cbn [no_faults] in HV. rewrite sort_desc_Permutation in HV.
    unfold HistoryManager.listing in HV.
    rewrite <-insert_delete_eq, map_to_list_insert in HV by apply lookup_delete_eq.
    csimpl in HV.
    rewrite <-(take_drop_middle V i v Hj), <-Permutation_middle, Hsaved in HV.
    assert (take i V ++ drop (S i) V
            ⊆+ HistoryManager.listing toLocaleString no_faults
                 (delete name (default ∅ (history ws)))) as HV2.
    { apply (submseteq_app_inv_l _ _ [saved_version now content]). exact HV. }
    etrans; [apply submseteq_inserts_r; reflexivity|].
    etrans; [exact HV2|].
    unfold HistoryManager.getVersions. cbn [no_faults].
    destruct (history ws) as [dir0|] eqn:Hdir0; cbn [default from_option].
    - rewrite sort_desc_Permutation.
      destruct (dir0 !! name) as [old|] eqn:Hold.
      + rewrite <-(insert_id dir0 name old Hold) at 2.
        rewrite <-insert_delete_eq.
        unfold HistoryManager.listing at 2.
        rewrite map_to_list_insert by apply lookup_delete_eq. csimpl.
        by apply submseteq_cons.
      + by rewrite delete_id.
    - rewrite delete_empty. unfold HistoryManager.listing.
      by rewrite map_to_list_empty. }
  apply (filter_submseteq_mono (λ u, (now ≤ ReadmeVersion.timestamp u)%N)) in Hsub.
  rewrite (filter_Forall_id _ _ Hnewer) in Hsub. apply submseteq_length in Hsub.
  rewrite length_take_le in Hsub by (apply lookup_lt_Some in Hj; lia).
  unfold i, MAX_VERSIONS in *. lia.
Qed.

End faulty.

(** ** When no call fails *)

Local Abbreviation version_of := (version_of toLocaleString no_faults).
Local Abbreviation listing := (listing toLocaleString no_faults).
Local Abbreviation getVersions := (getVersions toLocaleString no_faults).
Local Abbreviation cleanupOldVersions := (cleanupOldVersions toLocaleString no_faults).
Local Abbreviation saveVersion := (saveVersion md5_hex toLocaleString no_faults).
Local Abbreviation rollbackToVersion := (rollbackToVersion toLocaleString no_faults).
Local Abbreviation getVersionContent := (getVersionContent toLocaleString no_faults).
Local Abbreviation written := (written md5_hex no_faults).
Local Abbreviation try_unlink := (try_unlink no_faults).

Lemma listing_delete (dir : gmap filename string) (name : filename) (content : string) :
  dir !! name = Some content →
  listing dir ≡ₚ omap version_of [(name, content)] ++ listing (delete name dir).
Proof.
  intros Hl. unfold HistoryManager.listing.
  by rewrite <-omap_app, <-(map_to_list_delete dir name content Hl).
Qed.

Lemma listing_insert (dir : gmap filename string) (name : filename) (content : string) :
  listing (<[name := content]> dir)
    ≡ₚ omap version_of [(name, content)] ++ listing (delete name dir).
Proof.
  unfold HistoryManager.listing.
  rewrite <-insert_delete_eq, map_to_list_insert by apply lookup_delete_eq.
  by rewrite <-omap_app.
Qed.

Lemma listing_unlink_all (D K : list version) (dir : gmap filename string) :
  listing dir ≡ₚ K ++ D →
  listing (foldl (λ d v, delete (ReadmeVersion.filePath v) d) dir D) ≡ₚ K.
Proof.
  revert dir. induction D as [|d D IH]; intros dir Hp; csimpl.
  - by rewrite (right_id_L [] (++)) in Hp.
  - apply IH.
    assert (d ∈ listing dir) as (content & Hl & Hv)%elem_of_listing.
    { rewrite Hp. apply elem_of_app. right. left. }
    rewrite (listing_delete dir _ content Hl) in Hp. csimpl in Hp.
    rewrite Hv in Hp. csimpl in Hp.
    rewrite <-Permutation_middle in Hp.
    by apply Permutation_cons_inv in Hp.
Qed.

Lemma try_unlink_reliable (ws : workspace) (name : filename)
    (dir : gmap filename string) :
  history ws = Some dir →
  try_unlink ws name =
    mkWorkspace (Some (delete name dir)) (gitignore ws) (readme ws).
Proof.
  intros Hdir. unfold HistoryManager.try_unlink, unlink. rewrite Hdir.
  cbn [no_faults orb]. case_bool_decide as Hfile; cbn [negb default from_option]; [done|].
  rewrite delete_id by (by apply eq_None_not_Some). by destruct ws; simplify_eq/=.
Qed.

Lemma unlink_all_history (D : list version) (ws : workspace) (dir : gmap filename string) :
  history ws = Some dir →
  foldl (λ ws v, try_unlink ws (ReadmeVersion.filePath v)) ws D =
    mkWorkspace
      (Some (foldl (λ d v, delete (ReadmeVersion.filePath v) d) dir D))
      (gitignore ws) (readme ws).
Proof.
  revert ws dir. induction D as [|d D IH]; intros ws dir Hdir; csimpl.
  - by destruct ws; simplify_eq/=.
  - rewrite (try_unlink_reliable ws _ dir Hdir).
    by rewrite (IH _ (delete (ReadmeVersion.filePath d) dir)).
Qed.

Lemma unlink_all_lookup (D : list version) (dir : gmap filename string)
    (name : filename) (content : string) :
  foldl (λ d v, delete (ReadmeVersion.filePath v) d) dir D !! name = Some content →
  dir !! name = Some content.
Proof.
  revert dir. induction D as [|d D IH]; intros dir; csimpl; [done|].
  intros H%IH. by apply lookup_delete_Some in H as [_ H].
Qed.

Lemma getVersions_listing (ws : workspace) :
  getVersions ws ≡ₚ listing (default ∅ (history ws)).
Proof.
  unfold HistoryManager.getVersions. destruct (history ws) as [dir|]; csimpl.
  - apply sort_desc_Permutation.
  - unfold HistoryManager.listing. by rewrite map_to_list_empty.
Qed.

Lemma cleanupOldVersions_spec (ws : workspace) :
  getVersions (cleanupOldVersions ws) ≡ₚ take MAX_VERSIONS (getVersions ws) ∧
  readme (cleanupOldVersions ws) = readme ws ∧
  (∀ name content,
     readFile (cleanupOldVersions ws) name = Some content →
     readFile ws name = Some content).
Proof.
  unfold HistoryManager.cleanupOldVersions. cbv zeta. case_decide as Hlen.
  { by rewrite take_ge. }
  destruct (history ws) as [dir|] eqn:Hdir.
  2:{ unfold HistoryManager.getVersions in Hlen. rewrite Hdir in Hlen.
      simpl in Hlen. unfold MAX_VERSIONS in Hlen. lia. }
  rewrite (unlink_all_history _ ws dir Hdir). repeat split.
  - unfold HistoryManager.getVersions at 1. cbn [history no_faults].
    rewrite sort_desc_Permutation. apply listing_unlink_all.
    rewrite take_drop. unfold HistoryManager.getVersions. rewrite Hdir.
    symmetry. apply sort_desc_Permutation.
  - unfold readFile. cbn [history]. rewrite Hdir. csimpl.
    intros name content. apply unlink_all_lookup.
Qed.

Lemma cleanupOldVersions_history (a b : workspace) :
  history a = history b →
  history (cleanupOldVersions a) = history (cleanupOldVersions b).
Proof.
  intros Hab. unfold HistoryManager.cleanupOldVersions. cbv zeta.
  rewrite (getVersions_history no_faults a b Hab). case_decide; [done|].
  destruct (history b) as [dir|] eqn:Hdir.
  - by rewrite (unlink_all_history _ a dir), (unlink_all_history _ b dir) by congruence.
  - unfold HistoryManager.getVersions in *. rewrite Hdir in *.
    rewrite drop_nil. cbn [foldl]. congruence.
Qed.

Lemma saveVersion_unfold (ws : workspace) (now : N) (content : string) :
  saveVersion ws now content =
    (cleanupOldVersions (written ws now content), Some (saved_version now content)).
Proof. done. Qed.

Lemma written_versions (ws : workspace) (now : N) (content : string) :
  let name := VersionFile now (generateHash content) in
  getVersions (written ws now content) ≡ₚ
    saved_version now content ::
    listing (delete name (default ∅ (history ws))).
Proof.
  cbv zeta. rewrite getVersions_listing.
  unfold HistoryManager.written, writeFile, ensureHistoryDir.
  cbn. by rewrite listing_insert.
Qed.

Lemma written_length (ws : workspace) (now : N) (content : string) :
  let name := VersionFile now (generateHash content) in
  length (getVersions (written ws now content)) =
    match default ∅ (history ws) !! name with
    | Some _ => length (getVersions ws)
    | None => S (length (getVersions ws))
    end.
Proof.
  cbv zeta. pose proof (written_versions ws now content) as Hw.
  cbv zeta in Hw. rewrite Hw. csimpl.
  destruct (default ∅ (history ws) !! _) as [old|] eqn:Hold.
  - by rewrite (getVersions_listing ws), (listing_delete _ _ old Hold).
  - by rewrite (getVersions_listing ws), delete_id.
Qed.

(** Retention when nothing fails. *)
Lemma saveVersion_retention_reliable (ws : workspace) (now : N) (content : string) :
  let ws' := (saveVersion ws now content).1 in
  let saved := saved_version now content in
  length (getVersions ws') ≤ MAX_VERSIONS ∧
  (length (getVersions ws) = MAX_VERSIONS →
     length (getVersions ws') = MAX_VERSIONS ∧
     (readFile ws (ReadmeVersion.filePath saved) = None →
        ∃ evicted,
          saved :: getVersions ws ≡ₚ evicted :: getVersions ws' ∧
          Forall (λ v, (ReadmeVersion.timestamp evicted
                          ≤ ReadmeVersion.timestamp v)%N)
                 (getVersions ws'))).
Proof.
  cbv zeta. rewrite saveVersion_unfold. cbn [fst snd].
  change (ReadmeVersion.filePath (saved_version now content))
    with (VersionFile now (generateHash content)).
  set (name := VersionFile now (generateHash content)).
  set (w := written ws now content).
  destruct (cleanupOldVersions_spec w) as (Hkeep & _ & _).
  split; [rewrite Hkeep, length_take; lia|].
  intros H20. pose proof (written_length ws now content) as Hlen.
  cbv zeta in Hlen. fold name w in Hlen. rewrite H20 in Hlen.
  split.
  { rewrite Hkeep, length_take, Hlen. unfold MAX_VERSIONS.
    destruct (default ∅ (history ws) !! name); lia. }
  intros Hfresh.
  assert (default ∅ (history ws) !! name = None) as Hnone.
  { unfold readFile in Hfresh. by destruct (history ws). }
  rewrite Hnone in Hlen.
  pose proof (written_versions ws now content) as Hw.
  cbv zeta in Hw. fold name w in Hw. rewrite delete_id in Hw by done.
  rewrite <-(getVersions_listing ws) in Hw.
  pose proof (getVersions_sorted no_faults w) as Hsorted.
  rewrite <-(take_drop MAX_VERSIONS (getVersions w)) in Hw, Hsorted.
  destruct (drop MAX_VERSIONS (getVersions w)) as [|evicted rest] eqn:Hdrop.
  { apply (f_equal length) in Hdrop. rewrite length_drop, Hlen in Hdrop.
    unfold MAX_VERSIONS in Hdrop. simpl in Hdrop. lia. }
  exists evicted. split.
  - rewrite Hkeep, <-Hw.
    destruct rest; [by rewrite <-Permutation_cons_append|].
    apply (f_equal length) in Hdrop. rewrite length_drop, Hlen in Hdrop.
    unfold MAX_VERSIONS in Hdrop. simpl in Hdrop. lia.
  - apply Forall_forall. intros v Hv. rewrite Hkeep in Hv.
    pose proof (StronglySorted_app_1_elem_of _ _ _ v evicted Hsorted Hv) as Hd.
    unfold desc, by_timestamp in Hd. specialize (Hd ltac:(left)). lia.
Qed.

Local Abbreviation deleteVersion := (deleteVersion toLocaleString no_faults).
Local Abbreviation hasHistory := (hasHistory toLocaleString no_faults).

(** X11: [getVersions] lists the stored versions newest first (each
    timestamp is at least every later one), and gives the empty list when
    the history directory does not exist. *)
Theorem getVersions_newest_first (ws : workspace) :
  StronglySorted
    (λ a b, (ReadmeVersion.timestamp b ≤ ReadmeVersion.timestamp a)%N)
    (getVersions ws) ∧
  (history ws = None → getVersions ws = []).
Proof.
  split.
  - pose proof (getVersions_sorted no_faults ws) as Hs.
    induction Hs as [|a l _ IH Hall]; constructor; [done|].
    eapply Forall_impl; [exact Hall|].
    intros b. unfold desc, by_timestamp. lia.
  - intros Hnone. unfold HistoryManager.getVersions. by rewrite Hnone.
Qed.

(** X12: [deleteVersion] answers [true] exactly when the id is listed;
    afterwards the listed versions are those listed before whose id is
    another one, and [README.md] and the ignore marker are as before. *)
Theorem deleteVersion_removes (ws : workspace) (versionId : N * string) :
  let r := deleteVersion ws versionId in
  r.2 = bool_decide (versionId ∈ ReadmeVersion.id <$> getVersions ws) ∧
  getVersions r.1 ≡ₚ
    filter (λ v, ReadmeVersion.id v ≠ versionId) (getVersions ws) ∧
  readme r.1 = readme ws ∧ gitignore r.1 = gitignore ws.
Proof.
  cbv zeta. unfold HistoryManager.deleteVersion.
  destruct (list_find _ _) as [[i v]|] eqn:Hfind; cbn [fst snd].
  - apply list_find_Some in Hfind as (Hi & Hid & _).
    assert (v ∈ getVersions ws) as Hv by (by eapply list_elem_of_lookup_2).
    destruct (history ws) as [dir|] eqn:Hdir.
    2:{ unfold HistoryManager.getVersions in Hv. rewrite Hdir in Hv.
        by apply elem_of_nil in Hv. }
    pose proof Hv as Hv'. rewrite getVersions_listing, Hdir in Hv'. cbn in Hv'.
    pose proof (listing_id_path _ _ _ Hv') as Hpath.
    apply elem_of_listing in Hv' as (content & Hl & Hvo).
    unfold unlink. rewrite Hdir. cbn [no_faults orb].
    rewrite bool_decide_true by (by rewrite Hl). cbn [negb fst snd readme gitignore].
    split; [|split; [|done]].
    + symmetry. apply bool_decide_eq_true. apply list_elem_of_fmap. by exists v.
    + rewrite (getVersions_listing ws), Hdir. cbn [default].
      rewrite (getVersions_listing (mkWorkspace _ _ _)). cbn [history default].
      rewrite (listing_delete dir _ content Hl). csimpl. rewrite Hvo. csimpl.
      rewrite filter_cons_False by (intros Hne; by apply Hne).
      symmetry. apply (reflexive_eq (R:=Permutation)), filter_Forall_id.
      apply Forall_forall. intros v' Hv2 Heq.
      pose proof (listing_id_path _ _ _ Hv2) as Hpath2.
      apply elem_of_listing in Hv2 as (content' & Hl' & _).
      rewrite Hpath2, Heq, <-Hid, <-Hpath in Hl'.
      by rewrite lookup_delete_eq in Hl'.
  - apply list_find_None in Hfind.
    split; [|split; [|done]].
    + symmetry. apply bool_decide_eq_false. intros (v & Hid & Hv)%list_elem_of_fmap.
      rewrite Forall_forall in Hfind. by apply (Hfind v Hv).
    + by rewrite filter_Forall_id.
Qed.

(** X13: right after [saveVersion], [hasHistory] answers [true]: the new
    version is kept, or twenty newer ones are. *)
Theorem saveVersion_leaves_history (ws : workspace) (now : N) (content : string) :
  hasHistory (saveVersion ws now content).1 = true.
Proof.
  unfold HistoryManager.hasHistory. apply Nat.ltb_lt.
  change (saveVersion ws now content).1
    with (cleanupOldVersions (written ws now content)).
  destruct (cleanupOldVersions_spec (written ws now content)) as (Hperm & _).
  rewrite Hperm, length_take.
  pose proof (written_length ws now content) as Hlen. cbv zeta in Hlen.
  assert (0 < length (getVersions (written ws now content))) as Hpos.
  { rewrite Hlen. destruct (_ !! _) as [old|] eqn:Hl; [|lia].
    rewrite (getVersions_listing ws), (listing_delete _ _ old Hl). csimpl. lia. }
  unfold MAX_VERSIONS. lia.
Qed.

(** X14: [saveVersion] leaves [README.md] as it was and writes the ignore
    marker only when there is none; [rollbackToVersion] leaves the history
    directory and the ignore marker as they were. *)
Theorem history_and_readme_are_separate (ws : workspace) (now : N)
    (content : string) (versionId : N * string) :
  readme (saveVersion ws now content).1 = readme ws ∧
  gitignore (saveVersion ws now content).1
    = Some (default ("*" +:+ LF) (gitignore ws)) ∧
  history (rollbackToVersion ws versionId).1 = history ws ∧
  gitignore (rollbackToVersion ws versionId).1 = gitignore ws.
Proof.
  change (saveVersion ws now content).1
    with (cleanupOldVersions (written ws now content)).
  destruct (cleanupOldVersions_fields no_faults (written ws now content)) as [-> ->].
  split; [done|]. split; [done|].
  unfold HistoryManager.rollbackToVersion.
  destruct (getVersionContent ws versionId) as [c|]; [|done].
  by destruct (String.eqb c "").
Qed.

(** ** Retention and rollback, with the failures of a run in view *)

(** C2 (as the code has it): when the write of [saveVersion] goes through
    and the cleanup meets no failure (the directory is listed, the listed
    files are read, the deletions are carried out), at most
    [MAX_VERSIONS] = 20 versions are stored afterwards.  When the store held
    20 versions, exactly 20 remain; and if the save created a new file (a
    21st version), the 21 versions are the 20 retained ones plus one evicted
    version whose timestamp is no later than that of any retained version. *)
Theorem saveVersion_retention (fs : faults) (ws : workspace) (now : N)
    (content : string) (saved : version) :
  (HistoryManager.saveVersion md5_hex toLocaleString fs ws now content).2 = Some saved →
  fs Readdir = false →
  (∀ name, fs (ReadListed name) = false) →
  (∀ name, fs (Unlink name) = false) →
  let ws' := (HistoryManager.saveVersion md5_hex toLocaleString fs ws now content).1 in
  length (stored ws') ≤ MAX_VERSIONS ∧
  (length (stored ws) = MAX_VERSIONS →
     length (stored ws') = MAX_VERSIONS ∧
     (readFile ws (ReadmeVersion.filePath saved) = None →
        ∃ evicted,
          saved :: stored ws ≡ₚ evicted :: stored ws' ∧
          Forall (λ v, (ReadmeVersion.timestamp evicted
                          ≤ ReadmeVersion.timestamp v)%N)
                 (stored ws'))).
Proof.
  intros Hsaved Hdir Hread Hunlink. cbv zeta.
  destruct (saveVersion_Some fs ws now content saved Hsaved)
    as (-> & -> & Hhist & _).
  rewrite (cleanupOldVersions_reliable fs _ Hdir Hread Hunlink).
  assert (stored (cleanupOldVersions (HistoryManager.written md5_hex fs ws now content))
          = stored (saveVersion ws now content).1) as ->.
  { apply (getVersions_history no_faults). rewrite saveVersion_unfold. cbn [fst].
    apply cleanupOldVersions_history. by rewrite Hhist. }
  apply saveVersion_retention_reliable.
Qed.

(** C3 (as the code has it): for non-empty content, and when fewer than 20
    stored versions carry a timestamp at or after the clock reading of the
    save (so that the new version is not evicted at once), a [saveVersion]
    whose write goes through, followed by a [rollbackToVersion] on the
    returned id whose own calls succeed (listing the directory, reading the
    file, writing [README.md]), succeeds and leaves [README.md] equal to the
    content.  Whatever fails in the cleanup of the save does no harm. *)
Theorem save_then_rollback (fs1 fs2 : faults) (ws : workspace) (now : N)
    (content : string) (saved : version) :
  content ≠ "" →
  length (filter (λ v, (now ≤ ReadmeVersion.timestamp v)%N) (stored ws))
    < MAX_VERSIONS →
  (HistoryManager.saveVersion md5_hex toLocaleString fs1 ws now content).2 = Some saved →
  fs2 Readdir = false →
  fs2 (ReadListed (ReadmeVersion.filePath saved)) = false →
  fs2 (ReadContent (ReadmeVersion.filePath saved)) = false →
  fs2 WriteReadme = false →
  let ws' := (HistoryManager.saveVersion md5_hex toLocaleString fs1 ws now content).1 in
  let rolled :=
    HistoryManager.rollbackToVersion toLocaleString fs2 ws' (ReadmeVersion.id saved) in
  rolled.2 = true ∧ readme rolled.1 = Some content.
Proof.
  intros Hne Hfew Hsaved Hdir Hlisted Hcontent Hwrite. cbv zeta.
  destruct (saveVersion_Some fs1 ws now content saved Hsaved)
    as (-> & -> & Hhist & _).
  change (ReadmeVersion.filePath (saved_version now content))
    with (VersionFile now (generateHash content)) in Hlisted, Hcontent.
  change (ReadmeVersion.id (saved_version now content))
    with (now, generateHash content).
  set (name := VersionFile now (generateHash content)) in *.
  destruct (cleanupOldVersions_keeps fs1 _ name _ content Hhist
              (lookup_insert_eq _ _ _) (saved_survives fs1 ws now content Hhist Hfew))
    as (dir' & Hdir' & Hfile).
  set (ws' := HistoryManager.cleanupOldVersions toLocaleString fs1 _) in *.
  (* the listing of the rollback shows the version *)
  assert (saved_version now content ∈ HistoryManager.getVersions toLocaleString fs2 ws')
    as Hin.
  { unfold HistoryManager.getVersions. rewrite Hdir', Hdir.
    rewrite sort_desc_Permutation. apply elem_of_listing. exists content.
    split; [done|]. by apply version_of_readable. }
  unfold HistoryManager.rollbackToVersion, HistoryManager.getVersionContent.
  destruct (list_find _ _) as [[j v]|] eqn:Hfind.
  - apply list_find_Some in Hfind as (Hj & Hid & _).
    apply list_elem_of_lookup_2 in Hj.
    destruct (elem_of_getVersions fs2 _ _ Hj) as (dir & Hd & Hv).
    apply listing_id_path in Hv. rewrite Hid in Hv. cbn [fst snd] in Hv.
    fold name in Hv. rewrite Hv, Hcontent. unfold readFile. rewrite Hdir'. csimpl.
    rewrite Hfile. apply String.eqb_neq in Hne. by rewrite Hne, Hwrite.
  - apply list_find_None in Hfind. rewrite Forall_forall in Hfind.
    by destruct (Hfind _ Hin).
Qed.

End store_facts.

(** The 21st save into a store of twenty versions leaves twenty. *)
Lemma saveVersion_retention_witness :
  length (getVersions sample_date no_faults (twenty_versions 1000)) = MAX_VERSIONS ∧
  length (getVersions sample_date no_faults
            (saveVersion sample_md5 sample_date no_faults
               (twenty_versions 1000) 5000 "hello").1)
    = MAX_VERSIONS.
Proof.
  assert (length (getVersions sample_date no_faults (twenty_versions 1000)) = MAX_VERSIONS)
    as H by (vm_compute; reflexivity).
  split; [exact H|].
  exact (proj1 (proj2 (saveVersion_retention sample_md5 sample_date no_faults
                         (twenty_versions 1000) 5000 "hello"
                         (saved_version sample_md5 sample_date 5000 "hello")
                         eq_refl eq_refl (λ _, eq_refl) (λ _, eq_refl)) H)).
Defined.

(** C2 (as stated) fails when the cleanup meets a failure, which it
    ignores: a deletion that is refused leaves the 21st version in place,
    and so does a file the listing of the cleanup could not read. *)
Lemma saveVersion_retention_counterexample :
  (let r := saveVersion sample_md5 sample_date unlink_refused
              (twenty_versions 1000) 5000 "hello" in
   r.2 = Some (saved_version sample_md5 sample_date 5000 "hello") ∧
   length (getVersions sample_date no_faults r.1) = 21) ∧
  (let r := saveVersion sample_md5 sample_date read_refused
              (twenty_versions 1000) 5000 "hello" in
   r.2 = Some (saved_version sample_md5 sample_date 5000 "hello") ∧
   length (getVersions sample_date no_faults r.1) = 21).
Proof. vm_compute. repeat split; reflexivity. Qed.

Lemma save_then_rollback_witness :
  let ws' := (saveVersion sample_md5 sample_date no_faults
                (twenty_versions 1000) 5000 "hello").1 in
  let rolled := rollbackToVersion sample_date no_faults ws' (5000%N, "5d41402a") in
  rolled.2 = true ∧ readme rolled.1 = Some "hello".
Proof.
  apply (save_then_rollback sample_md5 sample_date no_faults no_faults
           (twenty_versions 1000) 5000 "hello"
           (saved_version sample_md5 sample_date 5000 "hello")).
  - discriminate.
  - vm_compute. repeat constructor.
  - reflexivity.
  - reflexivity.
  - reflexivity.
  - reflexivity.
  - reflexivity.
Defined.

(** C3 (as stated) fails in three ways.  Empty content is saved but never
    rolled back to: [rollbackToVersion] reads it back as the empty string,
    which [if (!content) return false] treats like a missing version, and
    [README.md] is not written.  A save whose clock reading is older than
    twenty stored versions is evicted by the cleanup of that very save, so
    the returned id names no stored version.  And a write of [README.md]
    that the system refuses is caught: the rollback answers [false]. *)
Lemma save_then_rollback_counterexample :
  (let ws' := (saveVersion sample_md5 sample_date no_faults
                 empty_workspace 1700000000000 "").1 in
   let id := (1700000000000%N, "d41d8cd9") in
   getVersionContent sample_date no_faults ws' id = Some "" ∧
   (rollbackToVersion sample_date no_faults ws' id).2 = false ∧
   readme (rollbackToVersion sample_date no_faults ws' id).1 = None) ∧
  (let ws' := (saveVersion sample_md5 sample_date no_faults
                 (twenty_versions 5000) 1000 "hello").1 in
   let id := (1000%N, "5d41402a") in
   getVersionContent sample_date no_faults ws' id = None ∧
   (rollbackToVersion sample_date no_faults ws' id).2 = false ∧
   readme (rollbackToVersion sample_date no_faults ws' id).1 = None) ∧
  (let ws' := (saveVersion sample_md5 sample_date no_faults
                 empty_workspace 1700000000000 "hello").1 in
   let id := (1700000000000%N, "5d41402a") in
   getVersionContent sample_date readme_write_refused ws' id = Some "hello" ∧
   (rollbackToVersion sample_date readme_write_refused ws' id).2 = false ∧
   readme (rollbackToVersion sample_date readme_write_refused ws' id).1 = None).
Proof. vm_compute. repeat split; reflexivity. Qed.

End HistoryManagerFacts.

Module ProjectTypeDetectorFacts.
Import Js ProjectTypeDetector.

Section classifier_facts.
Context (toLowerCase : string → string).

Local Abbreviation is_cli_keyword := (is_cli_keyword toLowerCase).
Local Abbreviation some_cli_keyword := (some_cli_keyword toLowerCase).
Local Abbreviation hasCliKeyword := (hasCliKeyword toLowerCase).
Local Abbreviation detectProjectType := (detectProjectType toLowerCase).

Lemma some_cli_keyword_returns (items : list json) :
  Forall (λ k, ∃ s, k = JStr s) items →
  ∃ b, some_cli_keyword items = Return b.
Proof.
  induction 1 as [|k items [s ->] _ IH]; simpl; [by eexists|].
  destruct (is_cli_keyword s); [by eexists|done].
Qed.

Lemma hasCliKeyword_returns (pkg : option json) :
  keywords_well_formed pkg → ∃ b, hasCliKeyword pkg = Return b.
Proof.
  unfold keywords_well_formed, ProjectTypeDetector.hasCliKeyword.
  destruct (Json.member pkg "keywords") as [[]|]; try done; try by eexists.
  apply some_cli_keyword_returns.
Qed.

(** With well-formed [keywords] the classifier returns. *)
Lemma detectProjectType_returns (projectInfo : ProjectInfo.t)
    (detection : DetectionResult.t) :
  keywords_well_formed (ProjectInfo.packageJson projectInfo) →
  ∃ r, detectProjectType projectInfo detection = Return r.
Proof.
  intros [b Hb]%hasCliKeyword_returns.
  unfold ProjectTypeDetector.detectProjectType. cbv zeta. rewrite Hb.
  repeat case_match; by eexists.
Qed.

(** Whatever it returns carries a confidence between 0.3 and 0.95. *)
Lemma detectProjectType_confidence_range (projectInfo : ProjectInfo.t)
    (detection : DetectionResult.t) (r : ProjectTypeResult.t) :
  detectProjectType projectInfo detection = Return r →
  (0.3 <=? ProjectTypeResult.confidence r)%float = true ∧
  (ProjectTypeResult.confidence r <=? 0.95)%float = true.
Proof.
  unfold ProjectTypeDetector.detectProjectType, libraryScore. cbv zeta.
  destruct (hasMain _), (hasTypes _), (hasExports _), (isPrivate _);
    repeat case_match; try discriminate; intros [= <-]; by vm_compute.
Qed.

(** C5 (as the code has it): a truthy [workspaces] value in the manifest, or
    a [lerna.json] / [pnpm-workspace.yaml] file, makes the project a monorepo
    with confidence 0.9 even when a mobile framework is detected. *)
Theorem monorepo_precedes_mobile (projectInfo : ProjectInfo.t)
    (detection : DetectionResult.t) :
  Json.truthy (Json.member (ProjectInfo.packageJson projectInfo) "workspaces") = true ∨
  (∃ f, f ∈ ProjectInfo.files projectInfo ∧
        (ProjectFile.name f = "lerna.json" ∨
         ProjectFile.name f = "pnpm-workspace.yaml")) →
  has_framework mobileFrameworks (DetectionResult.frameworks detection) = true →
  detectProjectType projectInfo detection =
    Return (ProjectTypeResult.mk monorepo "Monorepo" 0.9
              "Detected workspace configuration").
Proof.
  intros Hmarker _. unfold ProjectTypeDetector.detectProjectType. cbv zeta.
  assert (hasWorkspaces projectInfo = true) as ->; [|done].
  unfold hasWorkspaces, has_file. apply orb_true_iff.
  destruct Hmarker as [Htruthy|(f & Hf & Hname)]; [by left|right].
  apply existsb_exists. exists f. split; [by apply list_elem_of_In|].
  apply orb_true_iff. by destruct Hname as [->| ->]; [left|right].
Qed.

(** C6 (as the code has it): when rules 1 to 4 do not match, a manifest that
    is not marked private and exposes at least one of [main], [types] or
    [typings], [exports] is a library, with confidence
    [0.7 + libraryScore * 0.05] in binary64, where [libraryScore] is the
    number of those fields plus one for not being private. *)
Theorem library_confidence (projectInfo : ProjectInfo.t)
    (detection : DetectionResult.t) :
  let pkg := ProjectInfo.packageJson projectInfo in
  let frameworks := DetectionResult.frameworks detection in
  hasWorkspaces projectInfo = false →
  has_framework mobileFrameworks frameworks = false →
  has_framework desktopFrameworks frameworks = false →
  hasBinField pkg = false →
  hasCliKeyword pkg = Return false →
  isPrivate pkg = false →
  1 ≤ library_fields pkg →
  detectProjectType projectInfo detection =
    Return (ProjectTypeResult.mk library "Library/Package"
              (0.7 + Js.number_of_nat (library_fields pkg + 1) * 0.05)%float
              "Has library configuration (main, types, exports)").
Proof.
  cbv zeta. intros Hw Hm Hd Hbin Hcli Hpriv Hfields.
  unfold ProjectTypeDetector.detectProjectType. cbv zeta. rewrite Hw, Hm, Hd, Hcli, Hbin, Hpriv.
  assert (libraryScore (ProjectInfo.packageJson projectInfo)
          = library_fields (ProjectInfo.packageJson projectInfo) + 1) as ->.
  { unfold libraryScore, library_fields. by rewrite Hpriv. }
  cbn [orb negb andb].
  by rewrite (proj2 (Nat.leb_le _ _)) by lia.
Qed.

(** The three confidences the library rule can give. *)
Lemma library_confidence_values :
  (0.7 + Js.number_of_nat 2 * 0.05 = 0.7999999999999999)%float ∧
  (0.7 + Js.number_of_nat 3 * 0.05 = 0.85)%float ∧
  (0.7 + Js.number_of_nat 4 * 0.05 = 0.8999999999999999)%float.
Proof. by vm_compute. Qed.

(** C9: a manifest whose [keywords] is a string makes the classifier throw
    instead of returning a result. *)
Theorem detectProjectType_throws_on_string_keywords :
  detectProjectType (manifest_project (JObj [("keywords", JStr "cli")]))
                    (detected []) =
    Throw "TypeError: pkg.keywords.some is not a function".
Proof. by vm_compute. Qed.

Lemma has_framework_intro (names : list string) (frameworks : list FrameworkMatch.t)
    (f : FrameworkMatch.t) :
  f ∈ frameworks → FrameworkMatch.name f ∈ names →
  has_framework names frameworks = true.
Proof.
  intros Hf Hn. unfold has_framework.
  apply existsb_exists. exists f. split; [by apply list_elem_of_In|].
  unfold named_in. apply existsb_exists.
  exists (FrameworkMatch.name f). split; [by apply list_elem_of_In|].
  apply String.eqb_refl.
Qed.

Lemma using_framework_found (names : list string) (frameworks : list FrameworkMatch.t) :
  has_framework names frameworks = true →
  ∃ f, f ∈ frameworks ∧ FrameworkMatch.name f ∈ names ∧
       using_framework names frameworks = "Using " +:+ FrameworkMatch.name f.
Proof.
  unfold has_framework, using_framework.
  intros (f0 & Hin0 & Hf0)%existsb_exists.
  destruct (find (named_in names) frameworks) as [f|] eqn:Hfind.
  - apply find_some in Hfind as [Hin Hf]. exists f.
    split; [by apply list_elem_of_In|]. split; [|done].
    unfold named_in in Hf.
    apply existsb_exists in Hf as (n & Hn & ->%String.eqb_eq).
    by apply list_elem_of_In.
  - pose proof (find_none _ _ Hfind f0 Hin0). congruence.
Qed.

(** X7: the reason [detectProjectType] gives is one of eight fixed
    sentences, or [Using <name>] for a framework of the detection result; it
    never reads [Using undefined]. *)
Theorem detectProjectType_reason (projectInfo : ProjectInfo.t)
    (detection : DetectionResult.t) (r : ProjectTypeResult.t) :
  detectProjectType projectInfo detection = Return r →
  (∃ f, f ∈ DetectionResult.frameworks detection ∧
        ProjectTypeResult.reason r = "Using " +:+ FrameworkMatch.name f) ∨
  ProjectTypeResult.reason r ∈
    [ "Detected workspace configuration"; "Has bin field in package.json";
      "CLI-related keywords"; "Has library configuration (main, types, exports)";
      "Has both frontend and backend frameworks";
      "Has public folder or index.html"; "Has server entry file";
      "Could not determine project type" ].
Proof.
  unfold ProjectTypeDetector.detectProjectType. cbv zeta.
  repeat match goal with
  | |- context [has_framework ?names ?fw] =>
      let H := fresh "Hfw" in
      destruct (has_framework names fw) eqn:H
  end;
  repeat case_match; try discriminate; intros [= <-];
    cbn [ProjectTypeResult.reason];
    try (right; JsFacts.solve_elem_of; fail);
    left;
    match goal with
    | |- context [using_framework ?names ?fw] =>
        match goal with
        | H : has_framework names fw = true |- _ =>
            destruct (using_framework_found names fw H) as (f & Hf & _ & ->)
        end
    end; by exists f.
Qed.

(** X8: when the manifest's [keywords] is absent, [null] or an array of
    strings, [detectProjectType] returns a result (it does not throw), and
    the confidence of the result lies between 0.3 and 0.95. *)
Theorem detectProjectType_total (projectInfo : ProjectInfo.t)
    (detection : DetectionResult.t) :
  keywords_well_formed (ProjectInfo.packageJson projectInfo) →
  ∃ r, detectProjectType projectInfo detection = Return r ∧
       (0.3 <=? ProjectTypeResult.confidence r)%float = true ∧
       (ProjectTypeResult.confidence r <=? 0.95)%float = true.
Proof.
  intros [r Hr]%(detectProjectType_returns projectInfo detection).
  exists r. split; [done|].
  by apply (detectProjectType_confidence_range projectInfo detection).
Qed.

End classifier_facts.

(** The closed instances below do not depend on the lowering (their
    keywords, where present, are plain ASCII); [Js.toLowerCase] stands in. *)
Local Abbreviation detectProjectType := (detectProjectType toLowerCase).

Lemma monorepo_precedes_mobile_witness :
  detectProjectType (manifest_project (JObj [("workspaces", JArr [JStr "packages/*"])]))
                    (detected [react_native]) =
    Return (ProjectTypeResult.mk monorepo "Monorepo" 0.9
              "Detected workspace configuration").
Proof.
  apply (monorepo_precedes_mobile toLowerCase
           (manifest_project (JObj [("workspaces", JArr [JStr "packages/*"])]))
           (detected [react_native])); [by left|reflexivity].
Defined.

(** C5 (as stated) fails for a manifest whose [workspaces] field is present
    but falsy: [pkg?.workspaces || ...] tests its truthiness, and the mobile
    rule answers. *)
Lemma monorepo_precedes_mobile_counterexample :
  Json.defined (Json.member (Some (JObj [("workspaces", JBool false)])) "workspaces") = true ∧
  has_framework mobileFrameworks [react_native] = true ∧
  detectProjectType (manifest_project (JObj [("workspaces", JBool false)]))
                    (detected [react_native]) =
    Return (ProjectTypeResult.mk mobile "Mobile App" 0.95 "Using React Native").
Proof. by vm_compute. Qed.

Lemma library_confidence_witness :
  detectProjectType (manifest_project (JObj [("main", JStr "index.js")])) (detected []) =
    Return (ProjectTypeResult.mk library "Library/Package"
              (0.7 + Js.number_of_nat 2 * 0.05)%float
              "Has library configuration (main, types, exports)").
Proof.
  apply (library_confidence toLowerCase (manifest_project (JObj [("main", JStr "index.js")]))
           (detected [])); reflexivity.
Defined.

(** C6 (as stated) fails: with one library-style field the confidence is
    [0.7 + 2 * 0.05], not [0.7 + 1 * 0.05], because not being private is
    itself a score term. *)
Lemma library_confidence_counterexample :
  library_fields (Some (JObj [("main", JStr "index.js")])) = 1 ∧
  confidence_of
    (detectProjectType (manifest_project (JObj [("main", JStr "index.js")]))
                       (detected []))
    = Some (0.7 + 2 * 0.05)%float ∧
  (0.7 + 2 * 0.05 =? 0.7 + 1 * 0.05)%float = false.
Proof. by vm_compute. Qed.

Lemma detectProjectType_reason_witness :
  (∃ f, f ∈ [react_native] ∧ "Using React Native" = "Using " +:+ FrameworkMatch.name f) ∨
  "Using React Native" ∈
    [ "Detected workspace configuration"; "Has bin field in package.json";
      "CLI-related keywords"; "Has library configuration (main, types, exports)";
      "Has both frontend and backend frameworks";
      "Has public folder or index.html"; "Has server entry file";
      "Could not determine project type" ].
Proof.
  exact (detectProjectType_reason toLowerCase
           (manifest_project (JObj [("workspaces", JBool false)]))
           (detected [react_native])
           (ProjectTypeResult.mk mobile "Mobile App" 0.95 "Using React Native")
           eq_refl).
Defined.

Lemma detectProjectType_total_witness :
  ∃ r, detectProjectType
         (manifest_project (JObj [("keywords", JArr [JStr "parser"; JStr "cli"])]))
         (detected []) = Return r ∧
       (0.3 <=? ProjectTypeResult.confidence r)%float = true ∧
       (ProjectTypeResult.confidence r <=? 0.95)%float = true.
Proof.
  apply (detectProjectType_total toLowerCase
           (manifest_project (JObj [("keywords", JArr [JStr "parser"; JStr "cli"])]))
           (detected [])).
  cbn. repeat constructor; by eexists.
Defined.

End ProjectTypeDetectorFacts.

Module DetectorFacts.
Import Js JsFacts Detector.

Lemma fired_levels (projectInfo : ProjectInfo.t) :
  Forall (λ rule, fires projectInfo rule = true →
                  FrameworkRule.detect rule projectInfo ∈ confidence_levels)
         FRAMEWORK_RULES.
Proof.
  unfold FRAMEWORK_RULES, fires, confidence_levels.
  repeat apply Forall_cons_2; try apply Forall_nil_2;
    cbn [FrameworkRule.detect]; cbv zeta;
    intros Hfire; repeat case_match; try (by vm_compute in Hfire);
    repeat constructor.
Qed.

Lemma frameworks_unsorted (projectInfo : ProjectInfo.t) :
  detectFrameworks projectInfo ≡ₚ
    match_of projectInfo <$> filter (λ r, fires projectInfo r = true) FRAMEWORK_RULES.
Proof.
  unfold detectFrameworks. cbv zeta.
  by rewrite sort_with_Permutation, foldl_push_if.
Qed.

Lemma by_confidence_false (x y : FrameworkMatch.t) :
  FrameworkMatch.confidence x ∈ confidence_levels →
  FrameworkMatch.confidence y ∈ confidence_levels →
  by_confidence x y = false →
  (FrameworkMatch.confidence y <=? FrameworkMatch.confidence x)%float = true.
Proof.
  unfold by_confidence, confidence_levels.
  rewrite !elem_of_cons, !elem_of_nil.
  intros [->|[->|[->|[->|[]]]]] [->|[->|[->|[->|[]]]]] H;
    vm_compute in H; try discriminate H; reflexivity.
Qed.

Lemma by_confidence_true (x y : FrameworkMatch.t) :
  FrameworkMatch.confidence x ∈ confidence_levels →
  FrameworkMatch.confidence y ∈ confidence_levels →
  by_confidence x y = true →
  (FrameworkMatch.confidence x <=? FrameworkMatch.confidence y)%float = true.
Proof.
  unfold by_confidence, confidence_levels.
  rewrite !elem_of_cons, !elem_of_nil.
  intros [->|[->|[->|[->|[]]]]] [->|[->|[->|[->|[]]]]] H;
    vm_compute in H; try discriminate H; reflexivity.
Qed.

Lemma levels_trans (x y z : float) :
  x ∈ confidence_levels → y ∈ confidence_levels → z ∈ confidence_levels →
  (y <=? x)%float = true → (z <=? y)%float = true → (z <=? x)%float = true.
Proof.
  unfold confidence_levels. rewrite !elem_of_cons, !elem_of_nil.
  intros [->|[->|[->|[->|[]]]]] [->|[->|[->|[->|[]]]]] [->|[->|[->|[->|[]]]]] H1 H2;
    vm_compute in H1, H2; try discriminate; reflexivity.
Qed.

Lemma frameworks_levels (projectInfo : ProjectInfo.t) :
  Forall (λ m, FrameworkMatch.confidence m ∈ confidence_levels)
         (match_of projectInfo <$> filter (λ r, fires projectInfo r = true) FRAMEWORK_RULES).
Proof.
  apply Forall_fmap, Forall_forall. intros r [Hf Hr]%list_elem_of_filter.
  pose proof (fired_levels projectInfo) as Hall.
  rewrite Forall_forall in Hall. by apply Hall.
Qed.

Lemma rule_names_NoDup : NoDup (FrameworkRule.name <$> FRAMEWORK_RULES).
Proof. apply (bool_decide_unpack _). by vm_compute. Qed.

(** X1: [detectFrameworks] reports exactly the rules of [FRAMEWORK_RULES]
    whose [detect] gives a positive confidence, each with the rule's name and
    category and that confidence, and no framework name twice. *)
Theorem detectFrameworks_matches (projectInfo : ProjectInfo.t) :
  NoDup (FrameworkMatch.name <$> detectFrameworks projectInfo) ∧
  ∀ m, m ∈ detectFrameworks projectInfo ↔
       ∃ rule, rule ∈ FRAMEWORK_RULES ∧
               (0 <? FrameworkRule.detect rule projectInfo)%float = true ∧
               m = FrameworkMatch.mk (FrameworkRule.name rule)
                     (FrameworkRule.category rule)
                     (FrameworkRule.detect rule projectInfo).
Proof.
  split.
  - rewrite frameworks_unsorted, <-list_fmap_compose.
    eapply sublist_NoDup; [exact rule_names_NoDup|].
    apply fmap_sublist, sublist_filter.
  - intros m. rewrite frameworks_unsorted, list_elem_of_fmap.
    split.
    + intros (r & -> & [Hf Hr]%list_elem_of_filter). by exists r.
    + intros (r & Hr & Hf & ->). exists r. split; [done|].
      by apply list_elem_of_filter.
Qed.

(** X2: [detectFrameworks] returns its matches in order of non-increasing
    confidence: each match's confidence is at least that of every match
    after it. *)
Theorem detectFrameworks_sorted (projectInfo : ProjectInfo.t) :
  StronglySorted
    (λ a b, (FrameworkMatch.confidence b <=? FrameworkMatch.confidence a)%float = true)
    (detectFrameworks projectInfo).
Proof.
  unfold detectFrameworks. cbv zeta. rewrite foldl_push_if. csimpl.
  apply (sort_with_StronglySorted by_confidence _
           (λ m, FrameworkMatch.confidence m ∈ confidence_levels)).
  - intros x y z Hx Hy Hz. by apply levels_trans.
  - apply by_confidence_false.
  - apply by_confidence_true.
  - apply frameworks_levels.
Qed.

(** X3: [detectPackageManager] answers with the manager of the first
    marker, in the order of [package_manager_markers], that is the name of
    an entry of the project (file or directory, at any depth), and with
    [null] when no entry has such a name. *)
Theorem detectPackageManager_first_marker (projectInfo : ProjectInfo.t) :
  detectPackageManager projectInfo =
    snd <$> find (λ marker, file_named projectInfo marker.1) package_manager_markers.
Proof.
  unfold detectPackageManager. cbv zeta.
  repeat match goal with
  | |- context [existsb (λ f, String.eqb f ?n) (ProjectFile.name <$> _)] =>
      rewrite (existsb_fmap ProjectFile.name (λ f, String.eqb f n))
  end.
  unfold package_manager_markers, file_named, compose. cbn [find fst snd].
  repeat (destruct (existsb _ (ProjectInfo.files projectInfo)); [done|]).
  done.
Qed.

(** Peels the conditional pushes off an array built statement by
    statement, against the list of everything that can be pushed. *)
Ltac peel_pushes :=
  repeat match goal with
  | |- push_if _ ?x ?xs `sublist_of` ?l =>
      let ys := eval cbv in (removelast l) in
      apply (sublist_push_if _ x xs ys)
  end.

(** X4: [detectBuildTools] and [detectTestFrameworks] list each tool at
    most once and always in the same order, that of the two lists below. *)
Theorem detected_tools_order (projectInfo : ProjectInfo.t) :
  detectBuildTools projectInfo `sublist_of`
    ["Webpack"; "Vite"; "Rollup"; "esbuild"; "Parcel"; "Make"; "CMake"] ∧
  detectTestFrameworks projectInfo `sublist_of`
    ["Jest"; "Mocha"; "Vitest"; "Cypress"; "Playwright";
     "React Testing Library"; "Jasmine"; "AVA"].
Proof.
  split.
  - unfold detectBuildTools. cbv zeta. peel_pushes. done.
  - unfold detectTestFrameworks. cbv zeta. peel_pushes. done.
Qed.

Lemma detected_rule (projectInfo : ProjectInfo.t) (name : string) :
  name ∈ FrameworkMatch.name <$> detectFrameworks projectInfo →
  ∃ rule, rule ∈ FRAMEWORK_RULES ∧ fires projectInfo rule = true ∧
          FrameworkRule.name rule = name.
Proof.
  rewrite frameworks_unsorted, <-list_fmap_compose.
  intros (r & -> & [Hf Hr]%list_elem_of_filter)%list_elem_of_fmap.
  by exists r.
Qed.

Lemma rule_detected (projectInfo : ProjectInfo.t) (rule : FrameworkRule.t) :
  rule ∈ FRAMEWORK_RULES → fires projectInfo rule = true →
  match_of projectInfo rule ∈ detectFrameworks projectInfo.
Proof.
  intros Hr Hf. rewrite frameworks_unsorted. apply list_elem_of_fmap.
  exists rule. split; [done|]. by apply list_elem_of_filter.
Qed.

Lemma config_includes_prefix (projectInfo : ProjectInfo.t) (p q : string) :
  String.prefix p q = true →
  config_includes projectInfo q = true → config_includes projectInfo p = true.
Proof.
  intros Hpq. unfold config_includes. rewrite !existsb_exists.
  intros (f & Hin & Hf). exists f. split; [done|].
  by eapply includes_prefix.
Qed.

(** X5: whenever [detectFrameworks] reports Vite or Webpack,
    [detectBuildTools] lists it as well. *)
Theorem bundler_framework_is_build_tool (projectInfo : ProjectInfo.t) (name : string) :
  name = "Vite" ∨ name = "Webpack" →
  name ∈ FrameworkMatch.name <$> detectFrameworks projectInfo →
  name ∈ detectBuildTools projectInfo.
Proof.
  intros Hname (rule & Hrule & Hfires & Hrn)%detected_rule.
  unfold FRAMEWORK_RULES in Hrule.
  repeat (apply elem_of_cons in Hrule as [->|Hrule];
          [cbn [FrameworkRule.name] in Hrn;
           try (destruct Hname as [->| ->]; discriminate Hrn)|]);
    [| |by apply elem_of_nil in Hrule].
  - (* Vite *)
    subst name. unfold fires in Hfires. cbn [FrameworkRule.detect] in Hfires.
    unfold detectBuildTools. cbv zeta. rewrite !elem_of_push_if.
    do 5 left. right. split; [|done]. apply orb_true_iff.
    destruct (devDependency projectInfo "vite"); [by left|right].
    destruct (config_includes projectInfo "vite.config") eqn:Hc;
      [|by vm_compute in Hfires].
    by apply (config_includes_prefix _ "vite" "vite.config").
  - (* Webpack *)
    subst name. unfold fires in Hfires. cbn [FrameworkRule.detect] in Hfires.
    unfold detectBuildTools. cbv zeta. rewrite !elem_of_push_if.
    do 6 left. right. split; [|done]. apply orb_true_iff.
    destruct (devDependency projectInfo "webpack"); [by left|right].
    destruct (config_includes projectInfo "webpack.config") eqn:Hc;
      [|by vm_compute in Hfires].
    by apply (config_includes_prefix _ "webpack" "webpack.config").
Qed.

Lemma bundler_framework_is_build_tool_witness :
  "Vite" ∈ FrameworkMatch.name <$> detectFrameworks vite_project ∧
  "Vite" ∈ detectBuildTools vite_project.
Proof.
  assert ("Vite" ∈ FrameworkMatch.name <$> detectFrameworks vite_project) as H
    by (apply (bool_decide_unpack _); by vm_compute).
  split; [exact H|].
  exact (bundler_framework_is_build_tool vite_project "Vite" (or_introl eq_refl) H).
Defined.

(** X6: a project with an entry named [requirements.txt] or [Pipfile] is
    never classified [web-app] or [unknown] by [detectProjectType] applied to
    [detectAll]: the Flask rule fires on the file name alone, which makes a
    backend framework present. *)
Theorem requirements_file_means_backend (toLowerCase : string → string)
    (projectInfo : ProjectInfo.t) (r : ProjectTypeResult.t) :
  file_named projectInfo "requirements.txt" = true ∨
  file_named projectInfo "Pipfile" = true →
  ProjectTypeDetector.detectProjectType toLowerCase projectInfo (detectAll projectInfo)
    = Return r →
  ProjectTypeResult.type r ∈
    [monorepo; mobile; desktop; cli; library; fullstack; backend].
Proof.
  intros Hfile.
  assert (ProjectTypeDetector.has_framework ProjectTypeDetector.backendFrameworks
            (detectFrameworks projectInfo) = true) as Hbackend.
  { set (flask := FrameworkRule.mk "Flask" "Backend Framework" (λ info,
      let hasFlask :=
        existsb (λ f, String.eqb (ProjectFile.name f) "requirements.txt" ||
                      String.eqb (ProjectFile.name f) "Pipfile")
                (ProjectInfo.files info) in
      if hasFlask then 0.5 else 0)%float).
    apply (ProjectTypeDetectorFacts.has_framework_intro _ _ (match_of projectInfo flask)).
    - apply rule_detected; [unfold FRAMEWORK_RULES; solve_elem_of|].
      unfold fires, flask. cbn [FrameworkRule.detect]. cbv zeta.
      assert (existsb (λ f, String.eqb (ProjectFile.name f) "requirements.txt" ||
                            String.eqb (ProjectFile.name f) "Pipfile")
                (ProjectInfo.files projectInfo) = true) as ->; [|reflexivity].
      unfold file_named in Hfile. rewrite !existsb_exists in Hfile.
      apply existsb_exists.
      destruct Hfile as [(f & Hin & Hf)|(f & Hin & Hf)]; exists f;
        (split; [done|]); rewrite Hf; [done|apply orb_true_r].
    - unfold ProjectTypeDetector.backendFrameworks. cbn. solve_elem_of. }
  unfold ProjectTypeDetector.detectProjectType. cbv zeta.
  cbn [DetectionResult.frameworks detectAll]. rewrite Hbackend.
  repeat case_match; try discriminate; intros [= <-];
    cbn [ProjectTypeResult.type]; solve_elem_of.
Qed.

Lemma requirements_file_means_backend_witness :
  ProjectTypeDetector.detectProjectType toLowerCase python_requirements
    (detectAll python_requirements)
  = Return (ProjectTypeResult.mk backend "Backend/API" 0.85 "Using Flask") ∧
  backend ∈ [monorepo; mobile; desktop; cli; library; fullstack; backend].
Proof.
  assert (ProjectTypeDetector.detectProjectType toLowerCase python_requirements
            (detectAll python_requirements)
          = Return (ProjectTypeResult.mk backend "Backend/API" 0.85 "Using Flask"))
    as H by (vm_compute; reflexivity).
  split; [exact H|].
  exact (requirements_file_means_backend toLowerCase python_requirements _
           (or_introl eq_refl) H).
Defined.

(** X10: the package manager the offline document works with is one of
    eleven names, and for [bun], [bundler], [composer], [maven] and [gradle]
    (all of which [detectPackageManager] can answer) the [switch] has no
    case: the commands are those of npm. *)
Theorem offline_commands_for_detected_manager (projectInfo : ProjectInfo.t) :
  let pkg := ProjectInfo.packageJson projectInfo in
  let packageManager :=
    OfflineFallback.or_string (default "" (detectPackageManager projectInfo)) "npm" in
  packageManager ∈
    [ "npm"; "yarn"; "pnpm"; "pip"; "cargo"; "go mod";
      "bun"; "bundler"; "composer"; "maven"; "gradle" ] ∧
  (packageManager ∈ ["bun"; "bundler"; "composer"; "maven"; "gradle"] →
   OfflineFallback.commands pkg packageManager = ("npm install", "npm start")).
Proof.
  cbv zeta. unfold detectPackageManager. cbv zeta.
  repeat match goal with
  | |- context [if ?c then _ else _] => destruct c
  end; (split; [vm_compute; solve_elem_of|]); intros Hin;
    try reflexivity;
    rewrite !elem_of_cons, elem_of_nil in Hin; vm_compute in Hin;
    intuition discriminate.
Qed.

End DetectorFacts.

Module WorkspaceScannerFacts.
Import Js JsFacts WorkspaceScanner.

Lemma source_extensions_are_languages (ext : string) :
  ext ∈ SOURCE_EXTENSIONS ↔ ext ∈ LanguageDetector.LANGUAGE_MAP.*1.
Proof.
  assert (SOURCE_EXTENSIONS = LanguageDetector.LANGUAGE_MAP.*1) as -> by reflexivity.
  done.
Qed.

Lemma is_source_file_recognized (f : ProjectFile.t) :
  is_source_file f = LanguageDetector.recognized f.
Proof.
  unfold is_source_file, LanguageDetector.recognized. f_equal.
  unfold get.
  destruct (own LanguageDetector.LANGUAGE_MAP (ProjectFile.extension f)) as [n|] eqn:Hown.
  - apply existsb_exists. exists (ProjectFile.extension f).
    split; [|apply String.eqb_refl].
    apply list_elem_of_In, source_extensions_are_languages, own_is_Some. by eexists.
  - assert (existsb (String.eqb (ProjectFile.extension f)) SOURCE_EXTENSIONS = false) as ->.
    { apply not_true_is_false. intros (x & Hin & Heq%String.eqb_eq)%existsb_exists.
      rewrite <-Heq in Hin.
      apply list_elem_of_In, source_extensions_are_languages, own_is_Some in Hin.
      rewrite Hown in Hin. by destruct Hin. }
    by destruct (existsb _ _).
Qed.

(** X9: in the record [scanWorkspace] returns, [sourceFiles] has one entry
    for each file that [detectLanguages] counts ([SOURCE_EXTENSIONS] and the
    keys of [LANGUAGE_MAP] are the same extensions), and that number is at
    most [totalFiles], which is at most the number of entries. *)
Theorem source_files_are_the_recognized_files (basename rootPath : string)
    (files : list ProjectFile.t) (packageJson : option json)
    (existingReadmeContent : option string) :
  let info := project_info basename rootPath files packageJson existingReadmeContent in
  length (ProjectInfo.sourceFiles info) = LanguageDetector.recognized_count info ∧
  LanguageDetector.recognized_count info ≤ ProjectInfo.totalFiles info ∧
  ProjectInfo.totalFiles info ≤ length files.
Proof.
  cbv zeta. unfold project_info, LanguageDetector.recognized_count.
  cbn [ProjectInfo.sourceFiles ProjectInfo.files ProjectInfo.totalFiles].
  rewrite length_fmap.
  rewrite (list_filter_iff (λ f, is_source_file f = true)
             (λ f, LanguageDetector.recognized f = true))
    by (intros f; by rewrite is_source_file_recognized).
  repeat split.
  - induction files as [|f files IH]; [done|].
    rewrite !filter_cons.
    destruct (decide (LanguageDetector.recognized f = true)) as [Hr|Hr],
             (decide (ProjectFile.isDirectory f = false)) as [Hd|Hd];
      csimpl; try lia.
    unfold LanguageDetector.recognized in Hr.
    by destruct (ProjectFile.isDirectory f).
  - apply length_filter.
Qed.

End WorkspaceScannerFacts.


Module BadgeGeneratorFacts.
Import Js BadgeGenerator.

Lemma foldl_preserves {A B : Type} (P : A → Prop) (f : A → B → A) (l : list B) (a : A) :
  (∀ a x, P a → P (f a x)) → P a → P (foldl f a l).
Proof. intros Hf. revert a. induction l; simpl; auto. Qed.

Lemma foldl_reaches {A B : Type} (P : A → Prop) (f : A → B → A) (l : list B)
    (a : A) (x0 : B) :
  x0 ∈ l → (∀ a, P (f a x0)) → (∀ a x, P a → P (f a x)) → P (foldl f a l).
Proof.
  intros Hin H0 Hf. revert a.
  induction l as [|y l IH]; intros a; [by apply elem_of_nil in Hin|].
  apply elem_of_cons in Hin as [->|Hin]; simpl.
  - by apply foldl_preserves.
  - by apply IH.
Qed.

Lemma NoDup_fmap_inj_on {A B : Type} (f : A → B) (l : list A) (x y : A) :
  NoDup (f <$> l) → x ∈ l → y ∈ l → f x = f y → x = y.
Proof.
  induction l as [|z l IH]; csimpl; [by intros _ ?%elem_of_nil|].
  intros [Hz Hnd]%NoDup_cons [->|Hx]%elem_of_cons [->|Hy]%elem_of_cons Heq;
    [done| | |by apply IH].
  - destruct Hz. rewrite Heq. by apply list_elem_of_fmap_2.
  - destruct Hz. rewrite <-Heq. by apply list_elem_of_fmap_2.
Qed.

Lemma NoDup_filter_one {A B : Type} `{EqDecision B} (f : A → B) (l : list A) (x : A) :
  NoDup (f <$> l) → x ∈ l → length (filter (λ y, f y = f x) l) = 1.
Proof.
  induction l as [|z l IH]; csimpl; [by intros _ ?%elem_of_nil|].
  intros [Hz Hnd]%NoDup_cons [->|Hx]%elem_of_cons.
  - rewrite filter_cons_True by done. csimpl. f_equal.
    apply length_zero_iff_nil, elem_of_nil_inv. intros y [Hy Hin]%list_elem_of_filter.
    destruct Hz. rewrite <-Hy. by apply list_elem_of_fmap_2.
  - rewrite filter_cons_False; [by apply IH|].
    intros Heq. destruct Hz. rewrite Heq. by apply list_elem_of_fmap_2.
Qed.

Lemma NoDup_filter_eq_le {A : Type} `{EqDecision A} (l : list A) (x : A) :
  NoDup l → length (filter (λ y, y = x) l) ≤ 1.
Proof.
  induction 1 as [|z l Hz Hnd IH]; [simpl; lia|].
  destruct (decide (z = x)) as [->|Hne].
  - rewrite filter_cons_True by done. csimpl.
    replace (filter (λ y, y = x) l) with (@nil A); [simpl; lia|].
    symmetry. apply elem_of_nil_inv. by intros y [-> Hin]%list_elem_of_filter.
  - by rewrite filter_cons_False.
Qed.

Lemma createBadge_label (key style : string) (badge : Badge.t) :
  createBadge key style = Some badge →
  tech_label key = Some (Badge.label badge) ∧ Badge.category badge ≠ "meta".
Proof.
  unfold createBadge, tech_label, get.
  destruct (own TECH_BADGES key) as [config|]; [|by destruct (existsb _ _)].
  intros [= <-]. split; [done|]. cbn [Badge.category]. unfold getCategoryForKey.
  by repeat case_match.
Qed.

(** No two keys of [TECH_BADGES] share a label, and no label is one of the
    three meta labels. *)
Lemma tech_labels_NoDup :
  NoDup (["License"; "Version"; "PRs Welcome"] ++
         omap (λ kv, tech_label kv.1) TECH_BADGES).
Proof. apply (bool_decide_unpack _). by vm_compute. Qed.

Lemma addBadge_inv (style : string) (acc : list Badge.t * gset string) (key : string) :
  badge_inv style acc → badge_inv style (addBadge style acc key).
Proof.
  intros (keys & Hnd & Hset & HF). unfold addBadge.
  case_bool_decide as Hin; [by exists keys|].
  destruct (createBadge key style) as [badge|] eqn:Hb; [|by exists keys].
  exists (keys ++ [key]). cbn [fst snd]. repeat split.
  - apply NoDup_app. repeat split; [done| |apply NoDup_singleton].
    intros k Hk ->%list_elem_of_singleton. apply Hin. rewrite Hset.
    by apply elem_of_list_to_set.
  - rewrite list_to_set_app_L, Hset. set_solver.
  - apply Forall2_app; [done|]. by repeat constructor.
Qed.

Lemma addBadge_keeps (style : string) (acc : list Badge.t * gset string) (key k : string) :
  k ∈ acc.2 → k ∈ (addBadge style acc key).2.
Proof.
  intros Hk. unfold addBadge. case_bool_decide; [done|].
  destruct (createBadge key style); [|done]. cbn [snd]. set_solver.
Qed.

Lemma addBadge_adds (style : string) (acc : list Badge.t * gset string) (key : string) :
  is_Some (createBadge key style) → key ∈ (addBadge style acc key).2.
Proof.
  intros [badge Hb]. unfold addBadge. case_bool_decide; [done|].
  rewrite Hb. cbn [snd]. set_solver.
Qed.

Lemma add_found_preserves (P : list Badge.t * gset string → Prop) (style : string)
    (acc : list Badge.t * gset string) (key : prop string) :
  (∀ acc k, P acc → P (addBadge style acc k)) → P acc →
  P (add_found style acc key).
Proof. intros Hadd Hacc. destruct key; simpl; [case_match|..]; auto. Qed.

(** Peels the steps of [technology_badges] off a goal [P (...)], given that
    [addBadge] preserves [P]. *)
Ltac peel_steps Hadd :=
  repeat first
    [ assumption
    | apply Hadd
    | apply add_found_preserves; [exact Hadd|]
    | apply foldl_preserves;
        [intros; apply add_found_preserves; [exact Hadd|assumption]|]
    | match goal with
      | |- context [if ?c then _ else _] => destruct c
      | |- context [match ?o with Some _ => _ | None => _ end] => destruct o
      end ].

Section technology_facts.
Context (toLowerCase : string → string).

Local Abbreviation technology_badges := (technology_badges toLowerCase).

Lemma technology_badges_preserves (P : list Badge.t * gset string → Prop)
    (projectInfo : ProjectInfo.t) (detection : DetectionResult.t) (style : string) :
  (∀ acc k, P acc → P (addBadge style acc k)) → P ([], ∅) →
  P (technology_badges projectInfo detection style).
Proof.
  intros Hadd Hinit. unfold BadgeGenerator.technology_badges. cbv zeta.
  peel_steps Hadd.
Qed.

Lemma technology_badges_inv (projectInfo : ProjectInfo.t)
    (detection : DetectionResult.t) (style : string) :
  badge_inv style (technology_badges projectInfo detection style).
Proof.
  apply technology_badges_preserves.
  - intros acc k. apply addBadge_inv.
  - exists []. repeat split; [constructor|constructor].
Qed.

Lemma NoDup_omap_inj_on {A B : Type} (f : A → option B) (l : list A) (x y : A) (z : B) :
  NoDup (omap f l) → x ∈ l → y ∈ l → f x = Some z → f y = Some z → x = y.
Proof.
  induction l as [|a l IH]; [by intros _ ?%elem_of_nil|].
  csimpl. intros Hnd [->|Hx]%elem_of_cons [->|Hy]%elem_of_cons Hfx Hfy; [done|..].
  - rewrite Hfx in Hnd. apply NoDup_cons in Hnd as [Hz _]. destruct Hz.
    apply list_elem_of_omap. eauto.
  - rewrite Hfy in Hnd. apply NoDup_cons in Hnd as [Hz _]. destruct Hz.
    apply list_elem_of_omap. eauto.
  - apply IH; try done. destruct (f a); [by apply NoDup_cons in Hnd as [_ ?]|done].
Qed.

Lemma tech_label_elem_of (key label : string) :
  tech_label key = Some label →
  ∃ config, (key, config) ∈ TECH_BADGES.
Proof.
  unfold tech_label. destruct (own TECH_BADGES key) as [config|] eqn:Hown; [|done].
  intros _. exists config. by apply JsFacts.own_Some_elem_of.
Qed.

Lemma tech_label_inj (k k' label : string) :
  tech_label k = Some label → tech_label k' = Some label → k = k'.
Proof.
  intros Hk Hk'.
  destruct (tech_label_elem_of _ _ Hk) as [c Hc].
  destruct (tech_label_elem_of _ _ Hk') as [c' Hc'].
  pose proof tech_labels_NoDup as [_ [_ Hnd]]%NoDup_app.
  by pose proof (NoDup_omap_inj_on _ _ _ _ label Hnd Hc Hc' Hk Hk') as [= ->].
Qed.

Lemma tech_label_not_meta (k label : string) :
  tech_label k = Some label → label ∉ ["License"; "Version"; "PRs Welcome"].
Proof.
  intros Hk Hmeta.
  destruct (tech_label_elem_of _ _ Hk) as [c Hc].
  pose proof tech_labels_NoDup as [_ [Hdisj _]]%NoDup_app.
  apply (Hdisj _ Hmeta). apply list_elem_of_omap. by exists (k, c).
Qed.

Lemma technology_labels (style : string) (badges : list Badge.t) (keys : list string) :
  Forall2 (λ badge key, createBadge key style = Some badge) badges keys →
  NoDup keys →
  NoDup (Badge.label <$> badges) ∧
  Forall (λ b, Badge.label b ∉ ["License"; "Version"; "PRs Welcome"]) badges.
Proof.
  induction 1 as [|b k badges keys Hb HF IH]; csimpl; [by repeat constructor|].
  intros [Hk Hnd]%NoDup_cons. destruct (IH Hnd) as [IH1 IH2].
  apply createBadge_label in Hb as [Hl _]. split.
  - apply NoDup_cons. split; [|done].
    intros (b' & Heq & Hin)%list_elem_of_fmap.
    apply list_elem_of_lookup in Hin as [i Hi].
    destruct (Forall2_lookup_l _ _ _ _ _ HF Hi) as (k' & Hk' & Hb').
    apply createBadge_label in Hb' as [Hl' _]. rewrite <-Heq in Hl'.
    apply Hk. rewrite (tech_label_inj _ _ _ Hl Hl').
    by eapply list_elem_of_lookup_2.
  - constructor; [|done]. by eapply tech_label_not_meta.
Qed.

Lemma react_added (projectInfo : ProjectInfo.t) (detection : DetectionResult.t)
    (style : string) :
  (∃ fw, fw ∈ DetectionResult.frameworks detection ∧ FrameworkMatch.name fw = "React") →
  "react" ∈ (technology_badges projectInfo detection style).2.
Proof.
  intros (fw & Hfw & Hname).
  set (P := λ acc : list Badge.t * gset string, "react" ∈ acc.2).
  assert (∀ acc k, P acc → P (addBadge style acc k)) as Hadd
    by (intros acc k; apply addBadge_keeps).
  change (P (technology_badges projectInfo detection style)).
  unfold BadgeGenerator.technology_badges. cbv zeta.
  repeat first
    [ apply Hadd
    | apply (add_found_preserves P); [exact Hadd|]
    | match goal with
      | |- P (if ?c then _ else _) => destruct c
      | |- P (match ?o with Some _ => _ | None => _ end) => destruct o
      end ];
  (apply (foldl_preserves P);
     [intros; apply add_found_preserves; [exact Hadd|assumption]|]);
  (apply (foldl_preserves P);
     [intros; apply add_found_preserves; [exact Hadd|assumption]|]);
  (apply (foldl_reaches P _ _ _ fw Hfw);
     [|intros; apply add_found_preserves; [exact Hadd|assumption]]);
  intros acc; rewrite Hname;
  change (get FRAMEWORK_MAP "React") with (@Own string "react");
  apply addBadge_adds; by eexists.
Qed.

End technology_facts.

Lemma createBadge_category (key style : string) (badge : Badge.t) :
  createBadge key style = Some badge →
  Badge.category badge ∈ ["language"; "framework"; "database"; "tool"; "cloud"].
Proof.
  unfold createBadge, get.
  destruct (own TECH_BADGES key) as [config|]; [|by destruct (existsb _ _)].
  intros [= <-]. cbn [Badge.category]. unfold getCategoryForKey.
  repeat case_match; JsFacts.solve_elem_of.
Qed.

Section filter_groups.
Context {A : Type} (category : A → string).

Lemma filter_groups_fresh (cats : list string) (x : A) (l : list A) :
  category x ∉ cats →
  mjoin ((λ c, filter (λ y, category y = c) (x :: l)) <$> cats)
  = mjoin ((λ c, filter (λ y, category y = c) l) <$> cats).
Proof.
  induction cats as [|c cats IH]; intros Hx; csimpl; [done|].
  rewrite filter_cons_False, IH; [done| |];
    intros ?; apply Hx; [by right|subst; left].
Qed.

Lemma filter_groups_cons (cats : list string) (x : A) (l : list A) :
  NoDup cats → category x ∈ cats →
  mjoin ((λ c, filter (λ y, category y = c) (x :: l)) <$> cats)
  ≡ₚ x :: mjoin ((λ c, filter (λ y, category y = c) l) <$> cats).
Proof.
  induction 1 as [|c cats Hc Hnd IH]; intros Hx; [by apply elem_of_nil in Hx|].
  csimpl. destruct (decide (category x = c)) as [Heq|Hne].
  - rewrite filter_cons_True by done. rewrite filter_groups_fresh by congruence.
    done.
  - rewrite filter_cons_False by done. rewrite IH.
    + by rewrite Permutation_middle.
    + apply elem_of_cons in Hx as [?|?]; [done|done].
Qed.

Lemma filter_groups (cats : list string) (l : list A) :
  NoDup cats → Forall (λ x, category x ∈ cats) l →
  mjoin ((λ c, filter (λ x, category x = c) l) <$> cats) ≡ₚ l.
Proof.
  intros Hnd. induction 1 as [|x l Hx _ IH].
  - clear Hnd. induction cats as [|c cats IHc]; csimpl; done.
  - by rewrite filter_groups_cons, IH.
Qed.

End filter_groups.

Section badge_facts.
Context (Number_toString : float → string) (encodeURIComponent : string → string).
Context (toLowerCase : string → string).

Local Abbreviation technology_badges := (technology_badges toLowerCase).
Local Abbreviation meta_badges := (meta_badges Number_toString encodeURIComponent).
Local Abbreviation generateAllBadges :=
  (generateAllBadges Number_toString encodeURIComponent toLowerCase).

Lemma meta_badges_labels (projectInfo : ProjectInfo.t) :
  Badge.label <$> meta_badges projectInfo
    `sublist_of` ["License"; "Version"; "PRs Welcome"].
Proof.
  unfold BadgeGenerator.meta_badges, generateLicenseBadge, generateVersionBadge.
  cbv zeta.
  destruct (Json.member _ "license") as [license|];
    destruct (Json.member _ "version") as [version|];
    repeat case_match; csimpl;
    repeat first [apply sublist_nil | apply sublist_skip | apply sublist_cons].
Qed.


Local Abbreviation getBadgesByCategory :=
  (getBadgesByCategory Number_toString encodeURIComponent toLowerCase).

Lemma meta_badges_category (projectInfo : ProjectInfo.t) :
  Forall (λ b, Badge.category b = "meta") (meta_badges projectInfo).
Proof.
  unfold BadgeGenerator.meta_badges, generateLicenseBadge, generateVersionBadge.
  cbv zeta.
  destruct (Json.member _ "license") as [license|];
    destruct (Json.member _ "version") as [version|];
    repeat case_match; csimpl; repeat constructor.
Qed.

Lemma generateAllBadges_categories (projectInfo : ProjectInfo.t)
    (detection : DetectionResult.t) (style : string) :
  Forall (λ b, Badge.category b ∈
               ["language"; "framework"; "database"; "tool"; "cloud"; "meta"])
         (generateAllBadges projectInfo detection style).
Proof.
  unfold BadgeGenerator.generateAllBadges. apply Forall_app. split.
  - destruct (technology_badges_inv toLowerCase projectInfo detection style)
      as (keys & _ & _ & Hall).
    induction Hall as [|b k bs ks Hb _ IH]; constructor; [|done].
    apply createBadge_category in Hb.
    rewrite !elem_of_cons in Hb. rewrite !elem_of_cons. tauto.
  - eapply Forall_impl; [apply meta_badges_category|].
    intros b ->. JsFacts.solve_elem_of.
Qed.



End badge_facts.


End BadgeGeneratorFacts.

Module TemplatesFacts.
Import Js Templates.

Lemma own_None {A : Type} (table : list (string * A)) (key : string) :
  key ∉ table.*1 → own table key = None.
Proof.
  induction table as [|[k v] table IH]; csimpl; [done|].
  intros Hnot. destruct (String.eqb_spec k key) as [->|Hne].
  - destruct Hnot. left.
  - apply IH. intros Hin. apply Hnot. by right.
Qed.

(** Every catalog id gives its own template. *)
Lemma getTemplate_catalog :
  getTemplate "openSource" = Template openSourceTemplate ∧
  getTemplate "library" = Template libraryTemplate ∧
  getTemplate "startup" = Template startupTemplate ∧
  getTemplate "academic" = Template academicTemplate ∧
  getTemplate "personal" = Template personalTemplate.
Proof. by vm_compute. Qed.

(** An id that is neither a catalog id nor the name of a member inherited
    from [Object.prototype] falls back to the Open Source template. *)
Lemma getTemplate_fallback (templateId : string) :
  templateId ∉ TEMPLATES.*1 → templateId ∉ Object_prototype_names →
  getTemplate templateId = Template openSourceTemplate.
Proof.
  intros Hcat Hproto. unfold getTemplate, get.
  rewrite (own_None _ _ Hcat).
  destruct (existsb _ _) eqn:Hex; [|done].
  apply existsb_exists in Hex as (name & Hin & ->%String.eqb_eq).
  destruct Hproto. by apply list_elem_of_In.
Qed.

(** C10: for the id [constructor] the look-up [TEMPLATES[templateId]] finds
    the member every object literal inherits (the function [Object]), which
    is truthy, so [getTemplate] returns it instead of a template and the
    fallback is not taken. *)
Theorem getTemplate_inherited_member :
  ("constructor" ∉ (TEMPLATES.*1)) ∧
  getTemplate "constructor" = Builtin "constructor" ∧
  getTemplate "constructor" ≠ Template openSourceTemplate.
Proof.
  split; [|split; [by vm_compute|discriminate]].
  apply (bool_decide_unpack _). by vm_compute.
Qed.

(** X19: [getTemplate] answers in one of three ways.  For a key of the
    catalog it returns the template stored under that key, whose [id] is the
    key; for any other name that object literals inherit ([constructor],
    [toString], ...) it returns that built-in; for every other id it returns
    the Open Source template. *)
Theorem getTemplate_by_kind (templateId : string) :
  (templateId ∈ TEMPLATES.*1 →
   ∃ template, (templateId, template) ∈ TEMPLATES ∧
               ReadmeTemplate.id template = templateId ∧
               template ∈ getAllTemplates ∧
               getTemplate templateId = Template template) ∧
  (templateId ∉ TEMPLATES.*1 → templateId ∈ Object_prototype_names →
   getTemplate templateId = Builtin templateId) ∧
  (templateId ∉ TEMPLATES.*1 → templateId ∉ Object_prototype_names →
   getTemplate templateId = Template openSourceTemplate).
Proof.
  split; [|split].
  - unfold TEMPLATES. cbn [fmap list_fmap fst].
    rewrite !elem_of_cons, elem_of_nil.
    intros [->|[->|[->|[->|[->|[]]]]]]; eexists;
      (split; [|split; [|split; [|reflexivity]]]); try reflexivity;
      unfold getAllTemplates, TEMPLATES; cbn [fmap list_fmap snd];
      JsFacts.solve_elem_of.
  - intros Hcat Hproto. unfold getTemplate, get.
    rewrite (own_None _ _ Hcat).
    assert (existsb (String.eqb templateId) Object_prototype_names = true) as ->; [|done].
    apply existsb_exists. exists templateId.
    split; [by apply list_elem_of_In|apply String.eqb_refl].
  - apply getTemplate_fallback.
Qed.

End TemplatesFacts.

Module PromptBuilderFacts.
Import Js Templates PromptBuilder.

Lemma catalog_sections (template : ReadmeTemplate.t) :
  template ∈ getAllTemplates →
  (λ s, (ReadmeSection.id s, ReadmeSection.name s, ReadmeSection.description s))
    <$> ReadmeTemplate.sections template
  = (λ s, (ReadmeSection.id s, ReadmeSection.name s, ReadmeSection.description s))
    <$> ALL_SECTIONS.
Proof.
  unfold getAllTemplates, TEMPLATES. cbn [fmap list_fmap snd].
  rewrite !elem_of_cons, elem_of_nil.
  intros [->|[->|[->|[->|[->|[]]]]]]; by vm_compute.
Qed.

Lemma section_lines (enabledSections : list string) (sections : list ReadmeSection.t) :
  (λ s, "- **" +:+ ReadmeSection.name s +:+ "**: " +:+ ReadmeSection.description s)
    <$> filter (λ s, ReadmeSection.id s ∈ enabledSections) sections
  = (λ t, "- **" +:+ t.1.2 +:+ "**: " +:+ t.2)
    <$> filter (λ t, t.1.1 ∈ enabledSections)
          ((λ s, (ReadmeSection.id s, ReadmeSection.name s, ReadmeSection.description s))
             <$> sections).
Proof.
  induction sections as [|s sections IH]; [done|].
  rewrite fmap_cons, !filter_cons. cbn [fst snd].
  case_decide; csimpl; by rewrite IH.
Qed.

(** X20: the section instructions depend only on which section ids are
    enabled: neither the order of [enabledSections], nor repetitions in it,
    nor the choice among the five catalog templates changes the text; the
    sections always come in the order of [ALL_SECTIONS]. *)
Theorem buildSectionInstructions_by_set (enabled1 enabled2 : list string)
    (template1 template2 : ReadmeTemplate.t) :
  (∀ id, id ∈ enabled1 ↔ id ∈ enabled2) →
  template1 ∈ getAllTemplates → template2 ∈ getAllTemplates →
  buildSectionInstructions enabled1 template1
  = buildSectionInstructions enabled2 template2.
Proof.
  intros Hset H1 H2. unfold buildSectionInstructions. cbv zeta.
  rewrite !section_lines, (catalog_sections _ H1), (catalog_sections _ H2).
  rewrite (list_filter_iff (λ t : string * string * string, t.1.1 ∈ enabled1)
             (λ t, t.1.1 ∈ enabled2)); [done|].
  intros t. apply Hset.
Qed.

Lemma buildSectionInstructions_by_set_witness :
  buildSectionInstructions ["usage"; "title"] openSourceTemplate
  = buildSectionInstructions ["title"; "usage"; "usage"] libraryTemplate.
Proof.
  apply (buildSectionInstructions_by_set ["usage"; "title"] ["title"; "usage"; "usage"]
           openSourceTemplate libraryTemplate).
  - intros id. rewrite !elem_of_cons, !elem_of_nil. tauto.
  - unfold getAllTemplates, TEMPLATES. cbn. JsFacts.solve_elem_of.
  - unfold getAllTemplates, TEMPLATES. cbn. JsFacts.solve_elem_of.
Defined.

(** X21: a language or tone that is neither a key of its table nor a name
    that object literals inherit gets the English, respectively the
    professional, instruction. *)
Theorem instruction_fallback (key : string) :
  key ∉ Object_prototype_names →
  (key ∉ language_instructions.*1 →
   getLanguageInstruction key = Text "Write in fluent, professional English.") ∧
  (key ∉ tone_instructions.*1 →
   getToneInstruction key
     = Text "Use a professional, authoritative tone. Be clear, concise, and direct.").
Proof.
  intros Hproto.
  assert (existsb (String.eqb key) Object_prototype_names = false) as Hex.
  { apply not_true_is_false. intros (n & Hin & ->%String.eqb_eq)%existsb_exists.
    apply Hproto. by apply list_elem_of_In. }
  split; intros Hkey; unfold getLanguageInstruction, getToneInstruction, lookup_or, get;
    rewrite (TemplatesFacts.own_None _ _ Hkey), Hex; reflexivity.
Qed.

Lemma instruction_fallback_witness :
  ("klingon" ∉ language_instructions.*1 →
   getLanguageInstruction "klingon" = Text "Write in fluent, professional English.") ∧
  ("klingon" ∉ tone_instructions.*1 →
   getToneInstruction "klingon"
     = Text "Use a professional, authoritative tone. Be clear, concise, and direct.").
Proof.
  apply (instruction_fallback "klingon").
  apply (bool_decide_unpack _). by vm_compute.
Defined.

End PromptBuilderFacts.

Module SecretStorageFacts.
Import Js SecretStorage.

(** X16: on an initialised store, a key that was set is read back
    unchanged and counts as configured unless it is the empty string; a key
    that was deleted reads back [undefined] and counts as not configured;
    either way the other key and the provider are untouched. *)
Theorem key_round_trip (context_secrets : secrets) (key : string) :
  let storage := initializeSecretStorage context_secrets in
  (∃ storage',
     setApiKey storage key = Return storage' ∧
     getApiKey storage' = Return (Some key) ∧
     hasApiKey storage' = Return (negb (String.eqb key "")) ∧
     getHuggingFaceApiKey storage' = getHuggingFaceApiKey storage ∧
     getApiProvider storage' = getApiProvider storage) ∧
  (∃ storage',
     setHuggingFaceApiKey storage key = Return storage' ∧
     getHuggingFaceApiKey storage' = Return (Some key) ∧
     hasHuggingFaceApiKey storage' = Return (negb (String.eqb key "")) ∧
     getApiKey storage' = getApiKey storage ∧
     getApiProvider storage' = getApiProvider storage) ∧
  (∃ storage',
     deleteApiKey storage = Return storage' ∧
     getApiKey storage' = Return None ∧
     hasApiKey storage' = Return false ∧
     hasAnyApiKey storage' = hasHuggingFaceApiKey storage ∧
     getApiProvider storage' = getApiProvider storage) ∧
  (∃ storage',
     deleteHuggingFaceApiKey storage = Return storage' ∧
     getHuggingFaceApiKey storage' = Return None ∧
     hasHuggingFaceApiKey storage' = Return false ∧
     hasAnyApiKey storage' = hasApiKey storage ∧
     getApiProvider storage' = getApiProvider storage).
Proof.
  cbv zeta. repeat split; eexists; repeat split; try reflexivity.
  cbn. by rewrite orb_false_r.
Qed.

(** X17: with no provider stored, the provider is [huggingface], so
    [getActiveApiKey] reads the Groq key slot: a store holding only an
    OpenRouter key has a key ([hasAnyApiKey] is [true]) and yet no active
    key ([undefined]). *)
Theorem active_key_ignores_openrouter_by_default (context_secrets : secrets) :
  key_present (openrouter_api_key context_secrets) = true →
  huggingface_api_key context_secrets = None →
  api_provider context_secrets = None →
  let storage := initializeSecretStorage context_secrets in
  getApiProvider storage = Return "huggingface" ∧
  hasAnyApiKey storage = Return true ∧
  getActiveApiKey storage = Return None.
Proof.
  intros Hor Hhf Hp. cbv zeta. cbn. by rewrite Hor, Hhf, Hp.
Qed.

Lemma active_key_ignores_openrouter_by_default_witness :
  getApiProvider (initializeSecretStorage ReadmeGenerator.openrouter_key_only)
    = Return "huggingface" ∧
  hasAnyApiKey (initializeSecretStorage ReadmeGenerator.openrouter_key_only)
    = Return true ∧
  getActiveApiKey (initializeSecretStorage ReadmeGenerator.openrouter_key_only)
    = Return None.
Proof.
  exact (active_key_ignores_openrouter_by_default
           ReadmeGenerator.openrouter_key_only eq_refl eq_refl eq_refl).
Defined.

(** X18: before [initializeSecretStorage] has run, every reader and writer
    of the module throws ["Secret storage not initialized"]; none of them
    answers with a default. *)
Theorem uninitialized_storage_throws (key provider : string) :
  let error := "Secret storage not initialized" in
  setApiKey None key = Throw error ∧
  getApiKey None = Throw error ∧
  deleteApiKey None = Throw error ∧
  hasApiKey None = Throw error ∧
  setHuggingFaceApiKey None key = Throw error ∧
  getHuggingFaceApiKey None = Throw error ∧
  deleteHuggingFaceApiKey None = Throw error ∧
  hasHuggingFaceApiKey None = Throw error ∧
  setApiProvider None provider = Throw error ∧
  getApiProvider None = Throw error ∧
  hasAnyApiKey None = Throw error ∧
  getActiveApiKey None = Throw error.
Proof. cbv zeta. repeat split. Qed.

End SecretStorageFacts.


Module ReadmeGeneratorFacts.
Import Js SecretStorage ReadmeGenerator.

Section orchestrator_facts.
Context (Number_toString : float → string) (encodeURIComponent : string → string).
Context (toLowerCase : string → string).
Context (buildPrompt :
           ProjectInfo.t → DetectionResult.t → ProjectTypeResult.t →
           PromptOptions.t → Js.completion (string * string)).
Context (buildSectionRegeneratePrompt :
           ReadmeSection.t → ProjectInfo.t → DetectionResult.t →
           ProjectTypeResult.t → string → option string →
           Js.completion (string * string)).
Context (generateWithGroq generateWithStreaming : list ChatMessage.t → run).

Local Abbreviation generateOfflineReadme :=
  (generateOfflineReadme Number_toString encodeURIComponent toLowerCase).
Local Abbreviation generateReadme :=
  (generateReadme Number_toString encodeURIComponent toLowerCase buildPrompt
     generateWithGroq generateWithStreaming).
Local Abbreviation regenerateSection :=
  (regenerateSection buildSectionRegeneratePrompt
     generateWithGroq generateWithStreaming).

Lemma coerce_or_value (pkg : option json) (key fallback : string) :
  OfflineFallback.converts pkg key = true →
  ∃ text, Json.coerce Number_toString
            (OfflineFallback.or_value (Json.member pkg key) fallback) = Return text.
Proof.
  unfold OfflineFallback.converts, OfflineFallback.or_value, Json.coerce.
  destruct (Json.member pkg key) as [value|]; [|by eexists].
  destruct (Json.truthy (Some value)); cbn [negb orb]; [|by eexists].
  intros ->. by eexists.
Qed.

Lemma conversion_throws_false (projectInfo : ProjectInfo.t) (key : string) :
  OfflineFallback.converts (ProjectInfo.packageJson projectInfo) key = true →
  BadgeGenerator.conversion_throws projectInfo key = false.
Proof.
  unfold OfflineFallback.converts, BadgeGenerator.conversion_throws.
  destruct (Json.member _ key) as [value|]; [|done].
  by destruct (Json.truthy (Some value)), (Json.coercible value).
Qed.

(** For a printable project the offline document is built, and it is not
    empty. *)
Lemma generateOfflineReadme_returns (projectInfo : ProjectInfo.t)
    (detection : DetectionResult.t) (projectType : ProjectTypeResult.t) :
  OfflineFallback.printable projectInfo = true →
  ∃ content, generateOfflineReadme projectInfo detection projectType = Return content ∧
             content ≠ "".
Proof.
  unfold OfflineFallback.printable. cbv zeta.
  intros (((Hname & Hdesc)%andb_true_iff & Hlic)%andb_true_iff & Hver)%andb_true_iff.
  unfold ReadmeGenerator.generateOfflineReadme, OfflineFallback.generateOfflineReadme.
  cbv zeta. unfold BadgeGenerator.getBadgesMarkdown_call.
  rewrite (conversion_throws_false _ _ Hlic), (conversion_throws_false _ _ Hver).
  cbn [orb].
  destruct (coerce_or_value _ _ "A software project" Hdesc) as [description ->].
  destruct (coerce_or_value _ _ "MIT" Hlic) as [licenseName ->].
  assert (∃ name, OfflineFallback.or_value (Some (ProjectInfo.name projectInfo)) "Project"
                  = JStr name) as [name ->].
  { unfold OfflineFallback.or_value, OfflineFallback.name_is_text in *.
    destruct (ProjectInfo.name projectInfo) as [| | |name| |];
      try (destruct (Json.truthy _); [done|by eexists]).
    destruct (Json.truthy _); by eexists. }
  cbn [Json.coerce Json.coercible Json.to_string].
  eexists. split; [reflexivity|].
  cbn [join]. rewrite !JsFacts.append_String. discriminate.
Qed.


(** [regenerateSection] looks at the OpenRouter key alone: it refuses
    exactly when that key is absent, whatever the Groq key. *)
Lemma regenerateSection_refuses_iff (secretStorage : SecretStorage.t)
    (section : ReadmeSection.t) (projectInfo : ProjectInfo.t)
    (detection : DetectionResult.t) (projectType : ProjectTypeResult.t)
    (currentContent : string) (customInstructions : option string) :
  hasApiKey secretStorage = Return false →
  regenerateSection secretStorage section projectInfo detection projectType
    currentContent customInstructions =
    resolved [OnError "API key not configured. Cannot regenerate section."].
Proof. intros H. unfold ReadmeGenerator.regenerateSection. by rewrite H. Qed.

(** C8: with the Groq key configured and no OpenRouter key,
    [regenerateSection] refuses with [onError] and sends no request. *)
Theorem regenerateSection_refuses_groq_only
    (section : ReadmeSection.t) (projectInfo : ProjectInfo.t)
    (detection : DetectionResult.t) (projectType : ProjectTypeResult.t)
    (currentContent : string) (customInstructions : option string) :
  hasHuggingFaceApiKey groq_key_only = Return true ∧
  regenerateSection groq_key_only section projectInfo detection projectType
    currentContent customInstructions =
    resolved [OnError "API key not configured. Cannot regenerate section."].
Proof. split; [done|]. by apply regenerateSection_refuses_iff. Qed.

(** The sibling path: with the same store [generateReadme] does generate,
    through the Groq client. *)
Lemma generateReadme_groq_only (projectInfo : ProjectInfo.t)
    (detection : DetectionResult.t) (projectType : ProjectTypeResult.t)
    (options : GenerationOptions.t) (prompts : string * string) :
  buildPrompt projectInfo detection projectType
    (PromptOptions.mk (Templates.getTemplate (GenerationOptions.templateId options))
       (GenerationOptions.enabledSections options)
       (GenerationOptions.language options)
       (GenerationOptions.tone options)
       (GenerationOptions.customInstructions options)
       (GenerationOptions.includeBadges options)
       (GenerationOptions.customBadges options)) = Return prompts →
  head (events (generateReadme groq_key_only projectInfo detection projectType options))
    = Some (Request Groq (messages_of prompts)).
Proof.
  intros Hp. unfold ReadmeGenerator.generateReadme. cbn. rewrite Hp.
  unfold call_backend, useGroq. cbn.
  destruct (outcome (generateWithGroq (messages_of prompts))); [done|].
  by destruct (ReadmeGenerator.generateOfflineReadme _ _ _ _ _ _).
Qed.

(** With a key configured, a prompt compiler that throws on what
    [getTemplate] returned makes the whole request fail. *)
Lemma generateReadme_rejects_when_prompt_throws (projectInfo : ProjectInfo.t)
    (detection : DetectionResult.t) (projectType : ProjectTypeResult.t)
    (options : GenerationOptions.t) (error : string) :
  buildPrompt projectInfo detection projectType
    (PromptOptions.mk (Templates.getTemplate (GenerationOptions.templateId options))
       (GenerationOptions.enabledSections options)
       (GenerationOptions.language options)
       (GenerationOptions.tone options)
       (GenerationOptions.customInstructions options)
       (GenerationOptions.includeBadges options)
       (GenerationOptions.customBadges options)) = Throw error →
  generateReadme groq_key_only projectInfo detection projectType options
    = rejected [] error.
Proof. intros Hp. unfold ReadmeGenerator.generateReadme. cbn. by rewrite Hp. Qed.

Local Abbreviation generateReadmeSimple :=
  (generateReadmeSimple Number_toString encodeURIComponent toLowerCase buildPrompt
     generateWithGroq generateWithStreaming).

(** X24: with both keys stored and [huggingface] as the provider,
    [generateReadme] sends its request to Groq while [generateReadmeSimple],
    which does not read the provider, sends the same messages to
    OpenRouter. *)
Theorem generateReadmeSimple_ignores_provider (secrets : SecretStorage.secrets)
    (projectInfo : ProjectInfo.t) (detection : DetectionResult.t)
    (projectType : ProjectTypeResult.t) (options : GenerationOptions.t)
    (prompts : string * string) :
  key_present (huggingface_api_key secrets) = true →
  key_present (openrouter_api_key secrets) = true →
  getApiProvider (Some secrets) = Return "huggingface" →
  buildPrompt projectInfo detection projectType (prompt_options options)
    = Return prompts →
  head (events (generateReadme (Some secrets) projectInfo detection projectType options))
    = Some (Request Groq (messages_of prompts)) ∧
  head (generateReadmeSimple (Some secrets) projectInfo detection projectType options).1
    = Some (Request OpenRouter (messages_of prompts)).
Proof.
  intros Hhf Hor Hprov Hp. unfold prompt_options in Hp. split.
  - unfold ReadmeGenerator.generateReadme.
    cbn [hasHuggingFaceApiKey hasApiKey getHuggingFaceApiKey getApiKey].
    rewrite Hhf, Hor, Hprov. cbn [negb andb]. rewrite Hp.
    unfold call_backend, useGroq. cbn.
    destruct (outcome (generateWithGroq (messages_of prompts))); [done|].
    by destruct (ReadmeGenerator.generateOfflineReadme _ _ _ _ _ _).
  - unfold ReadmeGenerator.generateReadmeSimple.
    cbn [hasHuggingFaceApiKey hasApiKey getHuggingFaceApiKey getApiKey].
    rewrite Hhf, Hor. cbn [negb andb]. by rewrite Hp.
Qed.

End orchestrator_facts.



Lemma generateReadmeSimple_ignores_provider_witness :
  head (events (generateReadme sample_Number_toString sample_encodeURIComponent
                  toLowerCase sample_buildPrompt sample_client sample_client
                  (Some both_keys) sample_project sample_detection sample_type
                  sample_options))
    = Some (Request Groq (messages_of ("system", "user"))) ∧
  head (generateReadmeSimple sample_Number_toString sample_encodeURIComponent
          toLowerCase sample_buildPrompt sample_client sample_client
          (Some both_keys) sample_project sample_detection sample_type
          sample_options).1
    = Some (Request OpenRouter (messages_of ("system", "user"))).
Proof.
  apply (generateReadmeSimple_ignores_provider
           sample_Number_toString sample_encodeURIComponent toLowerCase
           sample_buildPrompt
           sample_client sample_client both_keys);
    reflexivity.
Defined.

End ReadmeGeneratorFacts.

Module GroqClientFacts.
Import Js JsFacts GroqClient.

Lemma stream_from_tokens (words : list string) (fuel i : nat) :
  length words ≤ i + chunkSize * fuel →
  join "" (omap token_of (stream_from fuel i words)) =
    if i <? length words then join " " (drop i words) +:+ " " else "".
Proof.
  revert i. induction fuel as [|fuel IH]; intros i Hlen.
  - simpl. rewrite (proj2 (Nat.ltb_ge _ _)); [done|]. unfold chunkSize in *. lia.
  - cbn [stream_from]. destruct (Nat.ltb_spec i (length words)) as [Hi|Hi]; [|done].
    cbv zeta. cbn [omap list_omap token_of]. rewrite join_empty_cons.
    rewrite IH by (unfold chunkSize in *; lia).
    destruct (Nat.ltb_spec (i + chunkSize) (length words)) as [Hj|Hj].
    + rewrite <-(take_drop chunkSize (drop i words)) at 2.
      rewrite drop_drop, join_sep_app.
      * by rewrite !append_assoc.
      * intros Hnil%(f_equal length). rewrite length_take, length_drop in Hnil.
        cbn [length] in Hnil. unfold chunkSize in *. lia.
      * intros Hnil%(f_equal length). rewrite length_drop in Hnil.
        cbn [length] in Hnil. lia.
    + rewrite take_ge by (rewrite length_drop; lia).
      by rewrite append_empty_r.
Qed.

Lemma stream_from_not_terminal (words : list string) (fuel i : nat) :
  Forall (λ a, is_terminal a = false ∧ is_fetch a = false) (stream_from fuel i words).
Proof.
  revert i. induction fuel as [|fuel IH]; intros i; cbn [stream_from]; [constructor|].
  destruct (i <? length words); [|constructor].
  cbv zeta. repeat constructor. apply IH.
Qed.


Lemma getModelDisplayName_defined (index : nat) :
  index < length GROQ_MODELS → ∃ name, getModelDisplayName index = Return name.
Proof.
  intros H. unfold getModelDisplayName, getCurrentModel.
  destruct (lookup_lt_is_Some_2 _ _ H) as [model ->]. by eexists.
Qed.

Lemma ends_once_snoc (before : list action) (last : action) :
  Forall (λ a, is_terminal a = false) before → is_terminal last = true →
  ends_once (before ++ [last]).
Proof. intros Hb Hl. by exists before, last. Qed.

Lemma ends_once_prepend (before actions : list action) :
  Forall (λ a, is_terminal a = false) before → ends_once actions →
  ends_once (before ++ actions).
Proof.
  intros Hb (pre & last & -> & Hl & Hpre).
  exists (before ++ pre), last. rewrite (assoc_L (++)). split; [done|].
  split; [done|]. by apply Forall_app.
Qed.

Lemma fetches_app (l1 l2 : list action) :
  fetches (l1 ++ l2) = fetches l1 + fetches l2.
Proof. unfold fetches. by rewrite filter_app, length_app. Qed.

Lemma fetches_terminal (last : action) :
  is_terminal last = true → fetches [last] = 0.
Proof. by destruct last. Qed.

Lemma simulate_streaming_quiet (generatedText : string) :
  Forall (λ a, is_terminal a = false) (simulate_streaming generatedText) ∧
  fetches (simulate_streaming generatedText) = 0.
Proof.
  unfold simulate_streaming. cbv zeta.
  pose proof (stream_from_not_terminal (split_on " " generatedText)
                (length (split_on " " generatedText)) 0) as Hall.
  split.
  - eapply Forall_impl; [exact Hall|]. by intros a [? _].
  - unfold fetches. induction Hall as [|a l [_ Ha] _ IH]; [done|].
    by rewrite filter_cons_False by congruence.
Qed.

Section client_facts.
Context (fetch : nat → response) (messages : list ChatMessage.t).

Lemma try_models_spec (fuel attempt index : nat) :
  index < length GROQ_MODELS → length GROQ_MODELS ≤ index + fuel →
  ∃ r, try_models fetch messages fuel attempt index = Some r ∧
       outcome r = Return tt ∧
       currentModelIndex r < length GROQ_MODELS ∧
       ends_once (actions r) ∧
       fetches (actions r) + index ≤ length GROQ_MODELS.
Proof.
  revert attempt index. induction fuel as [|fuel IH]; intros attempt index Hi Hfuel.
  { lia. }
  cbn [try_models].
  destruct (getModelDisplayName_defined index Hi) as [modelName ->]. cbv zeta.
  set (started := [Token _; Fetch _ _]).
  assert (Forall (λ a, is_terminal a = false) started) as Hstarted
    by (repeat constructor).
  assert (∀ l, fetches (started ++ l) = S (fetches l)) as Hfetch
    by (intros l; by rewrite fetches_app).
  (* a run that ends here *)
  assert (∀ before last index',
            Forall (λ a, is_terminal a = false) before → fetches before = 0 →
            is_terminal last = true → index' < length GROQ_MODELS →
            ∃ r, Some (mkResult (started ++ before ++ [last]) index' (Return tt)) = Some r ∧
                 outcome r = Return tt ∧
                 currentModelIndex r < length GROQ_MODELS ∧
                 ends_once (actions r) ∧
                 fetches (actions r) + index ≤ length GROQ_MODELS) as Hend.
  { intros before last index' Hb Hz Hl Hi'. eexists. split; [done|].
    cbn [outcome currentModelIndex actions]. repeat split; [done| |].
    - rewrite (assoc_L (++)). apply ends_once_snoc; [by apply Forall_app|done].
    - rewrite Hfetch, fetches_app, Hz, (fetches_terminal last Hl).
      change (length GROQ_MODELS) with 4 in *. lia. }
  (* a run that goes on with the next model *)
  assert (∀ phrase ms otherwise,
            (∃ r, otherwise = Some r ∧ outcome r = Return tt ∧
                  currentModelIndex r < length GROQ_MODELS ∧
                  ends_once (actions r) ∧
                  fetches (actions r) + index ≤ length GROQ_MODELS) →
            ∃ r,
              (if (switchToNextModel index).2
               then match getModelDisplayName (switchToNextModel index).1 with
                    | Throw e => Some (mkResult started (switchToNextModel index).1 (Throw e))
                    | Return nextModel =>
                        prepend (started ++ [Token (switching_notice phrase nextModel); Sleep ms])
                          (try_models fetch messages fuel (S attempt)
                             (switchToNextModel index).1)
                    end
               else otherwise) = Some r ∧
              outcome r = Return tt ∧
              currentModelIndex r < length GROQ_MODELS ∧
              ends_once (actions r) ∧
              fetches (actions r) + index ≤ length GROQ_MODELS) as Hswitch.
  { intros phrase ms otherwise Hother. unfold switchToNextModel.
    destruct (Nat.ltb_spec index (length GROQ_MODELS - 1)) as [Hlt|Hge];
      cbn [fst snd]; [|done].
    destruct (getModelDisplayName_defined (S index) ltac:(lia)) as [nextModel ->].
    destruct (IH (S attempt) (S index) ltac:(lia) ltac:(lia))
      as (r & -> & Ho & Hidx & Hends & Hf).
    eexists. split; [done|]. cbn [outcome currentModelIndex actions].
    repeat split; [done|done| |].
    - apply ends_once_prepend; [|done].
      apply Forall_app. split; [done|repeat constructor].
    - rewrite <-(assoc_L (++)), Hfetch, fetches_app.
      change (fetches [Token _; Sleep _]) with 0. lia. }
  assert (resetToFirstModel < length GROQ_MODELS) as Hreset
    by (unfold resetToFirstModel; cbn; lia).
  destruct (fetch attempt) as [error|status errorMessage|generatedText].
  - apply Hswitch. by apply (Hend [] (Error error)).
  - destruct (status =? 429).
    { apply Hswitch. by apply (Hend [] (Error _)). }
    destruct (status =? 404).
    { apply Hswitch. by apply (Hend [] (Error _)). }
    destruct (status =? 401); by apply (Hend [] (Error _)).
  - destruct (simulate_streaming_quiet generatedText) as [Hq Hz].
    destruct (blank generatedText).
    + apply Hswitch. by apply (Hend _ (Complete _)).
    + by apply (Hend _ (Complete _)).
Qed.

(** X26: once the secret store is initialised, [generateWithGroq] always
    comes to an end: whatever the requests meet and wherever the model index
    stood, its promise resolves (it never rejects), it has sent at most four
    requests, one per model, and it has called exactly one of [onComplete]
    and [onError], exactly once and after every [onToken]. *)
Theorem generateWithGroq_ends_once (secrets : SecretStorage.secrets)
    (currentModelIndex0 : nat) :
  ∃ r, generateWithGroq fetch messages (Some secrets) currentModelIndex0 = Some r ∧
       outcome r = Return tt ∧
       ends_once (actions r) ∧
       fetches (actions r) ≤ length GROQ_MODELS.
Proof.
  unfold generateWithGroq. cbn [SecretStorage.getHuggingFaceApiKey].
  destruct (SecretStorage.key_present _).
  - cbn [negb].
    destruct (try_models_spec (length GROQ_MODELS) 0 resetToFirstModel)
      as (r & Hr & Ho & _ & He & Hf);
      [unfold resetToFirstModel; cbn; lia|unfold resetToFirstModel; lia|].
    exists r. repeat split; [done|done|done|lia].
  - cbn [negb]. eexists. split; [done|]. cbn [outcome actions].
    repeat split; [|vm_compute; lia].
    by apply (ends_once_snoc [] (Error _)).
Qed.

End client_facts.

Section orchestrator_facts.
Import SecretStorage ReadmeGenerator.
Context (Number_toString : float → string) (encodeURIComponent : string → string).
Context (toLowerCase : string → string).
Context (buildPrompt :
           ProjectInfo.t → DetectionResult.t → ProjectTypeResult.t →
           PromptOptions.t → Js.completion (string * string)).
Context (generateWithStreaming : list ChatMessage.t → run).
Context (fetch : nat → GroqClient.response) (currentModelIndex0 : nat).

Lemma first_resolve_ends_once (offlineContent : string) (before : list event)
    (actions : list GroqClient.action) :
  Forall (λ e, match e with OnComplete _ | OnError _ => False | _ => True end) before →
  ends_once actions →
  ∃ result,
    first_resolve (Return offlineContent) (before ++ omap callback_of actions)
    = Some (Fulfilled result).
Proof.
  intros Hb (pre & last & -> & Hl & Hpre).
  induction Hb as [|e before He _ IH]; csimpl.
  - induction Hpre as [|a pre Ha _ IH]; csimpl.
    + destruct last; try discriminate; by eexists.
    + destruct a; try discriminate; csimpl; done.
  - destruct e; done.
Qed.


End orchestrator_facts.


End GroqClientFacts.

Module OpenRouterClientFacts.
Import Js OpenRouterClient.

(** X28: the pause before a retry doubles from 2 seconds, 2000, 4000,
    8000, 16000 milliseconds for attempts 0 to 3, and is 30 seconds from
    attempt 4 on. *)
Theorem getRetryDelay_values (attempt : nat) :
  getRetryDelay attempt =
    if attempt <? 4 then (2000 * 2 ^ N.of_nat attempt)%N else 30000%N.
Proof.
  unfold getRetryDelay, INITIAL_DELAY_MS, MAX_DELAY_MS.
  destruct (Nat.ltb_spec attempt 4) as [Hlt|Hge].
  - do 4 (destruct attempt as [|attempt]; [reflexivity|]). lia.
  - apply N.min_r.
    assert (2 ^ 4 ≤ 2 ^ N.of_nat attempt)%N as Hpow
      by (apply N.pow_le_mono_r; lia).
    change (2 ^ 4)%N with 16%N in Hpow. lia.
Qed.

Lemma getRetryDelay_le (attempt : nat) : (getRetryDelay attempt ≤ MAX_DELAY_MS)%N.
Proof. unfold getRetryDelay. apply N.le_min_r. Qed.

Section retry_facts.
Context {response : Type} (status : response → nat).
Context (fetch : nat → fetched response) (onRetry : bool).

Local Abbreviation attempts := (attempts status fetch onRetry).
Local Abbreviation fetchWithRetry := (fetchWithRetry status fetch onRetry).

Lemma retry_steps_spec (attempt : nat) :
  filter (λ s, is_fetch s = true) (retry_steps onRetry attempt) = [] ∧
  total_sleep (retry_steps onRetry attempt) = getRetryDelay attempt.
Proof.
  unfold retry_steps. cbv zeta. destruct onRetry; csimpl; split; try done;
    unfold total_sleep; cbn; lia.
Qed.

Lemma attempts_spec (maxRetries remaining attempt : nat) (lastError : option string) :
  attempt + remaining = S maxRetries → 0 < remaining →
  let r := attempts maxRetries remaining attempt lastError in
  0 < length (filter (λ s, is_fetch s = true) r.1) ≤ remaining ∧
  (total_sleep r.1 ≤ MAX_DELAY_MS * N.of_nat (maxRetries - attempt))%N ∧
  (∀ e, r.2 = Throw e → fetch maxRetries = Rejected e) ∧
  (∀ x, r.2 = Return x →
        ∃ k, attempt ≤ k ≤ maxRetries ∧ fetch k = Responded x ∧
             (status x ≠ 429 ∨ k = maxRetries)).
Proof.
  revert attempt lastError.
  induction remaining as [|remaining IH]; intros attempt lastError Hsum Hpos; [lia|].
  cbv zeta. cbn [OpenRouterClient.attempts].
  destruct (retry_steps_spec attempt) as [Hnofetch Hsleep].
  assert (∀ rest : list step * completion response,
            total_sleep (Fetch attempt :: retry_steps onRetry attempt ++ rest.1)
            = (getRetryDelay attempt + total_sleep rest.1)%N) as Hts.
  { intros rest. unfold total_sleep in *. csimpl.
    rewrite fmap_app, foldr_app.
    generalize (foldr N.add 0%N (slept <$> rest.1)). intros n.
    rewrite <-Hsleep. clear.
    induction (slept <$> retry_steps onRetry attempt) as [|x l IHl]; csimpl; lia. }
  assert (∀ rest : list step * completion response,
            length (filter (λ s, is_fetch s = true)
                      (Fetch attempt :: retry_steps onRetry attempt ++ rest.1))
            = S (length (filter (λ s, is_fetch s = true) rest.1))) as Hfc.
  { intros rest. rewrite filter_cons_True by done. csimpl.
    by rewrite filter_app, Hnofetch. }
  pose proof (getRetryDelay_le attempt) as Hdelay.
  destruct (fetch attempt) as [x|error] eqn:Hfetch.
  - destruct (status x =? 429) eqn:H429; cbn [andb].
    + destruct (Nat.ltb_spec attempt maxRetries) as [Hlt|Hge]; cbn [fst snd].
      * destruct (IH (S attempt) lastError ltac:(lia) ltac:(lia))
          as (Hf & Hs & Ht & Hr).
        rewrite Hts, Hfc. repeat split; [lia|lia| |done|].
        -- replace (maxRetries - attempt) with (S (maxRetries - S attempt)) by lia.
           lia.
        -- intros y Hy. destruct (Hr y Hy) as (k & Hk & Hfk & Hst).
           exists k. split; [lia|done].
      * repeat split; csimpl; try lia; try done.
        -- change (total_sleep [Fetch attempt]) with 0%N. apply N.le_0_l.
        -- intros y [= <-]. exists attempt. repeat split; [lia|lia|done|right; lia].
    + cbn [fst snd]. repeat split; csimpl; try lia; try done.
      * change (total_sleep [Fetch attempt]) with 0%N. apply N.le_0_l.
      * intros y [= <-]. exists attempt. repeat split; [lia|lia|done|left].
        by apply Nat.eqb_neq.
  - destruct remaining as [|remaining'].
    + (* the last attempt *)
      assert (attempt = maxRetries) as -> by lia.
      rewrite Nat.ltb_irrefl. cbn [OpenRouterClient.attempts fst snd default].
      repeat split; csimpl; try lia; try done.
      * change (total_sleep [Fetch maxRetries]) with 0%N. apply N.le_0_l.
      * by intros e [= <-].
    + destruct (IH (S attempt) (Some error) ltac:(lia) ltac:(lia))
        as (Hf & Hs & Ht & Hr).
      rewrite (proj2 (Nat.ltb_lt attempt maxRetries)) by lia. cbn [fst snd].
      rewrite Hts, Hfc. repeat split; [lia|lia| |done|].
      * replace (maxRetries - attempt) with (S (maxRetries - S attempt)) by lia.
        lia.
      * intros y Hy. destruct (Hr y Hy) as (k & Hk & Hfk & Hst).
        exists k. split; [lia|done].
Qed.

(** X29: for a natural number [maxRetries], [fetchWithRetry] calls [fetch]
    at least once and at most [maxRetries + 1] times and sleeps at most 30
    seconds per retry.  When it
    returns a response, that response is not a 429 unless it came from the
    last allowed call; when it throws, it throws the error of the last
    allowed call, so the message "Request failed after retries" is never
    used. *)
Theorem fetchWithRetry_bounded (maxRetries : nat) :
  let r := fetchWithRetry maxRetries in
  0 < length (filter (λ s, is_fetch s = true) r.1) ≤ maxRetries + 1 ∧
  (total_sleep r.1 ≤ MAX_DELAY_MS * N.of_nat maxRetries)%N ∧
  (∀ e, r.2 = Throw e → fetch maxRetries = Rejected e) ∧
  (∀ x, r.2 = Return x →
        ∃ k, k ≤ maxRetries ∧ fetch k = Responded x ∧
             (status x ≠ 429 ∨ k = maxRetries)).
Proof.
  cbv zeta. unfold OpenRouterClient.fetchWithRetry.
  destruct (attempts_spec maxRetries (S maxRetries) 0 None ltac:(lia) ltac:(lia))
    as (Hf & Hs & Ht & Hr).
  rewrite Nat.sub_0_r in Hs. repeat split; [lia|lia|done|done|].
  intros x Hx. destruct (Hr x Hx) as (k & Hk & Hfk & Hst).
  exists k. split; [lia|done].
Qed.

End retry_facts.

End OpenRouterClientFacts.
